(** * czech-fool: the room game-state machine of [server.py]

    A shallow embedding of the card model, the legality rule, the per-turn
    handlers ([handle_play_card], [handle_draw_card], [handle_skip_turn]),
    the round tally ([handle_game_end]) and the deal ([start_game]) of the
    game server, together with the properties its specification states; and
    of the bot ([make_bot_move]), the reload of a room ([load_room],
    [save_room_to_db]), the reconnect ([handle_reconnect]) and the delivery
    of events ([send_to_player], [broadcast_to_room]), with further
    properties of the code.

    Conventions of the embedding.
    - Python lists are Rocq lists in the same order: the top of [deck] and of
      [discard_pile] is the LAST element ([list.pop()], [l[-1]], [l[:-1]] are
      [pop], [last], [removelast]).
    - [room.players] is an insertion-ordered dict: an association list
      [list (string * Player)], looked up and updated by key.
    - [self.rooms], [self.clients], [self.player_rooms] are dicts used as
      maps: [gmap]. [room.eight_drawn_cards] is a set of ids that is attached
      to the room object dynamically ([hasattr]): [option (gset string)].
    - [random] and [uuid] are an explicit source of choices [Random].
    - Everything a handler sends or schedules is returned as a list of
      [Effect]s in the order of emission; a Python exception is [Except]. *)

From stdpp Require Import base option list strings pretty gmap.
From Stdlib Require Import ZArith Lia.

Local Open Scope Z_scope.
Local Open Scope nat_scope.

(** ** Python helpers *)

(** [a == b] on [str]. *)
Definition str_eq (a b : string) : bool := String.eqb a b.

(** [x in [..]] on a list of [str]. *)
Definition str_in (a : string) (l : list string) : bool := existsb (str_eq a) l.

(** Truthiness of an [Optional[str]]: [None] and the empty string are falsy. *)
Definition truthy (o : option string) : bool :=
  match o with
  | Some s => negb (str_eq s "")
  | None => false
  end.

(** [l.pop()]: the last element and the rest, [None] when Python raises
    [IndexError]. *)
Definition pop {A} (l : list A) : option (A * list A) :=
  match last l with
  | Some x => Some (x, removelast l)
  | None => None
  end.

(** ** Data model *)

Record Card := mkCard {
  suit : string;   (* hearts, diamonds, clubs, spades *)
  rank : string;   (* 2-10, J, Q, K, A *)
  card_id : string
}.

(** Dataclass equality: field by field. *)
Definition card_eq (a b : Card) : bool :=
  str_eq (suit a) (suit b) && str_eq (rank a) (rank b) && str_eq (card_id a) (card_id b).

(** [hand.remove(card)]: drops the first element equal to [card]. *)
Fixpoint list_remove (card : Card) (l : list Card) : list Card :=
  match l with
  | [] => []
  | c :: l' => if card_eq c card then l' else c :: list_remove card l'
  end.

Record Player := mkPlayer {
  player_id : string;
  nickname : string;
  hand : list Card;
  ready : bool;
  score : Z;
  is_bot : bool
}.

(** [Player.to_dict]: the public view of a seat. *)
Record PlayerDict := mkPlayerDict {
  pd_id : string;
  pd_nickname : string;
  pd_hand_count : nat;
  pd_ready : bool;
  pd_score : Z;
  pd_is_bot : bool
}.

Definition Player_to_dict (p : Player) : PlayerDict :=
  {| pd_id := player_id p; pd_nickname := nickname p;
     pd_hand_count := length (hand p); pd_ready := ready p;
     pd_score := score p; pd_is_bot := is_bot p |}.

Record Room := mkRoom {
  room_id : string;
  players : list (string * Player);
  deck : list Card;
  discard_pile : list Card;
  current_player_index : nat;
  dealer_index : nat;
  game_started : bool;
  chosen_suit : option string;
  waiting_for_eight : bool;
  card_drawn_this_turn : bool;
  eight_draw_used : bool;
  countdown_active : bool;
  last_loser_id : option string;
  deck_size : nat;
  creator_id : option string;
  is_private : bool;
  eight_drawn_cards : option (gset string)
}.

(** Attribute assignments [room.f = v]. *)
Definition set_players (v : list (string * Player)) (r : Room) : Room :=
  mkRoom (room_id r) v (deck r) (discard_pile r) (current_player_index r)
    (dealer_index r) (game_started r) (chosen_suit r) (waiting_for_eight r)
    (card_drawn_this_turn r) (eight_draw_used r) (countdown_active r)
    (last_loser_id r) (deck_size r) (creator_id r) (is_private r) (eight_drawn_cards r).
Definition set_deck (v : list Card) (r : Room) : Room :=
  mkRoom (room_id r) (players r) v (discard_pile r) (current_player_index r)
    (dealer_index r) (game_started r) (chosen_suit r) (waiting_for_eight r)
    (card_drawn_this_turn r) (eight_draw_used r) (countdown_active r)
    (last_loser_id r) (deck_size r) (creator_id r) (is_private r) (eight_drawn_cards r).
Definition set_discard_pile (v : list Card) (r : Room) : Room :=
  mkRoom (room_id r) (players r) (deck r) v (current_player_index r)
    (dealer_index r) (game_started r) (chosen_suit r) (waiting_for_eight r)
    (card_drawn_this_turn r) (eight_draw_used r) (countdown_active r)
    (last_loser_id r) (deck_size r) (creator_id r) (is_private r) (eight_drawn_cards r).
Definition set_current_player_index (v : nat) (r : Room) : Room :=
  mkRoom (room_id r) (players r) (deck r) (discard_pile r) v
    (dealer_index r) (game_started r) (chosen_suit r) (waiting_for_eight r)
    (card_drawn_this_turn r) (eight_draw_used r) (countdown_active r)
    (last_loser_id r) (deck_size r) (creator_id r) (is_private r) (eight_drawn_cards r).
Definition set_dealer_index (v : nat) (r : Room) : Room :=
  mkRoom (room_id r) (players r) (deck r) (discard_pile r) (current_player_index r)
    v (game_started r) (chosen_suit r) (waiting_for_eight r)
    (card_drawn_this_turn r) (eight_draw_used r) (countdown_active r)
    (last_loser_id r) (deck_size r) (creator_id r) (is_private r) (eight_drawn_cards r).
Definition set_game_started (v : bool) (r : Room) : Room :=
  mkRoom (room_id r) (players r) (deck r) (discard_pile r) (current_player_index r)
    (dealer_index r) v (chosen_suit r) (waiting_for_eight r)
    (card_drawn_this_turn r) (eight_draw_used r) (countdown_active r)
    (last_loser_id r) (deck_size r) (creator_id r) (is_private r) (eight_drawn_cards r).
Definition set_chosen_suit (v : option string) (r : Room) : Room :=
  mkRoom (room_id r) (players r) (deck r) (discard_pile r) (current_player_index r)
    (dealer_index r) (game_started r) v (waiting_for_eight r)
    (card_drawn_this_turn r) (eight_draw_used r) (countdown_active r)
    (last_loser_id r) (deck_size r) (creator_id r) (is_private r) (eight_drawn_cards r).
Definition set_waiting_for_eight (v : bool) (r : Room) : Room :=
  mkRoom (room_id r) (players r) (deck r) (discard_pile r) (current_player_index r)
    (dealer_index r) (game_started r) (chosen_suit r) v
    (card_drawn_this_turn r) (eight_draw_used r) (countdown_active r)
    (last_loser_id r) (deck_size r) (creator_id r) (is_private r) (eight_drawn_cards r).
Definition set_card_drawn_this_turn (v : bool) (r : Room) : Room :=
  mkRoom (room_id r) (players r) (deck r) (discard_pile r) (current_player_index r)
    (dealer_index r) (game_started r) (chosen_suit r) (waiting_for_eight r)
    v (eight_draw_used r) (countdown_active r)
    (last_loser_id r) (deck_size r) (creator_id r) (is_private r) (eight_drawn_cards r).
Definition set_eight_draw_used (v : bool) (r : Room) : Room :=
  mkRoom (room_id r) (players r) (deck r) (discard_pile r) (current_player_index r)
    (dealer_index r) (game_started r) (chosen_suit r) (waiting_for_eight r)
    (card_drawn_this_turn r) v (countdown_active r)
    (last_loser_id r) (deck_size r) (creator_id r) (is_private r) (eight_drawn_cards r).
Definition set_countdown_active (v : bool) (r : Room) : Room :=
  mkRoom (room_id r) (players r) (deck r) (discard_pile r) (current_player_index r)
    (dealer_index r) (game_started r) (chosen_suit r) (waiting_for_eight r)
    (card_drawn_this_turn r) (eight_draw_used r) v
    (last_loser_id r) (deck_size r) (creator_id r) (is_private r) (eight_drawn_cards r).
Definition set_last_loser_id (v : option string) (r : Room) : Room :=
  mkRoom (room_id r) (players r) (deck r) (discard_pile r) (current_player_index r)
    (dealer_index r) (game_started r) (chosen_suit r) (waiting_for_eight r)
    (card_drawn_this_turn r) (eight_draw_used r) (countdown_active r)
    v (deck_size r) (creator_id r) (is_private r) (eight_drawn_cards r).
Definition set_deck_size (v : nat) (r : Room) : Room :=
  mkRoom (room_id r) (players r) (deck r) (discard_pile r) (current_player_index r)
    (dealer_index r) (game_started r) (chosen_suit r) (waiting_for_eight r)
    (card_drawn_this_turn r) (eight_draw_used r) (countdown_active r)
    (last_loser_id r) v (creator_id r) (is_private r) (eight_drawn_cards r).
Definition set_is_private (v : bool) (r : Room) : Room :=
  mkRoom (room_id r) (players r) (deck r) (discard_pile r) (current_player_index r)
    (dealer_index r) (game_started r) (chosen_suit r) (waiting_for_eight r)
    (card_drawn_this_turn r) (eight_draw_used r) (countdown_active r)
    (last_loser_id r) (deck_size r) (creator_id r) v (eight_drawn_cards r).
Definition set_eight_drawn_cards (v : option (gset string)) (r : Room) : Room :=
  mkRoom (room_id r) (players r) (deck r) (discard_pile r) (current_player_index r)
    (dealer_index r) (game_started r) (chosen_suit r) (waiting_for_eight r)
    (card_drawn_this_turn r) (eight_draw_used r) (countdown_active r)
    (last_loser_id r) (deck_size r) (creator_id r) (is_private r) v.

(** [Room.to_dict]. *)
Record RoomDict := mkRoomDict {
  rd_id : string;
  rd_players : list PlayerDict;
  rd_player_count : nat;
  rd_game_started : bool;
  rd_deck_size : nat;
  rd_creator_id : option string;
  rd_is_private : bool
}.

Definition Room_to_dict (r : Room) : RoomDict :=
  {| rd_id := room_id r;
     rd_players := map (fun kp => Player_to_dict (snd kp)) (players r);
     rd_player_count := length (players r);
     rd_game_started := game_started r;
     rd_deck_size := deck_size r;
     rd_creator_id := creator_id r;
     rd_is_private := is_private r |}.

(** *** The players dict *)

(** [list(room.players.keys())]. *)
Definition player_ids (r : Room) : list string := map fst (players r).

(** [players[pid]] / [players.get(pid)]. *)
Fixpoint get_player (pid : string) (ps : list (string * Player)) : option Player :=
  match ps with
  | [] => None
  | (k, p) :: ps' => if str_eq k pid then Some p else get_player pid ps'
  end.

(** In-place mutation of the object stored under [pid]. *)
Fixpoint update_player (pid : string) (f : Player -> Player)
    (ps : list (string * Player)) : list (string * Player) :=
  match ps with
  | [] => []
  | (k, p) :: ps' =>
      if str_eq k pid then (k, f p) :: ps' else (k, p) :: update_player pid f ps'
  end.

(** [del players[pid]]. *)
Definition del_player (pid : string) (ps : list (string * Player)) : list (string * Player) :=
  filter (fun kp => str_eq (fst kp) pid = false) ps.

Definition set_hand (h : list Card) (p : Player) : Player :=
  mkPlayer (player_id p) (nickname p) h (ready p) (score p) (is_bot p).
Definition set_ready (b : bool) (p : Player) : Player :=
  mkPlayer (player_id p) (nickname p) (hand p) b (score p) (is_bot p).
Definition set_score (s : Z) (p : Player) : Player :=
  mkPlayer (player_id p) (nickname p) (hand p) (ready p) s (is_bot p).

(** [player.hand.append(card)]. *)
Definition hand_append (c : Card) (p : Player) : Player := set_hand (hand p ++ [c]) p.

(** ** Randomness *)

(** The choices a handler takes from [random] and [uuid] during one call. *)
Record Random := mkRandom {
  shuffle : list Card -> list Card;      (* random.shuffle *)
  randint : nat -> nat -> nat;           (* random.randint(a, b) *)
  choice : list string -> string;        (* random.choice *)
  uuid4 : nat -> string                  (* the n-th str(uuid.uuid4()) of the call *)
}.

(** What the library guarantees of them. *)
Record Random_ok (g : Random) : Prop := {
  shuffle_perm : forall l, shuffle g l ≡ₚ l;
  randint_range : forall a b, a <= b -> a <= randint g a b <= b
}.

(** ** Card and deck model *)

Definition suits : list string := ["hearts"; "diamonds"; "clubs"; "spades"].
Definition ranks36 : list string := ["6"; "7"; "8"; "9"; "10"; "J"; "Q"; "K"; "A"].
Definition ranks52 : list string :=
  ["2"; "3"; "4"; "5"; "6"; "7"; "8"; "9"; "10"; "J"; "Q"; "K"; "A"].

(** [create_deck]: suits outer, ranks inner, a fresh id per card, shuffled. *)
Definition create_deck (g : Random) (deck_size : nat) : list Card :=
  let ranks := if deck_size =? 36 then ranks36 else ranks52 in
  let faces := flat_map (fun s => map (fun r => (s, r)) ranks) suits in
  shuffle g (imap (fun n sr => mkCard (fst sr) (snd sr) (uuid4 g n)) faces).

(** The first [can_play_card] of the class body (three parameters); the
    later definition of the same name replaces it. *)
Module Shadowed.
Definition can_play_card (card top_card : Card) (chosen_suit : option string) : bool :=
  if str_eq (rank card) "Q" then true
  else if truthy chosen_suit then
    match chosen_suit with
    | Some s => str_eq (suit card) s || str_eq (rank card) (rank top_card)
    | None => str_eq (rank card) (rank top_card)
    end
  else str_eq (suit card) (suit top_card) || str_eq (rank card) (rank top_card).
End Shadowed.

(** The [can_play_card] in force (four parameters). *)
Definition can_play_card (card top_card : Card) (chosen_suit : option string)
    (waiting_for_eight : bool) : bool :=
  if waiting_for_eight then str_eq (rank card) "2"
  else if str_eq (rank card) "Q" then true
  else if truthy chosen_suit then
    match chosen_suit with
    | Some s => str_eq (suit card) s || str_eq (rank card) (rank top_card)
    | None => str_eq (rank card) (rank top_card)
    end
  else str_eq (suit card) (suit top_card) || str_eq (rank card) (rank top_card).

(** [int(s)] on a string of decimal digits. *)
Definition digit (c : Ascii.ascii) : option Z :=
  let n := Ascii.nat_of_ascii c in
  if (48 <=? n) && (n <=? 57) then Some (Z.of_nat (n - 48)) else None.

Fixpoint int_acc (acc : Z) (s : string) : option Z :=
  match s with
  | EmptyString => Some acc
  | String c s' =>
      match digit c with
      | Some d => int_acc (10 * acc + d)%Z s'
      | None => None
      end
  end.

Definition int (s : string) : option Z :=
  match s with
  | EmptyString => None
  | _ => int_acc 0%Z s
  end.

Definition calculate_card_points (card : Card) : Z :=
  if str_in (rank card) ["2"; "3"; "4"; "5"; "6"; "7"; "8"; "9"; "10"] then
    default 0%Z (int (rank card))
  else if str_eq (rank card) "J" then 2%Z
  else if str_eq (rank card) "Q" then
    (if str_eq (suit card) "spades" then 40%Z else 20%Z)
  else if str_eq (rank card) "K" then 4%Z
  else if str_eq (rank card) "A" then 11%Z
  else 0%Z.

Definition calculate_hand_points (hand : list Card) : Z :=
  foldr (fun c acc => (calculate_card_points c + acc)%Z) 0%Z hand.

(** [replenish_deck]: the room after the call and the returned flag. *)
Definition replenish_deck (g : Random) (room : Room) : Room * bool :=
  if (length (deck room) =? 0) && (1 <? length (discard_pile room)) then
    match last (discard_pile room) with
    | Some top_card =>
        let cards_to_shuffle := removelast (discard_pile room) in
        (set_discard_pile [top_card] (set_deck (shuffle g cards_to_shuffle) room), true)
    | None => (room, false)
    end
  else (room, false).

(** ** Outbound events *)

(** The three [forced_draw_*] keys a message gets after a 6 or a 7. *)
Record ForcedDraw := mkForcedDraw {
  forced_draw_player_id : string;
  forced_draw_player_nickname : string;
  forced_draw_count : nat
}.

Record GameStarted := mkGameStarted {
  gs_hand : list Card;
  gs_top_card : option Card;
  gs_current_player : string;
  gs_dealer : string;
  gs_players : list PlayerDict;
  gs_deck_count : nat;
  gs_chosen_suit : option string;
  gs_waiting_for_eight : bool;
  gs_eight_draw_used : bool;
  gs_eight_drawn_cards : list string;
  gs_deck_size : nat;
  gs_forced_draw : option ForcedDraw
}.

Record CardPlayed := mkCardPlayed {
  cp_player_id : string;
  cp_player_nickname : string;
  cp_card : Card;
  cp_top_card : option Card;
  cp_current_player : string;
  cp_hand : list Card;
  cp_players : list PlayerDict;
  cp_deck_count : nat;
  cp_chosen_suit : option string;
  cp_waiting_for_eight : bool;
  cp_eight_draw_used : bool;
  cp_card_drawn_this_turn : bool;
  cp_eight_drawn_cards : list string;
  cp_deck_size : nat;
  cp_forced_draw : option ForcedDraw
}.

Record CardDrawn := mkCardDrawn {
  cd_player_id : string;
  cd_player_nickname : string;
  cd_cards_count : nat;
  cd_current_player : string;
  cd_hand : list Card;
  cd_players : list PlayerDict;
  cd_deck_count : nat;
  cd_waiting_for_eight : bool;
  cd_eight_draw_used : bool;
  cd_card_drawn_this_turn : bool;
  cd_chosen_suit : option string;
  cd_top_card : option Card;
  cd_eight_drawn_cards : list string
}.

Record TurnSkipped := mkTurnSkipped {
  ts_player_id : string;
  ts_player_nickname : string;
  ts_current_player : string;
  ts_hand : list Card;
  ts_players : list PlayerDict;
  ts_card_drawn_this_turn : bool;
  ts_chosen_suit : option string;
  ts_waiting_for_eight : bool;
  ts_eight_draw_used : bool;
  ts_eight_drawn_cards : list string;
  ts_top_card : option Card;
  ts_log_message : string
}.

(** One entry of [results] in [game_ended]. *)
Record ResultEntry := mkResultEntry {
  re_player_id : string;
  re_nickname : string;
  re_points : Z;
  re_total_score : Z;
  re_hand : list Card;
  re_queen_bonus : option Z     (* the key exists for the winner only *)
}.

(** The events, by their [type]. *)
Inductive Message :=
| ev_error (message : string)
| ev_game_started (m : GameStarted)
| ev_card_played (m : CardPlayed)
| ev_card_drawn (m : CardDrawn)
| ev_turn_skipped (m : TurnSkipped)
| ev_deck_shuffled (log_message : string)
| ev_game_ended (winner_id : string) (winning_card : option Card) (results : list ResultEntry)
| ev_final_winner (winner_id : option string) (winner_nickname : string)
    (kicked_players : list string)
| ev_player_kicked (player_id player_nickname reason : string)
| ev_player_ready_changed (player_id : string) (ready : bool)
| ev_countdown_cancelled
| ev_room_updated (room : RoomDict)
| ev_rooms_list (rooms : list RoomDict).

(** A websocket connection. *)
Definition WS := nat.

Inductive Effect :=
| WsSend (ws : WS) (m : Message)                    (* await ws.send(json.dumps(m)) *)
| SendToPlayer (player_id : string) (m : Message)   (* self.send_to_player(pid, m) *)
| BroadcastToRoom (room_id : string) (m : Message)  (* self.broadcast_to_room(room_id, m) *)
| BroadcastRooms (m : Message)                      (* the rooms_list sent to every client *)
| SaveRoomToDb (room_id : string)      (* asyncio.create_task(self.save_room_to_db(..)) *)
| DbDeleteRoom (room_id : string)      (* await self.db.delete_room(room_id) *)
| MakeBotMove (room_id bot_id : string) (* asyncio.create_task(self.make_bot_move(..)) *)
| StartCountdown (room_id : string)    (* asyncio.create_task(self.start_countdown(..)) *)
| CancelCountdown (room_id : string).  (* room.countdown_task.cancel() *)

(** [if ws: await ws.send(m)] *)
Definition send_if_ws (ws : option WS) (m : Message) : list Effect :=
  match ws with
  | Some w => [WsSend w m]
  | None => []
  end.

(** What a handler did to one room. Every constructor carries the room as
    the handler left it. *)
Inductive Outcome :=
| Rejected (room : Room) (out : list Effect)  (* a validation failed: early [return] *)
| Raised (exn : string) (room : Room)         (* a Python exception escaped *)
| RoundOver (room : Room) (winner_id : string)
    (* the hand is empty: [handle_game_end(room_id, player_id)] runs on this room *)
| Accepted (room : Room) (out : list Effect). (* the action was carried out *)

(** [await ws.send(m); return] with no [if ws] guard: dereferences [None]
    when the caller is a bot. *)
Definition send_unguarded (ws : option WS) (m : Message) (room : Room) : Outcome :=
  match ws with
  | Some w => Rejected room [WsSend w m]
  | None => Raised "AttributeError" room
  end.

(** [list(room.eight_drawn_cards)] when the attribute exists and [pid] is the
    seat it is meant for, else [[]]. *)
Definition eight_drawn_card_ids (room : Room) (pid target : string) : list string :=
  if str_eq pid target then
    match eight_drawn_cards room with
    | Some s => elements s
    | None => []
    end
  else [].

(** [room.eight_drawn_cards.clear()] under [hasattr]. *)
Definition clear_eight_drawn_cards (room : Room) : Room :=
  match eight_drawn_cards room with
  | Some _ => set_eight_drawn_cards (Some ∅) room
  | None => room
  end.

Definition players_to_dict (room : Room) : list PlayerDict :=
  map (fun kp => Player_to_dict (snd kp)) (players room).

(** [player_ids[i]] at an index the handler has just computed modulo
    [len(player_ids)]. *)
Definition id_at (room : Room) (i : nat) : string := default "" (player_ids room !! i).

Definition nickname_of (room : Room) (pid : string) : string :=
  match get_player pid (players room) with
  | Some p => nickname p
  | None => ""
  end.

(** The [deck_shuffled] notice to every seat. *)
Definition deck_shuffled_messages (room : Room) (shuffled : bool) : list Effect :=
  if shuffled then
    map (fun pid => SendToPlayer pid (ev_deck_shuffled "Колода перемешана")) (player_ids room)
  else [].

(** [asyncio.create_task(self.make_bot_move(room_id, pid))] when the seat now
    to move is a bot. *)
Definition bot_turn (rid : string) (room : Room) : list Effect :=
  let next_player_id := id_at room (current_player_index room) in
  match get_player next_player_id (players room) with
  | Some p => if is_bot p then [MakeBotMove rid next_player_id] else []
  | None => []
  end.

(** [if room.deck: next_player.hand.append(room.deck.pop())]: the room and
    the number of cards that moved. *)
Definition draw_to (pid : string) (room : Room) : Room * nat :=
  match pop (deck room) with
  | Some (c, d) =>
      (set_players (update_player pid (hand_append c) (players room)) (set_deck d room), 1)
  | None => (room, 0)
  end.

(** One forced draw of the 6 / 7 effect: replenish, then draw if possible. *)
Definition forced_draw (g : Random) (pid : string) (room : Room) : Room * nat * bool :=
  let (room1, shuffled) := replenish_deck g room in
  let (room2, n) := draw_to pid room1 in
  (room2, n, shuffled).

Definition forced_draw_info (room : Room) (pid : option string) (count : nat)
    : option ForcedDraw :=
  match pid with
  | Some p =>
      if truthy pid && (0 <? count) then Some (mkForcedDraw p (nickname_of room p) count)
      else None
  | None => None
  end.

(** ** [handle_play_card] *)

(** The card of the hand the request names. *)
Definition find_card (data_card_id : option string) (hand : list Card) : option Card :=
  match data_card_id with
  | Some i => List.find (fun c => str_eq (card_id c) i) hand
  | None => None
  end.

(** The legality gate: either the handler's early exit, or the room after
    the 8-chain flags have been cleared. *)
Definition play_card_check (ws : option WS) (card top_card : Card) (room : Room)
    : Outcome + Room :=
  if waiting_for_eight room then
    let is_drawn_card :=
      match eight_drawn_cards room with
      | Some s => bool_decide (card_id card ∈ s)
      | None => false
      end in
    if negb (str_eq (rank card) "2") && negb is_drawn_card then
      inl (send_unguarded ws (ev_error "Must play a 2 or draw cards") room)
    else
      inr (clear_eight_drawn_cards
             (set_eight_draw_used false (set_waiting_for_eight false room)))
  else
    if negb (can_play_card card top_card (chosen_suit room) (waiting_for_eight room)) then
      inl (Rejected room (send_if_ws ws (ev_error "Cannot play this card")))
    else inr room.

(** The 6 / 7 effects, applied before the win check: the room, the next
    seat index, who was forced to draw, how many cards, and whether the deck
    was reshuffled. *)
Definition play_card_draw_effects (g : Random) (card : Card) (room : Room)
    : Room * nat * option string * nat * bool :=
  let n := length (player_ids room) in
  let next_player_index := (current_player_index room + 1) mod n in
  if str_eq (rank card) "6" then
    let next_id := id_at room next_player_index in
    let '(room1, count, shuffled) := forced_draw g next_id room in
    (room1, (next_player_index + 1) mod n, Some next_id, count, shuffled)
  else if str_eq (rank card) "7" then
    let next_id := id_at room next_player_index in
    let '(room1, c1, s1) := forced_draw g next_id room in
    let '(room2, c2, s2) := forced_draw g next_id room1 in
    (room2, (next_player_index + 1) mod n, Some next_id, c1 + c2, s1 || s2)
  else (room, next_player_index, None, 0, false).

(** The effects resolved after the win check: A, 8 (52 cards only), Q. *)
Definition play_card_late_effects (card : Card) (data_chosen_suit : option string)
    (next_player_index : nat) (room : Room) : Room * nat :=
  let n := length (player_ids room) in
  if str_eq (rank card) "A" then (room, (next_player_index + 1) mod n)
  else if str_eq (rank card) "8" && (deck_size room =? 52) then
    (set_eight_draw_used false (set_waiting_for_eight true room), next_player_index)
  else if str_eq (rank card) "Q" then
    ((if truthy data_chosen_suit then set_chosen_suit data_chosen_suit room else room),
     next_player_index)
  else (room, next_player_index).

Definition card_played_messages (room : Room) (player_id : string) (card : Card)
    (forced : option ForcedDraw) : list Effect :=
  map (fun kp : string * Player =>
         let (pid, p) := kp in
         SendToPlayer pid (ev_card_played
           {| cp_player_id := player_id;
              cp_player_nickname := nickname_of room player_id;
              cp_card := card;
              cp_top_card := last (discard_pile room);
              cp_current_player := id_at room (current_player_index room);
              cp_hand := hand p;
              cp_players := players_to_dict room;
              cp_deck_count := length (deck room);
              cp_chosen_suit := chosen_suit room;
              cp_waiting_for_eight := waiting_for_eight room;
              cp_eight_draw_used := eight_draw_used room;
              cp_card_drawn_this_turn := false;
              cp_eight_drawn_cards :=
                eight_drawn_card_ids room pid (id_at room (current_player_index room));
              cp_deck_size := deck_size room;
              cp_forced_draw := forced |}))
      (players room).

(** The card leaves the hand for the discard pile; a card that is not a
    Queen consumes the chosen suit. *)
Definition play_card_move (player_id : string) (card : Card) (room : Room) : Room :=
  let room1 :=
    set_players (update_player player_id
                   (fun p => set_hand (list_remove card (hand p)) p) (players room)) room in
  let room2 := set_discard_pile (discard_pile room1 ++ [card]) room1 in
  if negb (str_eq (rank card) "Q") then set_chosen_suit None room2 else room2.

(** From [player.hand.remove(card)] to the end of the handler. *)
Definition play_card_apply (g : Random) (rid player_id : string) (card : Card)
    (data_chosen_suit : option string) (room : Room) : Outcome :=
  let room3 := play_card_move player_id card room in
  let '(room4, next_player_index, forced_id, forced_count, deck_was_shuffled) :=
    play_card_draw_effects g card room3 in
  match get_player player_id (players room4) with
  | None => Raised "KeyError" room4
  | Some player =>
      if length (hand player) =? 0 then RoundOver room4 player_id
      else
        let (room5, next_player_index) :=
          play_card_late_effects card data_chosen_suit next_player_index room4 in
        let room6 :=
          set_card_drawn_this_turn false
            (set_current_player_index next_player_index room5) in
        Accepted room6
          ([SaveRoomToDb rid]
           ++ card_played_messages room6 player_id card
                (forced_draw_info room6 forced_id forced_count)
           ++ deck_shuffled_messages room6 deck_was_shuffled
           ++ bot_turn rid room6)
  end.

(** [handle_play_card] on the room it has resolved, for the seat
    [player_id]; [ws] is [None] when a bot moves. *)
Definition play_card_room (g : Random) (ws : option WS) (rid player_id : string)
    (data_card_id data_chosen_suit : option string) (room : Room) : Outcome :=
  match player_ids room !! current_player_index room with
  | None => Raised "IndexError" room
  | Some current =>
      if negb (str_eq current player_id) then
        Rejected room (send_if_ws ws (ev_error "Not your turn"))
      else
        match get_player player_id (players room) with
        | None => Raised "KeyError" room
        | Some player =>
            match find_card data_card_id (hand player) with
            | None => Rejected room (send_if_ws ws (ev_error "Card not found"))
            | Some card =>
                match last (discard_pile room) with
                | None => Rejected room (send_if_ws ws (ev_error "No cards on table"))
                | Some top_card =>
                    match play_card_check ws card top_card room with
                    | inl early => early
                    | inr room1 =>
                        play_card_apply g rid player_id card data_chosen_suit room1
                    end
                end
            end
        end
  end.

(** ** [handle_draw_card] *)

(** A card drawn on an 8 stops the chain when it is a 2, a Q, an 8, or of the
    suit of the top card. *)
Definition eight_match (card top_card : Card) : bool :=
  str_eq (rank card) "2" || str_eq (rank card) "Q" || str_eq (rank card) "8"
  || str_eq (suit card) (suit top_card).

Definition max_iterations : nat := 1000.

(** The [while iterations < max_iterations] loop: [fuel] iterations are
    left; returns the room, [drawn_cards] and [deck_was_shuffled]. *)
Fixpoint eight_draw_loop (g : Random) (fuel : nat) (player_id : string) (room : Room)
    (drawn_cards : list Card) (deck_was_shuffled : bool) : Room * list Card * bool :=
  match fuel with
  | 0 => (room, drawn_cards, deck_was_shuffled)
  | S fuel' =>
      let (room1, shuffled) := replenish_deck g room in
      let deck_was_shuffled := deck_was_shuffled || shuffled in
      match pop (deck room1) with
      | None => (room1, drawn_cards, deck_was_shuffled)            (* if not room.deck *)
      | Some (card, deck') =>
          match last (discard_pile room1) with
          | None => (room1, drawn_cards, deck_was_shuffled)        (* if not room.discard_pile *)
          | Some top_card =>
              let room2 :=
                set_players (update_player player_id (hand_append card) (players room1))
                  (set_deck deck' room1) in
              let drawn_cards := drawn_cards ++ [card] in
              if eight_match card top_card then (room2, drawn_cards, deck_was_shuffled)
              else eight_draw_loop g fuel' player_id room2 drawn_cards deck_was_shuffled
          end
      end
  end.

(** The chain is dropped and the turn passes on. *)
Definition eight_chain_drop (room : Room) : Room :=
  let room1 := set_eight_draw_used false (set_waiting_for_eight false room) in
  let room2 := set_eight_drawn_cards (Some ∅) room1 in
  set_current_player_index
    ((current_player_index room2 + 1) mod length (player_ids room2)) room2.

(** After the loop: record the drawn ids, then keep the chain only if the
    last drawn card qualifies. *)
Definition eight_draw_finish (room : Room) (drawn_cards : list Card) : Room :=
  let room1 :=
    set_eight_drawn_cards
      (Some (default ∅ (eight_drawn_cards room) ∪ list_to_set (map card_id drawn_cards)))
      room in
  match last drawn_cards with
  | None => eight_chain_drop room1
  | Some last_card =>
      let card_matches :=
        match last (discard_pile room1) with
        | Some top_card => eight_match last_card top_card
        | None => false
        end in
      if negb card_matches then eight_chain_drop room1 else room1
  end.

Definition card_drawn_messages (room : Room) (player_id : string) (cards_count : nat)
    : list Effect :=
  map (fun kp : string * Player =>
         let (pid, p) := kp in
         SendToPlayer pid (ev_card_drawn
           {| cd_player_id := player_id;
              cd_player_nickname := nickname_of room player_id;
              cd_cards_count := cards_count;
              cd_current_player := id_at room (current_player_index room);
              cd_hand := hand p;
              cd_players := players_to_dict room;
              cd_deck_count := length (deck room);
              cd_waiting_for_eight := waiting_for_eight room;
              cd_eight_draw_used := eight_draw_used room;
              cd_card_drawn_this_turn := card_drawn_this_turn room;
              cd_chosen_suit := chosen_suit room;
              cd_top_card := last (discard_pile room);
              cd_eight_drawn_cards := eight_drawn_card_ids room pid player_id |}))
      (players room).

(** The tail shared by both draw paths: save, notify, re-run the bot. *)
Definition draw_card_tail (bot_id : option string) (rid player_id : string)
    (cards_count : nat) (room : Room) : list Effect :=
  [SaveRoomToDb rid]
  ++ card_drawn_messages room player_id cards_count
  ++ (if truthy bot_id && waiting_for_eight room
      then [MakeBotMove rid (default "" bot_id)] else []).

(** [handle_draw_card] on the room it has resolved. *)
Definition draw_card_room (g : Random) (ws : option WS) (bot_id : option string)
    (rid player_id : string) (room : Room) : Outcome :=
  match player_ids room !! current_player_index room with
  | None => Raised "IndexError" room
  | Some current =>
      if negb (str_eq current player_id) then
        Rejected room (send_if_ws ws (ev_error "Not your turn"))
      else if waiting_for_eight room then
        if eight_draw_used room then
          Rejected room
            (send_if_ws ws (ev_error "Вы уже использовали взятие карт на восьмёрку"))
        else
          let room1 := set_eight_draw_used true room in
          let '(room2, drawn_cards, deck_was_shuffled) :=
            eight_draw_loop g max_iterations player_id room1 [] false in
          let room3 := eight_draw_finish room2 drawn_cards in
          Accepted room3
            (deck_shuffled_messages room3 deck_was_shuffled
             ++ draw_card_tail bot_id rid player_id (length drawn_cards) room3)
      else
        if card_drawn_this_turn room then
          send_unguarded ws (ev_error "Вы уже взяли карту в этом ходу") room
        else
          let (room1, deck_shuffled) := replenish_deck g room in
          match pop (deck room1) with
          | None => send_unguarded ws (ev_error "Колода пуста") room1
          | Some (card, deck') =>
              let room2 :=
                set_card_drawn_this_turn true
                  (set_players (update_player player_id (hand_append card) (players room1))
                     (set_deck deck' room1)) in
              Accepted room2
                (deck_shuffled_messages room2 deck_shuffled
                 ++ draw_card_tail bot_id rid player_id 1 room2)
          end
  end.

(** ** [handle_skip_turn] *)

Definition turn_skipped_messages (room : Room) (player_id : string) : list Effect :=
  map (fun kp : string * Player =>
         let (pid, p) := kp in
         SendToPlayer pid (ev_turn_skipped
           {| ts_player_id := player_id;
              ts_player_nickname := nickname_of room player_id;
              ts_current_player := id_at room (current_player_index room);
              ts_hand := hand p;
              ts_players := players_to_dict room;
              ts_card_drawn_this_turn := false;
              ts_chosen_suit := chosen_suit room;
              ts_waiting_for_eight := waiting_for_eight room;
              ts_eight_draw_used := eight_draw_used room;
              ts_eight_drawn_cards :=
                eight_drawn_card_ids room pid (id_at room (current_player_index room));
              ts_top_card := last (discard_pile room);
              ts_log_message := nickname_of room player_id +:+ " пропустил ход" |}))
      (players room).

(** [handle_skip_turn] on the room it has resolved. *)
Definition skip_turn_room (ws : option WS) (rid player_id : string) (room : Room)
    : Outcome :=
  match player_ids room !! current_player_index room with
  | None => Raised "IndexError" room
  | Some current =>
      if negb (str_eq current player_id) then
        Rejected room (send_if_ws ws (ev_error "Not your turn"))
      else if waiting_for_eight room then
        Rejected room (send_if_ws ws (ev_error "Нельзя пропустить ход на восьмёрке"))
      else if negb (card_drawn_this_turn room) then
        Rejected room (send_if_ws ws (ev_error "Сначала возьмите карту из колоды"))
      else
        let room1 :=
          set_card_drawn_this_turn false
            (set_current_player_index
               ((current_player_index room + 1) mod length (player_ids room)) room) in
        Accepted room1
          ([SaveRoomToDb rid]
           ++ turn_skipped_messages room1 player_id
           ++ bot_turn rid room1)
  end.

(** ** [handle_game_end] *)

(** The bonus of the last card on the discard pile: a Queen, else nothing. *)
Definition queen_bonus (room : Room) : Z :=
  match last (discard_pile room) with
  | Some winning_card =>
      if str_eq (rank winning_card) "Q" then
        (if str_eq (suit winning_card) "spades" then (-40)%Z else (-20)%Z)
      else 0%Z
  | None => 0%Z
  end.

(** One turn of the tally loop: the seat with its new score, and its entry
    of [results]. *)
Definition tally_player (winner_id : string) (bonus : Z) (kp : string * Player)
    : (string * Player) * ResultEntry :=
  let (pid, player) := kp in
  if negb (str_eq pid winner_id) then
    let points := calculate_hand_points (hand player) in
    let player' := set_score (score player + points)%Z player in
    ((pid, player'),
     {| re_player_id := pid; re_nickname := nickname player; re_points := points;
        re_total_score := score player'; re_hand := hand player;
        re_queen_bonus := None |})
  else
    let player' := set_score (score player + bonus)%Z player in
    ((pid, player'),
     {| re_player_id := pid; re_nickname := nickname player; re_points := bonus;
        re_total_score := score player'; re_hand := [];
        re_queen_bonus := Some bonus |}).

(** The tally: every seat's score updated, and [results]. *)
Definition tally (winner_id : string) (room : Room) : Room * list ResultEntry :=
  let scored := map (tally_player winner_id (queen_bonus room)) (players room) in
  (set_players (map fst scored) room, map snd scored).

(** The non-winner with the strictly highest round points, first on ties. *)
Definition round_loser (winner_id : string) (results : list ResultEntry) : option string :=
  fst (fold_left
         (fun (acc : option string * Z) result =>
            if negb (str_eq (re_player_id result) winner_id)
               && (snd acc <? re_points result)%Z
            then (Some (re_player_id result), re_points result) else acc)
         results (None, (-1)%Z)).

(** Exactly 101 goes back to 0. *)
Definition reset_101 (kp : string * Player) : string * Player :=
  if (score (snd kp) =? 101)%Z then (fst kp, set_score 0%Z (snd kp)) else kp.

(** More than 101: the seat is to be kicked. *)
Definition players_to_kick (ps : list (string * Player)) : list string :=
  map fst (List.filter (fun kp => (101 <? score (snd kp))%Z) ps).

(** The seat that stays and has the strictly lowest score, first on ties. *)
Definition final_winner_id (kick : list string) (ps : list (string * Player))
    : option string :=
  fst (fold_left
         (fun (acc : option string * option Z) (kp : string * Player) =>
            if negb (str_in (fst kp) kick)
               && match snd acc with
                  | Some min_score => (score (snd kp) <? min_score)%Z
                  | None => true      (* float('inf') *)
                  end
            then (Some (fst kp), Some (score (snd kp))) else acc)
         ps (None, None)).

(** The reset for the next round. *)
Definition reset_for_new_game (room : Room) : Room :=
  let ps := map (fun kp : string * Player =>
                   (fst kp, set_ready (is_bot (snd kp)) (set_hand [] (snd kp))))
                (players room) in
  set_eight_draw_used false
    (set_waiting_for_eight false
       (set_chosen_suit None
          (set_discard_pile []
             (set_deck [] (set_players ps (set_game_started false room)))))).

Inductive GameEndResult :=
| RoomClosed (room : Room) (out : list Effect)
    (* fewer than two seats would remain: the room is deleted *)
| NextRound (room : Room) (kicked : list string) (out : list Effect).

(** [handle_game_end] on the room, up to the final [broadcast_rooms]. *)
Definition game_end_room (rid winner_id : string) (room : Room) : GameEndResult :=
  let (room1, results) := tally winner_id room in
  let round_loser_id := round_loser winner_id results in
  let kick := players_to_kick (players room1) in
  let room2 := set_players (map reset_101 (players room1)) room1 in
  let room3 :=
    set_last_loser_id
      (if truthy round_loser_id && negb (str_in (default "" round_loser_id) kick)
       then round_loser_id else None) room2 in
  let ended :=
    map (fun pid => SendToPlayer pid
                      (ev_game_ended winner_id (last (discard_pile room3)) results))
        (player_ids room3) in
  if (0 <? length kick) && (length (players room3) - length kick <? 2) then
    let winner := final_winner_id kick (players room3) in
    let final :=
      map (fun pid => SendToPlayer pid
                        (ev_final_winner winner
                           (if truthy winner then nickname_of room3 (default "" winner)
                            else "")
                           (map (nickname_of room3) kick)))
          (player_ids room3) in
    RoomClosed room3 (ended ++ final ++ [DbDeleteRoom rid])
  else
    let kicks :=
      map (fun pid => BroadcastToRoom rid
                        (ev_player_kicked pid (nickname_of room3 pid)
                           "Набрал больше 101 очка")) kick in
    let room4 := set_players (foldl (fun ps pid => del_player pid ps) (players room3) kick)
                   room3 in
    let room5 := reset_for_new_game room4 in
    NextRound room5 kick
      (ended ++ kicks ++ [SaveRoomToDb rid]
       ++ map (fun pid => SendToPlayer pid (ev_room_updated (Room_to_dict room5)))
            (player_ids room5)).

(** ** The server *)

Record Server := mkServer {
  rooms : gmap string Room;
  clients : gmap WS string;
  player_rooms : gmap string string
}.

(** A handler's result: the server as left, what was emitted, and whether a
    Python exception escaped. *)
Inductive Ret :=
| Return (s : Server) (out : list Effect)
| Except (exn : string) (s : Server) (out : list Effect).

Definition human_players (room : Room) : list (string * Player) :=
  List.filter (fun kp => negb (is_bot (snd kp))) (players room).

(** [cleanup_bot_only_rooms]: rooms with seats but no human are dropped. *)
Definition cleanup_bot_only_rooms (s : Server) : Server :=
  mkServer
    (filter (fun kr : string * Room =>
               ((length (human_players (snd kr)) =? 0)
                && (0 <? length (players (snd kr)))) = false)
            (rooms s))
    (clients s) (player_rooms s).

Definition available_room (room : Room) : bool :=
  negb (game_started room)
  && forallb (fun kp => (score (snd kp) =? 0)%Z) (players room)
  && existsb (fun kp => negb (is_bot (snd kp))) (players room)
  && negb (is_private room).

(** [broadcast_rooms]: the cleanup, then the public lobby list. *)
Definition broadcast_rooms (s : Server) : Server * list Effect :=
  let s1 := cleanup_bot_only_rooms s in
  (s1, [BroadcastRooms
          (ev_rooms_list
             (map Room_to_dict
                (List.filter available_room (map snd (map_to_list (rooms s1))))))]).

Definition del_player_rooms (pids : list string) (m : gmap string string)
    : gmap string string :=
  foldl (fun m pid => delete pid m) m pids.

Definition handle_game_end (s : Server) (rid winner_id : string) : Server * list Effect :=
  match rooms s !! rid with
  | None => (s, [])
  | Some room =>
      match game_end_room rid winner_id room with
      | RoomClosed room' out =>
          let s1 := mkServer (delete rid (rooms s)) (clients s)
                      (del_player_rooms (player_ids room') (player_rooms s)) in
          let (s2, out2) := broadcast_rooms s1 in
          (s2, out ++ out2)
      | NextRound room' kicked out =>
          let s1 := mkServer (<[rid := room']> (rooms s)) (clients s)
                      (del_player_rooms kicked (player_rooms s)) in
          let (s2, out2) := broadcast_rooms s1 in
          (s2, out ++ out2)
      end
  end.

(** Who asks: a bot names itself and its room, a client is looked up by its
    connection. [None]: the handler returns at once. *)
Definition resolve (s : Server) (ws : option WS) (bot_id room_id : option string)
    : option (string * string) :=
  if truthy bot_id && truthy room_id then
    Some (default "" bot_id, default "" room_id)
  else
    let player_id := ws ≫= fun w => clients s !! w in
    if negb (truthy player_id) then None
    else
      let rid := player_rooms s !! default "" player_id in
      if negb (truthy rid) then None
      else Some (default "" player_id, default "" rid).

(** The started room a request is about. *)
Definition resolve_room (s : Server) (ws : option WS) (bot_id room_id : option string)
    : option (string * string * Room) :=
  match resolve s ws bot_id room_id with
  | None => None
  | Some (player_id, rid) =>
      match rooms s !! rid with
      | None => None
      | Some room => if game_started room then Some (player_id, rid, room) else None
      end
  end.

(** The room object is mutated in place: the map holds it as it was left. *)
Definition put_room (rid : string) (room : Room) (s : Server) : Server :=
  mkServer (<[rid := room]> (rooms s)) (clients s) (player_rooms s).

Definition handle_play_card (g : Random) (s : Server) (ws : option WS)
    (data_card_id data_chosen_suit bot_id room_id : option string) : Ret :=
  match resolve_room s ws bot_id room_id with
  | None => Return s []
  | Some (player_id, rid, room) =>
      match play_card_room g ws rid player_id data_card_id data_chosen_suit room with
      | Rejected room' out => Return (put_room rid room' s) out
      | Raised exn room' => Except exn (put_room rid room' s) []
      | RoundOver room' winner_id =>
          let (s', out) := handle_game_end (put_room rid room' s) rid winner_id in
          Return s' out
      | Accepted room' out => Return (put_room rid room' s) out
      end
  end.

Definition handle_draw_card (g : Random) (s : Server) (ws : option WS)
    (bot_id room_id : option string) : Ret :=
  match resolve_room s ws bot_id room_id with
  | None => Return s []
  | Some (player_id, rid, room) =>
      match draw_card_room g ws bot_id rid player_id room with
      | Rejected room' out => Return (put_room rid room' s) out
      | Raised exn room' => Except exn (put_room rid room' s) []
      | RoundOver room' _ => Return (put_room rid room' s) []
      | Accepted room' out => Return (put_room rid room' s) out
      end
  end.

Definition handle_skip_turn (s : Server) (ws : option WS)
    (bot_id room_id : option string) : Ret :=
  match resolve_room s ws bot_id room_id with
  | None => Return s []
  | Some (player_id, rid, room) =>
      match skip_turn_room ws rid player_id room with
      | Rejected room' out => Return (put_room rid room' s) out
      | Raised exn room' => Except exn (put_room rid room' s) []
      | RoundOver room' _ => Return (put_room rid room' s) []
      | Accepted room' out => Return (put_room rid room' s) out
      end
  end.

(** ** [start_game] *)

(** [[room.deck.pop() for _ in range(n)]]: the popped cards in pop order, or
    [None] when a [pop] raises; the deck as left either way. *)
Fixpoint pop_list (n : nat) (deck : list Card) : option (list Card) * list Card :=
  match n with
  | 0 => (Some [], deck)
  | S k =>
      match pop deck with
      | None => (None, deck)
      | Some (c, d) =>
          let (r, d') := pop_list k d in
          (option_map (cons c) r, d')
      end
  end.

(** Five cards to every seat in turn; [false] when the deck ran out (the
    seats already served keep their new hands). *)
Fixpoint deal (ps : list (string * Player)) (deck : list Card)
    : list (string * Player) * list Card * bool :=
  match ps with
  | [] => ([], deck, true)
  | (k, p) :: ps' =>
      match pop_list 5 deck with
      | (Some h, d) =>
          let '(ps'', d', ok) := deal ps' d in
          ((k, set_hand h p) :: ps'', d', ok)
      | (None, d) => ((k, p) :: ps', d, false)
      end
  end.

(** [player_ids.index(pid)]. *)
Fixpoint index_of (pid : string) (ids : list string) : option nat :=
  match ids with
  | [] => None
  | k :: ids' => if str_eq k pid then Some 0 else option_map S (index_of pid ids')
  end.

(** The effect of the first table card, as if it had just been played:
    the room, who was forced to draw and how many, whether the deck was
    reshuffled. *)
Definition first_card_effects (g : Random) (first_card : Card) (room : Room)
    : Room * option string * nat * bool :=
  let n := length (player_ids room) in
  let next_id := id_at room (current_player_index room) in
  let skip r := set_current_player_index ((current_player_index r + 1) mod n) r in
  if str_eq (rank first_card) "6" then
    let '(room1, _, shuffled) := forced_draw g next_id room in
    (skip room1, Some next_id, 1, shuffled)
  else if str_eq (rank first_card) "7" then
    let '(room1, _, s1) := forced_draw g next_id room in
    let '(room2, _, s2) := forced_draw g next_id room1 in
    (skip room2, Some next_id, 2, s1 || s2)
  else if str_eq (rank first_card) "8" && (deck_size room =? 52) then
    (set_eight_draw_used false (set_waiting_for_eight true room), None, 0, false)
  else if str_eq (rank first_card) "A" then (skip room, None, 0, false)
  else if str_eq (rank first_card) "Q" then
    (set_chosen_suit (Some (choice g suits)) room, None, 0, false)
  else (room, None, 0, false).

Definition game_started_messages (room : Room) (first_card : Card)
    (forced : option ForcedDraw) : list Effect :=
  map (fun kp : string * Player =>
         let (pid, p) := kp in
         SendToPlayer pid (ev_game_started
           {| gs_hand := hand p;
              gs_top_card := Some first_card;
              gs_current_player := id_at room (current_player_index room);
              gs_dealer := id_at room (dealer_index room);
              gs_players := players_to_dict room;
              gs_deck_count := length (deck room);
              gs_chosen_suit := chosen_suit room;
              gs_waiting_for_eight := waiting_for_eight room;
              gs_eight_draw_used := eight_draw_used room;
              gs_eight_drawn_cards :=
                eight_drawn_card_ids room pid (id_at room (current_player_index room));
              gs_deck_size := deck_size room;
              gs_forced_draw := forced |}))
      (players room).

(** [start_game] on the room, up to [broadcast_rooms]. *)
Definition start_game_room (g : Random) (rid : string) (room : Room) : Outcome :=
  let room1 := set_deck (create_deck g (deck_size room)) (set_game_started true room) in
  let '(ps, d, ok) := deal (players room1) (deck room1) in
  let room2 := set_deck d (set_players ps room1) in
  if negb ok then Raised "IndexError" room2
  else
    match pop (deck room2) with
    | None => Raised "IndexError" room2
    | Some (first_card, d') =>
        let room3 := set_discard_pile [first_card] (set_deck d' room2) in
        let ids := player_ids room3 in
        if length ids =? 0 then Raised "ValueError" room3
        else
          let dealer :=
            if truthy (last_loser_id room3) && str_in (default "" (last_loser_id room3)) ids
            then default 0 (index_of (default "" (last_loser_id room3)) ids)
            else randint g 0 (length ids - 1) in
          let room4 :=
            set_current_player_index ((dealer + 1) mod length ids)
              (set_dealer_index dealer room3) in
          let '(room5, forced_id, forced_count, deck_was_shuffled) :=
            first_card_effects g first_card room4 in
          Accepted room5
            ([SaveRoomToDb rid]
             ++ game_started_messages room5 first_card
                  (forced_draw_info room5 forced_id forced_count)
             ++ deck_shuffled_messages room5 deck_was_shuffled)
    end.

Definition start_game (g : Random) (s : Server) (rid : string) : Ret :=
  match rooms s !! rid with
  | None => Return s []
  | Some room =>
      match start_game_room g rid room with
      | Accepted room' out =>
          let (s', out2) := broadcast_rooms (put_room rid room' s) in
          Return s' (out ++ out2 ++ bot_turn rid room')
      | Raised exn room' => Except exn (put_room rid room' s) []
      | Rejected room' out => Return (put_room rid room' s) out
      | RoundOver room' _ => Return (put_room rid room' s) []
      end
  end.

(** ** The lobby: what each handler does to the room *)

Definition new_player (pid nick : string) (bot : bool) : Player :=
  mkPlayer pid nick [] bot 0%Z bot.

(** [handle_create_room]: one seat, the default deck of 52. *)
Definition create_room (rid pid nick : string) (private : bool) : Room :=
  mkRoom rid [(pid, new_player pid nick false)] [] [] 0 0 false None false false false
    false None 52 (Some pid) private None.

(** [handle_create_bot_game]: the requester and one to three bots; [None]
    when a check fails.  The requested [deck_size] is checked to be 36 or 52,
    but [Room(...)] is built without it: the room has the default 52. *)
Definition create_bot_game (rid pid nick : string) (bots : list (string * string))
    (deck_size : nat) : option Room :=
  if (length bots <? 1) || (3 <? length bots) then None
  else if negb ((deck_size =? 36) || (deck_size =? 52)) then None
  else
    Some (mkRoom rid
            ((pid, new_player pid nick false)
             :: map (fun b : string * string => (fst b, new_player (fst b) (snd b) true)) bots)
            [] [] 0 0 false None false false false false None 52 (Some pid)
            false None).

(** [handle_join_room]: refused once started, when full, or when a score
    exists; the new seat goes last. *)
Definition join_room (pid nick : string) (room : Room) : option Room :=
  if game_started room then None
  else if 4 <=? length (players room) then None
  else if existsb (fun kp => (0 <? score (snd kp))%Z) (players room) then None
  else Some (set_players (players room ++ [(pid, new_player pid nick false)]) room).

Definition ready_count (room : Room) : nat :=
  length (List.filter (fun kp => ready (snd kp)) (players room)).

(** [handle_toggle_ready]: flips the flag; all ready (two seats or more)
    starts the game at once, whatever the room's state. *)
Definition toggle_ready (g : Random) (rid pid : string) (room : Room) : Outcome :=
  match get_player pid (players room) with
  | None => Rejected room []
  | Some _ =>
      let room1 :=
        set_players (update_player pid (fun p => set_ready (negb (ready p)) p)
                       (players room)) room in
      let changed :=
        BroadcastToRoom rid
          (ev_player_ready_changed pid
             (match get_player pid (players room1) with
              | Some p => ready p | None => false end)) in
      if (2 <=? length (players room1)) && (ready_count room1 =? length (players room1))
      then
        match start_game_room g rid (set_countdown_active false room1) with
        | Accepted room2 out => Accepted room2 (changed :: out)
        | other => other
        end
      else if (2 <=? ready_count room1) && negb (countdown_active room1) then
        Accepted (set_countdown_active true room1) [changed; StartCountdown rid]
      else if (ready_count room1 <? 2) && countdown_active room1 then
        Accepted (set_countdown_active false room1)
          [changed; CancelCountdown rid; BroadcastToRoom rid ev_countdown_cancelled]
      else Accepted room1 [changed]
  end.

(** [start_countdown] at expiry: the seats that are not ready are dropped
    and the game starts, if two ready seats remain. *)
Definition countdown_expired (g : Random) (rid : string) (room : Room) : Outcome :=
  let room1 := set_countdown_active false room in
  let ready_players := List.filter (fun kp : string * Player => ready (snd kp)) (players room1) in
  if 2 <=? length ready_players then
    start_game_room g rid (set_players ready_players room1)
  else Accepted room1 [BroadcastToRoom rid ev_countdown_cancelled].

(** [handle_change_deck_size]: the creator, before the game, 36 or 52. *)
Definition change_deck_size (pid : string) (size : nat) (room : Room) : option Room :=
  if negb (match creator_id room with Some c => str_eq c pid | None => false end) then None
  else if game_started room then None
  else if negb ((size =? 36) || (size =? 52)) then None
  else Some (set_deck_size size room).

(** [handle_toggle_private]. *)
Definition toggle_private (pid : string) (private : bool) (room : Room) : option Room :=
  if negb (match creator_id room with Some c => str_eq c pid | None => false end) then None
  else if game_started room || existsb (fun kp => (0 <? score (snd kp))%Z) (players room)
  then None
  else Some (set_is_private private room).

(** A client goes away ([handle_client], [finally]): the seat is removed
    only when no game is in progress and nobody has a score. *)
Definition disconnect (pid : string) (room : Room) : Room :=
  if game_started room || existsb (fun kp => (0 <? score (snd kp))%Z) (players room)
  then room
  else set_players (del_player pid (players room)) room.

(** * Properties *)

(** ** The specification's words *)

(** Section 4.1: numeral ranks 2-10 score their face value; J=2; K=4; A=11;
    Q=20, except Q of spades=40. *)
Inductive card_value (c : Card) : Z -> Prop :=
| value_numeral (n : nat) :
    2 <= n <= 10 -> rank c = pretty n -> card_value c (Z.of_nat n)
| value_J : rank c = "J" -> card_value c 2
| value_K : rank c = "K" -> card_value c 4
| value_A : rank c = "A" -> card_value c 11
| value_Q : rank c = "Q" -> suit c <> "spades" -> card_value c 20
| value_Q_spades : rank c = "Q" -> suit c = "spades" -> card_value c 40.

(** Section 4.6: the winner's bonus by the final discarded card. *)
Inductive winner_bonus : option Card -> Z -> Prop :=
| bonus_Q_spades c : rank c = "Q" -> suit c = "spades" -> winner_bonus (Some c) (-40)
| bonus_Q c : rank c = "Q" -> suit c <> "spades" -> winner_bonus (Some c) (-20)
| bonus_other c : rank c <> "Q" -> winner_bonus (Some c) 0.

(** Section 4.2: the legality rule, with the ids drawn during the 8-chain. *)
Definition is_legal (card top_card : Card) (chosenSuit : option string)
    (waitingForEight : bool) (eightDrawnCards : gset string) : Prop :=
  if waitingForEight then rank card = "2" \/ card_id card ∈ eightDrawnCards
  else
    rank card = "Q" \/
    match chosenSuit with
    | Some s => suit card = s \/ rank card = rank top_card
    | None => suit card = suit top_card \/ rank card = rank top_card
    end.

(** Section 3: the cards of a room. *)
Definition hand_sizes (ps : list (string * Player)) : nat :=
  foldr (fun (kp : string * Player) n => length (hand (snd kp)) + n) 0 ps.

Definition total_cards (room : Room) : nat :=
  length (deck room) + length (discard_pile room) + hand_sizes (players room).

(** The action was carried out: the card left the hand. *)
Definition accepted (o : Outcome) : Prop :=
  match o with
  | Accepted _ _ | RoundOver _ _ => True
  | Rejected _ _ | Raised _ _ => False
  end.

(** An [error] event went back on the connection. *)
Definition error_replied (out : list Effect) : Prop :=
  exists w m, WsSend w (ev_error m) ∈ out.

(** The skip went through: a [turn_skipped] event was sent to a seat. *)
Definition skip_done (out : list Effect) : Prop :=
  exists pid m, SendToPlayer pid (ev_turn_skipped m) ∈ out.

(** Section 4.3: the seat at [currentPlayerIndex] asks, no 8-chain is
    pending, and a card was drawn this turn. *)
Definition skip_pre (player_id : string) (room : Room) : Prop :=
  player_ids room !! current_player_index room = Some player_id /\
  waiting_for_eight room = false /\
  card_drawn_this_turn room = true.

(** ... by a seat of a started room. *)
Definition skip_allowed (s : Server) (ws : option WS) (bot_id room_id : option string)
    : Prop :=
  exists player_id rid room,
    resolve_room s ws bot_id room_id = Some (player_id, rid, room) /\
    skip_pre player_id room.

(** "On any failed precondition an error event is replied and no room state
    is mutated", read for every caller and every room. *)
Definition skip_failure_always_replies : Prop :=
  forall s ws bot_id room_id,
    ~ skip_allowed s ws bot_id room_id ->
    exists out, handle_skip_turn s ws bot_id room_id = Return s out /\ error_replied out.

(** ** Concrete tables used as test inputs *)

(** A source of choices that leaves the order alone and picks the first. *)
Definition g0 : Random :=
  mkRandom (fun l => l) (fun a _ => a) (fun l => default "" (head l)) (fun n => pretty n).

Definition seat (pid : string) (h : list Card) (sc : Z) (bot : bool) : string * Player :=
  (pid, mkPlayer pid pid h true sc bot).

(** A started room ["r"] with the given seats, piles and seat to move. *)
Definition table (ps : list (string * Player)) (d dp : list Card) (cur size : nat) : Room :=
  mkRoom "r" ps d dp cur 0 true None false false false false None size (Some "a") false None.

(** A server holding one room, with seat ["a"] on connection 1. *)
Definition server_of (room : Room) : Server :=
  mkServer {[ "r" := room ]} {[ 1 := "a" ]} {[ "a" := "r"; "b" := "r" ]}.

Definition c7h := mkCard "hearts" "7" "c1".
Definition cKs := mkCard "spades" "K" "c2".
Definition c7c := mkCard "clubs" "7" "c3".
Definition c6h := mkCard "hearts" "6" "c4".
Definition c9d := mkCard "diamonds" "9" "c5".
Definition cQs := mkCard "spades" "Q" "c6".
Definition c5h := mkCard "hearts" "5" "c7".
Definition c3c := mkCard "clubs" "3" "c8".

(** Seat a to move with two cards on a 7 of clubs. *)
Definition room_play : Room :=
  table [seat "a" [c7h; cKs] 0 false; seat "b" [c9d] 0 true] [c3c] [c7c] 0 52.

(** Every card but the top discard is in a hand; seat b, a bot, is to move. *)
Definition room_exhausted : Room :=
  table [seat "a" [c7h; cKs] 0 false; seat "b" [c9d] 0 true] [] [c3c] 1 52.

(** The same, seat a to move. *)
Definition room_exhausted_a : Room :=
  table [seat "a" [c7h; cKs] 0 false; seat "b" [c9d] 0 true] [] [c3c] 0 52.

(** Seat a has drawn and may pass. *)
Definition room_drawn : Room := set_card_drawn_this_turn true room_play.

(** The lobby between two rounds: not started. *)
Definition room_lobby : Room := set_game_started false room_drawn.

(** "No special effect of a winning card is applied": the room on which the
    tally runs has the deck and every other seat as they were, and the
    turn where it was. *)
Definition winning_card_has_no_effect : Prop :=
  forall g ws rid pid cid chosen room room' w,
    play_card_room g ws rid pid (Some cid) chosen room = RoundOver room' w ->
    deck room' = deck room /\
    current_player_index room' = current_player_index room /\
    forall k, k <> pid -> get_player k (players room') = get_player k (players room).

(** How many cards a played 6 or 7 makes the next seat draw, when the
    piles have them. *)
Definition forced_draw_cards (c : Card) : nat :=
  if str_eq (rank c) "6" then 1 else if str_eq (rank c) "7" then 2 else 0.

(** Seat a wins with a 6 of hearts on the 7 of hearts; seat b is next. *)
Definition room_win6 : Room :=
  table [seat "a" [c6h] 0 false; seat "b" [c9d] 0 true] [c3c] [c7h] 0 52.

(** Seat a wins with the Queen of spades. *)
Definition room_winQ : Room :=
  table [seat "a" [cQs] 0 false; seat "b" [c9d; cKs] 0 true] [c3c] [c7h] 0 52.

(** The hand a game event carries for its addressee. *)
Definition shown_hand (m : Message) : option (list Card) :=
  match m with
  | ev_game_started m => Some (gs_hand m)
  | ev_card_played m => Some (cp_hand m)
  | ev_card_drawn m => Some (cd_hand m)
  | ev_turn_skipped m => Some (ts_hand m)
  | _ => None
  end.

(** The hands a round result lays open, by seat. *)
Definition revealed_hands (m : Message) : list (string * list Card) :=
  match m with
  | ev_game_ended _ _ results => map (fun r => (re_player_id r, re_hand r)) results
  | _ => []
  end.

(** Every hand card an event contains. *)
Definition cards_shown (m : Message) : list Card :=
  default [] (shown_hand m) ++ concat (map snd (revealed_hands m)).

(** The seats as a game event lists them. *)
Definition shown_players (m : Message) : option (list PlayerDict) :=
  match m with
  | ev_game_started m => Some (gs_players m)
  | ev_card_played m => Some (cp_players m)
  | ev_card_drawn m => Some (cd_players m)
  | ev_turn_skipped m => Some (ts_players m)
  | _ => None
  end.

(** The event carries no hand but the addressee's own, as the room has it,
    and lists the seats by [Player.to_dict], which has the hand count only. *)
Definition own_hand (room : Room) (e : Effect) : Prop :=
  match e with
  | SendToPlayer pid m =>
      revealed_hands m = [] /\
      (forall l, shown_players m = Some l -> l = players_to_dict room) /\
      forall h, shown_hand m = Some h -> exists p, (pid, p) ∈ players room /\ h = hand p
  | WsSend _ m | BroadcastToRoom _ m | BroadcastRooms m => cards_shown m = []
  | _ => True
  end.

(** What [handle_game_end] emits for the room. *)
Definition game_end_out (r : GameEndResult) : list Effect :=
  match r with
  | RoomClosed _ out => out
  | NextRound _ _ out => out
  end.

(** "Every event sent to a seat contains at most that seat's own hand",
    read for the events of the round end too. *)
Definition round_end_shows_own_hand_only : Prop :=
  forall rid winner_id room pid m c,
    SendToPlayer pid m ∈ game_end_out (game_end_room rid winner_id room) ->
    c ∈ cards_shown m ->
    exists p, (pid, p) ∈ players room /\ c ∈ hand p.

(** The room a handler left and what it emitted. *)
Definition room_of (o : Outcome) : Room :=
  match o with
  | Rejected room _ | Raised _ room | RoundOver room _ | Accepted room _ => room
  end.

Definition events_of (o : Outcome) : list Effect :=
  match o with
  | Rejected _ out | Accepted _ out => out
  | Raised _ _ | RoundOver _ _ => []
  end.

(** At the round end: [game_ended] lays open, to every seat, the remaining
    hand of every seat but the winner; no other event carries a hand. *)
Definition round_end_event (winner_id : string) (room : Room) (e : Effect) : Prop :=
  match e with
  | SendToPlayer _ (ev_game_ended _ _ results) =>
      map (fun r => (re_player_id r, re_hand r)) results =
      map (fun kp : string * Player =>
             (fst kp, if str_eq (fst kp) winner_id then [] else hand (snd kp)))
          (players room)
  | SendToPlayer _ m | WsSend _ m | BroadcastToRoom _ m | BroadcastRooms m =>
      cards_shown m = []
  | _ => True
  end.

(** The round is over: seat a has no card left, seat b holds two. *)
Definition room_endQ : Room :=
  table [seat "a" [] 0 false; seat "b" [c9d; cKs] 0 true] [c3c] [c7h; cQs] 0 52.

(** What the card-moving steps leave alone: everything but the piles and
    the hands. *)
Definition frame (r r' : Room) : Prop :=
  room_id r' = room_id r /\
  player_ids r' = player_ids r /\
  current_player_index r' = current_player_index r /\
  dealer_index r' = dealer_index r /\
  game_started r' = game_started r /\
  chosen_suit r' = chosen_suit r /\
  waiting_for_eight r' = waiting_for_eight r /\
  card_drawn_this_turn r' = card_drawn_this_turn r /\
  eight_draw_used r' = eight_draw_used r /\
  deck_size r' = deck_size r /\
  eight_drawn_cards r' = eight_drawn_cards r.

(** The round is over and seat b, at 95, holds 13 points. *)
Definition room_end_high : Room :=
  table [seat "a" [] 0 false; seat "b" [c9d; cKs] 95 true] [c3c] [c7h; c5h] 0 52.

(** Section 4.3: a drawn card ends the 8-chain draw when its rank is 2, Q or
    8, or its suit is that of the top discard. *)
Definition qualifies (c top : Card) : Prop :=
  rank c = "2" \/ rank c = "Q" \/ rank c = "8" \/ suit c = suit top.

(** ** The rooms the server can reach *)

(** The room a request leaves behind. When the hand was emptied the tally
    runs first; a room that is closed has no successor. *)
Definition after (rid : string) (o : Outcome) : option Room :=
  match o with
  | Rejected room _ | Raised _ room | Accepted room _ => Some room
  | RoundOver room winner_id =>
      match game_end_room rid winner_id room with
      | NextRound room' _ _ => Some room'
      | RoomClosed _ _ => None
      end
  end.

(** One request, or one timer expiry, on a room. The turn handlers run on
    started rooms only. *)
Inductive room_step (r : Room) : Room -> Prop :=
| step_join pid nick r' :
    join_room pid nick r = Some r' -> room_step r r'
| step_toggle_ready g rid pid r' :
    Random_ok g -> after rid (toggle_ready g rid pid r) = Some r' -> room_step r r'
| step_countdown g rid r' :
    Random_ok g -> after rid (countdown_expired g rid r) = Some r' -> room_step r r'
| step_change_deck_size pid size r' :
    change_deck_size pid size r = Some r' -> room_step r r'
| step_toggle_private pid private r' :
    toggle_private pid private r = Some r' -> room_step r r'
| step_disconnect pid :
    room_step r (disconnect pid r)
| step_play g ws rid pid cid chosen r' :
    Random_ok g -> game_started r = true ->
    after rid (play_card_room g ws rid pid cid chosen r) = Some r' -> room_step r r'
| step_draw g ws bot_id rid pid r' :
    Random_ok g -> game_started r = true ->
    after rid (draw_card_room g ws bot_id rid pid r) = Some r' -> room_step r r'
| step_skip ws rid pid r' :
    game_started r = true ->
    after rid (skip_turn_room ws rid pid r) = Some r' -> room_step r r'.

(** From a fresh room ([handle_create_room], [handle_create_bot_game]) on. *)
Inductive reachable : Room -> Prop :=
| reach_create_room rid pid nick private :
    reachable (create_room rid pid nick private)
| reach_create_bot_game rid pid nick bots size r :
    create_bot_game rid pid nick bots size = Some r -> reachable r
| reach_step r r' :
    reachable r -> room_step r r' -> reachable r'.

(** At most four seats, a deck of 36 or 52, and in a started room every
    card of it in the draw pile, on the discard pile or in a hand, with a
    card on the table. *)
Definition room_inv (r : Room) : Prop :=
  length (players r) <= 4 /\
  (deck_size r = 36 \/ deck_size r = 52) /\
  (game_started r = true -> total_cards r = deck_size r /\ discard_pile r <> []).

(** What a turn handler keeps of a room. *)
Definition conserves (r r' : Room) : Prop :=
  total_cards r' = total_cards r /\
  length (players r') = length (players r) /\
  deck_size r' = deck_size r /\
  game_started r' = game_started r /\
  (discard_pile r <> [] -> discard_pile r' <> []).

(** Two seats in the lobby, both about to be ready. *)
Definition room_two : Room :=
  default (create_room "r" "a" "a" false)
    (join_room "b" "b" (create_room "r" "a" "a" false)).

Definition room_dealt : Room :=
  room_of (toggle_ready g0 "r" "b" (room_of (toggle_ready g0 "r" "a" room_two))).

(** Seat b is next after the dealer a; the first table card is a 7. *)
Definition room_first7 : Room :=
  table [seat "a" [c7h] 0 false; seat "b" [c9d] 0 true] [c3c; c5h; cKs] [c7c] 1 52.

(** The draw pile is empty and five cards lie on the discard pile. *)
Definition room_five : Room :=
  table [seat "a" [c7h] 0 false; seat "b" [c9d] 0 true] []
    [c3c; c5h; cKs; c6h; c7c] 0 52.

(** The scores of a server's room, seat by seat. *)
Definition scores_of (s : Server) (rid : string) : list (string * Z) :=
  match rooms s !! rid with
  | Some room => map (fun kp : string * Player => (fst kp, score (snd kp))) (players room)
  | None => []
  end.

Definition server_after (r : Ret) : Server :=
  match r with
  | Return s _ | Except _ s _ => s
  end.

(** Seat b has answered the deal with its 8 of spades: seat a faces the
    8-chain. *)
Definition room_eight_reached : Room :=
  default room_dealt
    (after "r" (play_card_room g0 (Some 2) "r" "b" (Some "45") None room_dealt)).

(** ** Notions for the further properties of the turn handlers *)

(** The seat to move exists. *)
Definition turn_ok (r : Room) : Prop :=
  game_started r = true -> current_player_index r < length (players r).

(** What a seat is apart from its hand. *)
Definition standing (kp : string * Player) : string * (string * bool * Z * bool) :=
  (fst kp, (nickname (snd kp), ready (snd kp), score (snd kp), is_bot (snd kp))).

Definition standings (r : Room) : list (string * (string * bool * Z * bool)) :=
  map standing (players r).

(** The ranks that make the turn pass over a seat. *)
Definition skips_a_seat (c : Card) : bool :=
  str_eq (rank c) "6" || str_eq (rank c) "7" || str_eq (rank c) "A".

(** What a turn leaves alone: who sits where, with which name, ready flag,
    score and kind; the room's id, dealer, deck size, creator, privacy,
    started flag, countdown and last loser. *)
Definition same_table (r r' : Room) : Prop :=
  standings r' = standings r /\
  room_id r' = room_id r /\
  dealer_index r' = dealer_index r /\
  game_started r' = game_started r /\
  deck_size r' = deck_size r /\
  creator_id r' = creator_id r /\
  is_private r' = is_private r /\
  countdown_active r' = countdown_active r /\
  last_loser_id r' = last_loser_id r.

(** How many cards the first table card makes the seat after the dealer
    draw. *)
Definition first_card_draws (c : Card) : nat :=
  if str_eq (rank c) "6" then 1 else if str_eq (rank c) "7" then 2 else 0.

(** The Python exception a handler let escape, if any. *)
Definition raised (o : Outcome) : option string :=
  match o with
  | Raised exn _ => Some exn
  | _ => None
  end.

(** No exception, or the [AttributeError] of a send on the [None] that
    stands for a bot's connection. *)
Definition no_crash (ws : option WS) (o : Outcome) : Prop :=
  raised o = None \/ (ws = None /\ raised o = Some "AttributeError").

(** No seat has reached 101. *)
Definition scores_below_101 (r : Room) : Prop :=
  Forall (fun kp : string * Player => (score (snd kp) <= 100)%Z) (players r).

(** Between two rounds no card is anywhere. *)
Definition lobby_clean (r : Room) : Prop :=
  game_started r = false ->
  deck r = [] /\ discard_pile r = [] /\
  Forall (fun kp : string * Player => hand (snd kp) = []) (players r).

(** The face of a card: what the players see of it. *)
Definition face (c : Card) : string * string := (suit c, rank c).

(** The test of [cleanup_bot_only_rooms]: seats, but no human among them. *)
Definition bot_only (room : Room) : bool :=
  (length (human_players room) =? 0) && (0 <? length (players room)).

(** Nothing is sent back on the requesting connection. *)
Definition quiet (out : list Effect) : Prop :=
  Forall (fun e => match e with WsSend _ _ => False | _ => True end) out.

(** ** [make_bot_move] *)

(** [random.choice] on a list of cards. *)
Definition CardChoice := list Card -> Card.

(** What the library guarantees of [random.choice]: an element of a list
    that is not empty. *)
Definition CardChoice_ok (cc : CardChoice) : Prop := forall l, l <> [] -> cc l ∈ l.

Definition Choice_ok (g : Random) : Prop := forall l, l <> [] -> choice g l ∈ l.

(** Truthiness of a list. *)
Definition nonempty {A} (l : list A) : bool :=
  match l with
  | [] => false
  | _ => true
  end.

(** The cards the bot takes for playable: in an 8-chain a 2 or a card drawn
    in the chain, else what [can_play_card] allows. *)
Definition bot_playable (room : Room) (top_card card : Card) : bool :=
  if waiting_for_eight room then
    if str_eq (rank card) "2" then true
    else
      match eight_drawn_cards room with
      | Some s => bool_decide (card_id card ∈ s)
      | None => false
      end
  else can_play_card card top_card (chosen_suit room) (waiting_for_eight room).

Definition priority_ranks (room : Room) : list string :=
  ["7"; "6"; "A"] ++ (if deck_size room =? 52 then ["8"] else []).

(** [l.sort(key=calculate_card_points, reverse=True)]: stable, the highest
    value first. *)
Fixpoint insert_by_points (c : Card) (l : list Card) : list Card :=
  match l with
  | [] => [c]
  | d :: l' =>
      if (calculate_card_points c <? calculate_card_points d)%Z
      then d :: insert_by_points c l'
      else c :: l
  end.

Definition sort_by_points (l : list Card) : list Card := foldr insert_by_points [] l.

(** The card the bot plays: a random special card (7, 6, A, and 8 with the
    deck of 52) when one is playable; else, outside an 8-chain, a random
    card among the playable ones of the highest value; else any playable
    card. [None]: [playable_cards[0]] raises [IndexError]. *)
Definition bot_choose_card (cc : CardChoice) (room : Room) (playable_cards : list Card)
    : option Card :=
  let priority_cards :=
    List.filter (fun c => str_in (rank c) (priority_ranks room)) playable_cards in
  if nonempty priority_cards then Some (cc priority_cards)
  else if negb (waiting_for_eight room) then
    let sorted := sort_by_points playable_cards in
    match head sorted with
    | None => None
    | Some first =>
        let max_points := calculate_card_points first in
        Some (cc (List.filter (fun c => (calculate_card_points c =? max_points)%Z) sorted))
    end
  else Some (cc playable_cards).

(** The suit the bot names with a Queen: the suit of another special card
    of its hand, else of another card of its hand, else any suit.
    [list(set(..))] is taken without its duplicates; its order is left to
    [random.choice]. *)
Definition bot_choose_suit (g : Random) (room : Room) (bot : Player) (card_to_play : Card)
    : option string :=
  if str_eq (rank card_to_play) "Q" then
    let others :=
      List.filter (fun c => negb (str_eq (card_id c) (card_id card_to_play))) (hand bot) in
    let priority_cards :=
      List.filter (fun c => str_in (rank c) (priority_ranks room)) others in
    if nonempty priority_cards then
      Some (choice g (remove_dups (map suit priority_cards)))
    else
      let suits_in_hand := remove_dups (map suit others) in
      Some (if nonempty suits_in_hand then choice g suits_in_hand else choice g suits)
  else None.

(** What the bot does next. *)
Inductive BotMove :=
| BotIdle                                   (* an early [return] *)
| BotRaise (exn : string)
| BotPlay (card : Card) (chosen_suit : option string)
| BotSkip
| BotDraw.

(** [make_bot_move] up to the call of a handler. *)
Definition bot_decide (g : Random) (cc : CardChoice) (bot_id : string) (room : Room)
    : BotMove :=
  if negb (game_started room) then BotIdle
  else
    match get_player bot_id (players room) with
    | None => BotIdle
    | Some bot =>
        if negb (is_bot bot) then BotIdle
        else if length (player_ids room) <=? current_player_index room then BotIdle
        else if negb (str_eq (id_at room (current_player_index room)) bot_id) then BotIdle
        else
          match last (discard_pile room) with
          | None => BotIdle
          | Some top_card =>
              let playable_cards := List.filter (bot_playable room top_card) (hand bot) in
              if nonempty playable_cards then
                match bot_choose_card cc room playable_cards with
                | None => BotRaise "IndexError"
                | Some card_to_play =>
                    BotPlay card_to_play (bot_choose_suit g room bot card_to_play)
                end
              else if card_drawn_this_turn room then BotSkip
              else BotDraw
          end
    end.

(** [make_bot_move]: the decision, the handler it calls, and after a
    voluntary draw the bot once more. [gs n] are the random choices of the
    n-th nested call; [None]: more than [fuel] nested calls. *)
Fixpoint make_bot_move (fuel : nat) (gs : nat -> Random) (cc : CardChoice) (s : Server)
    (room_id bot_id : string) : option Ret :=
  match fuel with
  | 0 => None
  | S fuel' =>
      let g := gs 0 in
      match rooms s !! room_id with
      | None => Some (Return s [])
      | Some room =>
          match bot_decide g cc bot_id room with
          | BotIdle => Some (Return s [])
          | BotRaise exn => Some (Except exn s [])
          | BotPlay card chosen =>
              Some (handle_play_card g s None (Some (card_id card)) chosen
                      (Some bot_id) (Some room_id))
          | BotSkip => Some (handle_skip_turn s None (Some bot_id) (Some room_id))
          | BotDraw =>
              match handle_draw_card g s None (Some bot_id) (Some room_id) with
              | Except exn s' out => Some (Except exn s' out)
              | Return s' out =>
                  match rooms s' !! room_id with
                  | None => Some (Return s' out)
                  | Some room' =>
                      if negb (waiting_for_eight room') then
                        match make_bot_move fuel' (fun n => gs (S n)) cc s' room_id bot_id with
                        | Some (Return s'' out') => Some (Return s'' (out ++ out'))
                        | Some (Except exn s'' out') => Some (Except exn s'' (out ++ out'))
                        | None => None
                        end
                      else Some (Return s' out)
                  end
              end
          end
      end
  end.

(** A card the bot plays before any other: 7, 6, A, and 8 with the deck of
    52. *)
Definition special (room : Room) (c : Card) : bool := str_in (rank c) (priority_ranks room).

(** A bot that picks the first card, for the test inputs. *)
Definition cc0 : CardChoice := fun l => default c7h (head l).

(** Seat b, a bot, is to move on a 7 of clubs with a Queen in hand. *)
Definition room_bot : Room :=
  table [seat "a" [c7h; cKs] 0 false; seat "b" [c9d; cQs; c3c] 0 true] [c5h] [c7c] 1 52.

(** ** [load_room]: a room rebuilt from the database *)

(** The dict [GameDatabase.load_room] returns for a row of [rooms]: the id
    and six columns; the table has no others but two timestamps. *)
Record RoomRow := mkRoomRow {
  row_id : string;
  row_game_started : bool;
  row_current_player_index : nat;
  row_dealer_index : nat;
  row_chosen_suit : option string;
  row_waiting_for_eight : bool;
  row_card_drawn_this_turn : bool
}.

(** One dict of [GameDatabase.load_players]. *)
Record PlayerRow := mkPlayerRow {
  prow_id : string;
  prow_nickname : string;
  prow_ready : bool;
  prow_score : Z;
  prow_order : nat
}.

(** What the database answers to the queries of one [load_room]. *)
Record DbAnswers := mkDbAnswers {
  ans_room : option RoomRow;                  (* db.load_room(room_id) *)
  ans_players : list PlayerRow;               (* db.load_players(room_id) *)
  ans_player_cards : string -> list Card;     (* db.load_player_cards(player_id) *)
  ans_deck : list Card;                       (* db.load_deck(room_id) *)
  ans_discard_pile : list Card                (* db.load_discard_pile(room_id) *)
}.

(** [d[k] = v] on an insertion-ordered dict. *)
Fixpoint dict_set (k : string) (v : Player) (ps : list (string * Player))
    : list (string * Player) :=
  match ps with
  | [] => [(k, v)]
  | (k', p) :: ps' =>
      if str_eq k' k then (k', v) :: ps' else (k', p) :: dict_set k v ps'
  end.

(** [Player(id=.., nickname=.., hand=.., ready=.., score=..)]: [is_bot] is
    left to its default. *)
Definition loaded_player (q : DbAnswers) (pd : PlayerRow) : Player :=
  mkPlayer (prow_id pd) (prow_nickname pd) (ans_player_cards q (prow_id pd))
    (prow_ready pd) (prow_score pd) false.

(** [load_room]: the room and the server that now holds it; [None] when the
    database has no such room. [deck_size], [creator_id] and [is_private]
    are read with [room_data.get] from a dict that never has these keys. *)
Definition load_room (s : Server) (rid : string) (q : DbAnswers) : Server * option Room :=
  match ans_room q with
  | None => (s, None)
  | Some room_data =>
      let players :=
        foldl (fun ps pd => dict_set (prow_id pd) (loaded_player q pd) ps) []
          (ans_players q) in
      let room :=
        mkRoom (row_id room_data) players (ans_deck q) (ans_discard_pile q)
          (row_current_player_index room_data) (row_dealer_index room_data)
          (row_game_started room_data) (row_chosen_suit room_data)
          (row_waiting_for_eight room_data) (row_card_drawn_this_turn room_data)
          false false None 52 None false (Some ∅) in
      (mkServer (<[rid := room]> (rooms s)) (clients s)
         (foldl (fun m pid => <[pid := rid]> m) (player_rooms s) (map fst players)),
       Some room)
  end.

(** A stored game of two seats for the test inputs. *)
Definition answers0 : DbAnswers :=
  mkDbAnswers (Some (mkRoomRow "r" true 1 0 None false false))
    [mkPlayerRow "a" "a" true 0 0; mkPlayerRow "b" "Кент" true 0 1]
    (fun pid => if str_eq pid "a" then [c7h; cKs] else [c9d])
    [c3c] [c7c].

(** ** Delivery: [send_to_player], [broadcast_to_room] *)

(** [self.clients.items()], in the order of the dict. *)
Definition Connections := list (WS * string).

(** [send_to_player]: the first connection registered for the seat, and no
    other ([break]). *)
Definition send_to_player (conns : Connections) (player_id : string) (m : Message)
    : list (WS * Message) :=
  match List.find (fun c : WS * string => str_eq (snd c) player_id) conns with
  | Some c => [(fst c, m)]
  | None => []
  end.

(** [broadcast_to_room] with no seat excluded: every connection of a seat
    of the room. *)
Definition broadcast_to_room (s : Server) (conns : Connections) (rid : string) (m : Message)
    : list (WS * Message) :=
  match rooms s !! rid with
  | None => []
  | Some room =>
      map (fun c : WS * string => (fst c, m))
        (List.filter (fun c : WS * string => str_in (snd c) (player_ids room)) conns)
  end.

(** The [ws.send] calls an effect stands for. *)
Definition deliver (s : Server) (conns : Connections) (e : Effect) : list (WS * Message) :=
  match e with
  | WsSend ws m => [(ws, m)]
  | SendToPlayer pid m => send_to_player conns pid m
  | BroadcastToRoom rid m => broadcast_to_room s conns rid m
  | BroadcastRooms m => map (fun c : WS * string => (fst c, m)) conns
  | _ => []
  end.

(** [conns] lists connections of [self.clients]. *)
Definition conns_of (s : Server) (conns : Connections) : Prop :=
  forall w pid, (w, pid) ∈ conns -> clients s !! w = Some pid.

(** What connection 1 is sent when seat a plays its 7 of hearts. *)
Definition played_to_a : Message :=
  default (ev_error "")
    (snd <$> head (flat_map (deliver (server_of room_play) [(1, "a")])
                     (events_of (play_card_room g0 (Some 1) "r" "a" (Some "c1") None
                                   room_play)))).

(** ** [handle_reconnect] *)

(** What [handle_reconnect] sends, by [type]. Its [game_started] has the
    keys of the one [start_game] sends, without the forced draw and with
    [card_drawn_this_turn]. *)
Inductive ReconnectMessage :=
| rc_error (message : string) (error_code : option string)
| rc_player_reconnected (player_id nickname : string)
| rc_game_started (m : GameStarted) (card_drawn_this_turn : bool)
| rc_room_joined (room : RoomDict) (player_id room_id : string).

Inductive ReconnectEffect :=
| RcSend (ws : WS) (m : ReconnectMessage)         (* await ws.send(json.dumps(m)) *)
| RcBroadcast (room_id : string) (m : ReconnectMessage) (exclude_player : string)
    (* self.broadcast_to_room(room_id, m, exclude_player=..) *)
| RcMakeBotMove (room_id bot_id : string).
    (* asyncio.create_task(self.make_bot_move(..)) *)

Inductive ReconnectRet :=
| RcReturn (s : Server) (out : list ReconnectEffect)
| RcExcept (exn : string) (s : Server) (out : list ReconnectEffect).

(** [handle_reconnect]: the request names a seat and a room; a room that is
    not in memory is looked for in the database ([q] is what it answers).
    The connection is registered for the named seat, the other seats are
    told, and the state of the game, with the seat's hand, or of the lobby
    goes back on the connection. *)
Definition handle_reconnect (s : Server) (ws : WS) (data_player_id data_room_id : option string)
    (q : DbAnswers) : ReconnectRet :=
  if negb (truthy data_player_id) || negb (truthy data_room_id) then
    RcReturn s [RcSend ws (rc_error "Player ID and Room ID required" None)]
  else
    let player_id := default "" data_player_id in
    let room_id := default "" data_room_id in
    let s1 :=
      match rooms s !! room_id with
      | Some _ => s
      | None => (load_room s room_id q).1
      end in
    match rooms s1 !! room_id with
    | None =>
        RcReturn s1
          [RcSend ws (rc_error "Комната не найдена или больше не существует"
                        (Some "room_not_found"))]
    | Some room =>
        match get_player player_id (players room) with
        | None =>
            RcReturn s1
              [RcSend ws (rc_error "Игрок не найден в этой комнате"
                            (Some "player_not_found"))]
        | Some player =>
            let s2 :=
              mkServer (rooms s1) (<[ws := player_id]> (clients s1))
                (<[player_id := room_id]> (player_rooms s1)) in
            let reconnected :=
              RcBroadcast room_id (rc_player_reconnected player_id (nickname player))
                player_id in
            if game_started room then
              match player_ids room !! current_player_index room with
              | None => RcExcept "IndexError" s2 [reconnected]
              | Some current =>
                  match player_ids room !! dealer_index room with
                  | None => RcExcept "IndexError" s2 [reconnected]
                  | Some dealer =>
                      let message :=
                        rc_game_started
                          {| gs_hand := hand player;
                             gs_top_card := last (discard_pile room);
                             gs_current_player := current;
                             gs_dealer := dealer;
                             gs_players := players_to_dict room;
                             gs_deck_count := length (deck room);
                             gs_chosen_suit := chosen_suit room;
                             gs_waiting_for_eight := waiting_for_eight room;
                             gs_eight_draw_used := eight_draw_used room;
                             gs_eight_drawn_cards :=
                               eight_drawn_card_ids room player_id current;
                             gs_deck_size := deck_size room;
                             gs_forced_draw := None |}
                          (card_drawn_this_turn room) in
                      match get_player current (players room) with
                      | None => RcExcept "KeyError" s2 [reconnected; RcSend ws message]
                      | Some p =>
                          RcReturn s2
                            ([reconnected; RcSend ws message]
                             ++ if is_bot p then [RcMakeBotMove room_id current] else [])
                      end
                  end
              end
            else
              RcReturn s2
                [reconnected;
                 RcSend ws (rc_room_joined (Room_to_dict room) player_id room_id)]
        end
    end.

Definition reconnect_server (r : ReconnectRet) : Server :=
  match r with
  | RcReturn s _ | RcExcept _ s _ => s
  end.

Definition reconnect_out (r : ReconnectRet) : list ReconnectEffect :=
  match r with
  | RcReturn _ out | RcExcept _ _ out => out
  end.

(** The hand a reconnect message carries. *)
Definition rc_shown_hand (m : ReconnectMessage) : option (list Card) :=
  match m with
  | rc_game_started m _ => Some (gs_hand m)
  | _ => None
  end.

(** The seats as a reconnect message lists them. *)
Definition rc_shown_players (m : ReconnectMessage) : option (list PlayerDict) :=
  match m with
  | rc_game_started m _ => Some (gs_players m)
  | rc_room_joined room _ _ => Some (rd_players room)
  | _ => None
  end.

(** A reply on a connection carries no hand but that of the seat the
    connection is registered for, in the room of that seat, and lists the
    seats by [Player.to_dict]; what is broadcast carries no hand. *)
Definition reconnect_own_hand (s : Server) (e : ReconnectEffect) : Prop :=
  match e with
  | RcSend ws m =>
      (forall h, rc_shown_hand m = Some h ->
         exists pid rid room p,
           clients s !! ws = Some pid /\ player_rooms s !! pid = Some rid /\
           rooms s !! rid = Some room /\
           get_player pid (players room) = Some p /\ h = hand p) /\
      (forall l, rc_shown_players m = Some l ->
         exists rid room, rooms s !! rid = Some room /\ l = players_to_dict room)
  | RcBroadcast _ m _ => rc_shown_hand m = None
  | RcMakeBotMove _ _ => True
  end.

(** ** [save_room_to_db], read back *)

(** What the database answers to [load_room] once [save_room_to_db] has
    run for the room, on a database that held nothing of it: the seven
    columns that [GameDatabase.save_room] binds ([eight_draw_used],
    [deck_size], [creator_id] and [is_private] of the dict it is given are
    not stored), the seats by [player_order], the piles by [card_order]. *)
Definition save_room_to_db (room : Room) : DbAnswers :=
  mkDbAnswers
    (Some (mkRoomRow (room_id room) (game_started room) (current_player_index room)
             (dealer_index room) (chosen_suit room) (waiting_for_eight room)
             (card_drawn_this_turn room)))
    (imap (fun idx (kp : string * Player) =>
             mkPlayerRow (player_id (snd kp)) (nickname (snd kp)) (ready (snd kp))
               (score (snd kp)) idx)
          (players room))
    (fun pid => match get_player pid (players room) with
                | Some p => hand p
                | None => []
                end)
    (deck room) (discard_pile room).

(** A game of 36 cards between two seats, dealt. *)
Definition room_dealt36 : Room :=
  room_of (toggle_ready g0 "r" "b"
             (room_of (toggle_ready g0 "r" "a"
                         (default room_two (change_deck_size "a" 36 room_two))))).

(** No room in memory, no connection: the server as it starts. *)
Definition server_restarted : Server := mkServer ∅ ∅ ∅.

(** ** Helper lemmas *)

Lemma str_eq_true a b : str_eq a b = true <-> a = b.
Proof. unfold str_eq. apply String.eqb_eq. Qed.

Lemma str_eq_false a b : str_eq a b = false <-> a <> b.
Proof. unfold str_eq. apply String.eqb_neq. Qed.

Lemma str_eq_refl a : str_eq a a = true.
Proof. by apply str_eq_true. Qed.

Lemma pop_Some {A} (l l' : list A) x : pop l = Some (x, l') <-> l = l' ++ [x].
Proof.
  unfold pop. split.
  - destruct (last l) as [y|] eqn:E; [|done].
    intros [= <- <-]. apply last_Some in E as [l0 ->].
    by rewrite removelast_last.
  - intros ->. by rewrite last_snoc, removelast_last.
Qed.

Lemma pop_None {A} (l : list A) : pop l = None <-> l = [].
Proof.
  unfold pop. destruct (last l) eqn:E.
  - split; [done|]. intros ->. done.
  - split; [|done]. intros _. by apply last_None.
Qed.

Lemma get_player_is_Some pid ps :
  pid ∈ map fst ps -> is_Some (get_player pid ps).
Proof.
  induction ps as [|[k p] ps IH]; simpl.
  - by intros ?%elem_of_nil.
  - intros [->|H]%elem_of_cons.
    + rewrite str_eq_refl. eauto.
    + destruct (str_eq k pid); eauto.
Qed.

Lemma update_player_keys pid f ps : map fst (update_player pid f ps) = map fst ps.
Proof.
  induction ps as [|[k p] ps IH]; simpl; [done|].
  destruct (str_eq k pid); simpl; by rewrite ?IH.
Qed.

Lemma get_player_update pid k f ps :
  get_player pid (update_player k f ps) =
  (if str_eq k pid then f else fun p => p) <$> get_player pid ps.
Proof.
  induction ps as [|[k' p] ps IH]; simpl.
  - by destruct (str_eq k pid).
  - destruct (str_eq k' k) eqn:E1; simpl.
    + apply str_eq_true in E1 as ->.
      destruct (str_eq k pid) eqn:E2; [done|].
      simpl. destruct (get_player pid ps); done.
    + destruct (str_eq k' pid) eqn:E2; [|done].
      destruct (str_eq k pid) eqn:E3; [|done].
      apply str_eq_true in E2, E3. subst. by rewrite str_eq_refl in E1.
Qed.

(** ** Card values *)

Lemma card_value_sound c v : card_value c v -> calculate_card_points c = v.
Proof.
  unfold calculate_card_points.
  destruct 1 as [n Hn E|E|E|E|E Hs|E Hs]; rewrite E.
  - assert (n = 2 \/ n = 3 \/ n = 4 \/ n = 5 \/ n = 6 \/ n = 7 \/ n = 8 \/ n = 9
            \/ n = 10) as Hcase by lia.
    repeat (destruct Hcase as [->|Hcase]; [reflexivity|]). by subst.
  - reflexivity.
  - reflexivity.
  - reflexivity.
  - apply str_eq_false in Hs. simpl. by rewrite Hs.
  - apply str_eq_true in Hs. simpl. by rewrite Hs.
Qed.

Lemma hand_value_sound h vs :
  Forall2 card_value h vs -> calculate_hand_points h = foldr Z.add 0%Z vs.
Proof.
  induction 1 as [|c v h vs Hc _ IH]; simpl; [done|].
  by rewrite (card_value_sound _ _ Hc), IH.
Qed.

Lemma winner_bonus_sound room b :
  winner_bonus (last (discard_pile room)) b -> queen_bonus room = b.
Proof.
  unfold queen_bonus. inversion 1 as [c Hr Hs|c Hr Hs|c Hr]; subst.
  - rewrite Hr, Hs. reflexivity.
  - rewrite Hr. apply str_eq_false in Hs. simpl. by rewrite Hs.
  - apply str_eq_false in Hr. by rewrite Hr.
Qed.

Lemma tally_lookup winner_id room i pid p :
  players room !! i = Some (pid, p) ->
  players (tally winner_id room).1 !! i =
    Some (pid, set_score
                 (score p + (if str_eq pid winner_id then queen_bonus room
                             else calculate_hand_points (hand p)))%Z p).
Proof.
  intros H. unfold tally. simpl.
  rewrite !list_lookup_fmap, H. simpl.
  by destruct (str_eq pid winner_id).
Qed.

(** ** The two [can_play_card] *)

(** C10: the later, four-parameter [can_play_card] replaces the earlier
    three-parameter one; with [waiting_for_eight] false the two return the
    same boolean for every card, top card and chosen suit, so outside an
    8-chain the gate of [handle_play_card], which calls the later one, lets
    through exactly the cards the earlier one accepts. *)
Theorem can_play_card_shadowing card top_card chosen ws room :
  can_play_card card top_card chosen false = Shadowed.can_play_card card top_card chosen /\
  play_card_check ws card top_card (set_waiting_for_eight false room) =
    (if Shadowed.can_play_card card top_card (chosen_suit room)
     then inr (set_waiting_for_eight false room)
     else inl (Rejected (set_waiting_for_eight false room)
                 (send_if_ws ws (ev_error "Cannot play this card")))).
Proof.
  split; [reflexivity|].
  unfold play_card_check.
  change (waiting_for_eight (set_waiting_for_eight false room)) with false.
  change (chosen_suit (set_waiting_for_eight false room)) with (chosen_suit room).
  change (can_play_card card top_card (chosen_suit room) false)
    with (Shadowed.can_play_card card top_card (chosen_suit room)).
  by destruct (Shadowed.can_play_card card top_card (chosen_suit room)).
Qed.

Lemma str_eq_spec a b : reflect (a = b) (str_eq a b).
Proof. unfold str_eq. apply String.eqb_spec. Qed.

Lemma can_play_card_legal card top_card chosen :
  chosen <> Some "" ->
  can_play_card card top_card chosen false = true <->
  is_legal card top_card chosen false ∅.
Proof.
  intros Hne. unfold can_play_card, is_legal.
  destruct (str_eq_spec (rank card) "Q") as [HQ|HQ]; [naive_solver|].
  destruct chosen as [s|]; simpl.
  - destruct (str_eq_spec s "") as [->|_]; [done|]. simpl.
    destruct (str_eq_spec (suit card) s), (str_eq_spec (rank card) (rank top_card));
      simpl; intuition congruence.
  - destruct (str_eq_spec (suit card) (suit top_card)),
      (str_eq_spec (rank card) (rank top_card)); simpl; intuition congruence.
Qed.

Lemma replenish_deck_players g room r b :
  replenish_deck g room = (r, b) -> players r = players room.
Proof.
  unfold replenish_deck.
  destruct (_ && _); [|by intros [= <- <-]].
  destruct (last _); by intros [= <- <-].
Qed.

Lemma draw_to_ids pid room r n :
  draw_to pid room = (r, n) -> player_ids r = player_ids room.
Proof.
  unfold draw_to, player_ids. destruct (pop _) as [[c d]|]; intros [= <- <-]; [|done].
  simpl. apply update_player_keys.
Qed.

Lemma forced_draw_ids g pid room r n b :
  forced_draw g pid room = (r, n, b) -> player_ids r = player_ids room.
Proof.
  unfold forced_draw.
  destruct (replenish_deck g room) as [r1 sh] eqn:E1.
  destruct (draw_to pid r1) as [r2 m] eqn:E2. intros [= <- <- <-].
  rewrite (draw_to_ids _ _ _ _ E2). unfold player_ids.
  by rewrite (replenish_deck_players _ _ _ _ E1).
Qed.

Lemma play_card_draw_effects_ids g card room r nx fid fc sh :
  play_card_draw_effects g card room = (r, nx, fid, fc, sh) ->
  player_ids r = player_ids room.
Proof.
  unfold play_card_draw_effects.
  destruct (str_eq (rank card) "6").
  - destruct (forced_draw g _ room) as [[r1 c1] s1] eqn:E1. intros [= <- <- <- <- <-].
    by eapply forced_draw_ids.
  - destruct (str_eq (rank card) "7"); [|by intros [= <- <- <- <- <-]].
    destruct (forced_draw g _ room) as [[r1 c1] s1] eqn:E1.
    destruct (forced_draw g _ r1) as [[r2 c2] s2] eqn:E2. intros [= <- <- <- <- <-].
    rewrite (forced_draw_ids _ _ _ _ _ _ E2). by eapply forced_draw_ids.
Qed.

Lemma play_card_move_ids pid card room :
  player_ids (play_card_move pid card room) = player_ids room.
Proof.
  unfold play_card_move. destruct (negb _); unfold player_ids; simpl;
    apply update_player_keys.
Qed.

Lemma play_card_apply_accepted g rid pid card chosen room :
  pid ∈ player_ids room ->
  accepted (play_card_apply g rid pid card chosen room).
Proof.
  intros Hin. unfold play_card_apply.
  pose proof (play_card_move_ids pid card room) as Hids.
  set (room3 := play_card_move pid card room) in *.
  destruct (play_card_draw_effects g card room3) as [[[[r4 nx] fid] fc] sh] eqn:E.
  apply play_card_draw_effects_ids in E as Hids'.
  destruct (get_player_is_Some pid (players r4)) as [p Hp].
  { change (pid ∈ player_ids r4). by rewrite Hids', Hids. }
  rewrite Hp. destruct (length (hand p) =? 0); [done|].
  by destruct (play_card_late_effects _ _ _ _).
Qed.

(** C3: for a card of the current player's hand, named by the request, on a
    table with a top card, [handle_play_card] carries the play out if and
    only if the legality rule holds: during an 8-chain, the rank is 2 or the
    id is among the cards drawn in the chain; otherwise a Q, or the chosen
    suit or the top card's rank when a suit is chosen, or the top card's suit
    or rank. *)
Theorem play_card_accepts_iff_legal g ws rid player_id cid chosen room player card top_card :
  player_ids room !! current_player_index room = Some player_id ->
  get_player player_id (players room) = Some player ->
  find_card (Some cid) (hand player) = Some card ->
  last (discard_pile room) = Some top_card ->
  chosen_suit room <> Some "" ->
  accepted (play_card_room g ws rid player_id (Some cid) chosen room) <->
  is_legal card top_card (chosen_suit room) (waiting_for_eight room)
    (default ∅ (eight_drawn_cards room)).
Proof.
  intros Hcur Hp Hc Htop Hcs.
  assert (player_id ∈ player_ids room) as Hin by (by eapply list_elem_of_lookup_2).
  unfold play_card_room. rewrite Hcur, str_eq_refl, Hp, Hc, Htop. simpl.
  unfold play_card_check.
  destruct (waiting_for_eight room) eqn:Hw.
  - unfold is_legal.
    destruct (str_eq_spec (rank card) "2") as [H2|H2]; simpl.
    + split; [by left|]. intros _. apply play_card_apply_accepted.
      unfold clear_eight_drawn_cards. simpl. by destruct (eight_drawn_cards room).
    + destruct (eight_drawn_cards room) as [ids|] eqn:Hids; simpl.
      * case_bool_decide as Hd; simpl.
        -- split; [by right|]. intros _. apply play_card_apply_accepted.
           unfold clear_eight_drawn_cards. simpl. by rewrite Hids.
        -- split; [by destruct ws|]. intros [?|?]; done.
      * split; [by destruct ws|]. intros [?|?]; [done|]. set_solver.
  - rewrite <- Hw at 1. rewrite Hw.
    destruct (can_play_card card top_card (chosen_suit room) false) eqn:Hcan; simpl.
    + split; [|intros _; by apply play_card_apply_accepted].
      intros _. apply can_play_card_legal in Hcan; [|done].
      unfold is_legal in *. exact Hcan.
    + split; [done|]. intros Hl.
      assert (can_play_card card top_card (chosen_suit room) false = true) as Hcan'.
      { apply can_play_card_legal; [done|]. exact Hl. }
      congruence.
Qed.

Lemma play_card_accepts_iff_legal_witness :
  accepted (play_card_room g0 None "r" "a" (Some "c1") None room_play) <->
  is_legal c7h c7c None false ∅.
Proof.
  apply (play_card_accepts_iff_legal g0 None "r" "a" "c1" None room_play
           (snd (seat "a" [c7h; cKs] 0 false)) c7h c7c);
    [reflexivity | reflexivity | reflexivity | reflexivity | done].
Defined.

(** ** Deck replenishment and the voluntary draw *)

Lemma g0_ok : Random_ok g0.
Proof. split; simpl; [done|lia]. Qed.

Lemma replenish_deck_noop g room :
  deck room <> [] \/ length (discard_pile room) <= 1 -> replenish_deck g room = (room, false).
Proof.
  unfold replenish_deck. intros [H|H].
  - destruct (deck room); [done|]. done.
  - destruct (length (deck room) =? 0); [|done].
    destruct (1 <? length (discard_pile room)) eqn:E; [|done].
    apply Nat.ltb_lt in E. lia.
Qed.

Lemma replenish_deck_fires g room rest top :
  deck room = [] -> discard_pile room = rest ++ [top] -> rest <> [] ->
  replenish_deck g room = (set_discard_pile [top] (set_deck (shuffle g rest) room), true).
Proof.
  intros Hd Hp Hr. unfold replenish_deck.
  rewrite Hd, Hp, last_snoc, removelast_last.
  assert ((1 <? length (rest ++ [top])) = true) as ->; [|done].
  apply Nat.ltb_lt. rewrite length_app. destruct rest; [done|]. simpl. lia.
Qed.

(** X21: with an empty draw pile and more than one discard,
    [replenish_deck] makes the discards below the top, in a shuffled order,
    the new draw pile and leaves exactly the former top card on the discard
    pile; with at most one discard it changes nothing; and in that exhausted
    case a voluntary draw asked over a client connection is refused with an
    error event, the room untouched. *)
Theorem replenish_deck_spec g room :
  Random_ok g ->
  (forall rest top,
     deck room = [] -> discard_pile room = rest ++ [top] -> rest <> [] ->
     exists d, replenish_deck g room = (set_discard_pile [top] (set_deck d room), true)
               /\ d ≡ₚ rest) /\
  (length (discard_pile room) <= 1 -> replenish_deck g room = (room, false)) /\
  (forall w bot_id rid pid,
     player_ids room !! current_player_index room = Some pid ->
     waiting_for_eight room = false ->
     card_drawn_this_turn room = false ->
     deck room = [] -> length (discard_pile room) <= 1 ->
     draw_card_room g (Some w) bot_id rid pid room =
       Rejected room [WsSend w (ev_error "Колода пуста")]).
Proof.
  intros Hg. split; [|split].
  - intros rest top Hd Hp Hr. exists (shuffle g rest). split.
    + by apply replenish_deck_fires.
    + apply (shuffle_perm g Hg).
  - intros H. apply replenish_deck_noop. by right.
  - intros w bot_id rid pid Hcur Hw Hdrawn Hd Hlen.
    unfold draw_card_room. rewrite Hcur, str_eq_refl, Hw, Hdrawn. simpl.
    rewrite replenish_deck_noop by (by right). by rewrite Hd.
Qed.

Lemma replenish_deck_spec_witness :
  (exists d, replenish_deck g0 (table [] [] [c7h; cKs; c7c] 0 52)
             = (set_discard_pile [c7c] (set_deck d (table [] [] [c7h; cKs; c7c] 0 52)), true)
             /\ d ≡ₚ [c7h; cKs]) /\
  draw_card_room g0 (Some 1) None "r" "a" room_exhausted_a =
    Rejected room_exhausted_a [WsSend 1 (ev_error "Колода пуста")].
Proof.
  split.
  - apply (proj1 (replenish_deck_spec g0 (table [] [] [c7h; cKs; c7c] 0 52) g0_ok)
             [c7h; cKs] c7c); [reflexivity | reflexivity | done].
  - apply (proj2 (proj2 (replenish_deck_spec g0 room_exhausted_a g0_ok)));
      [reflexivity | reflexivity | reflexivity | reflexivity | simpl; lia].
Defined.

(** C8, the code against the claim: when the draw pile is empty and the
    discard pile holds at most its top card, the voluntary draw of a bot
    ([ws] is [None]) is not refused with an error event: the handler
    reaches the unguarded [ws.send] and [AttributeError] escapes from it.
    No card moves. *)
Theorem exhausted_draw_bot_raises g bot_id rid pid room :
  player_ids room !! current_player_index room = Some pid ->
  waiting_for_eight room = false ->
  card_drawn_this_turn room = false ->
  deck room = [] -> length (discard_pile room) <= 1 ->
  draw_card_room g None bot_id rid pid room = Raised "AttributeError" room /\
  forall s room_id,
    resolve_room s None bot_id room_id = Some (pid, rid, room) ->
    handle_draw_card g s None bot_id room_id
      = Except "AttributeError" (put_room rid room s) [].
Proof.
  intros Hcur Hw Hdrawn Hd Hlen.
  assert (draw_card_room g None bot_id rid pid room = Raised "AttributeError" room) as E.
  { unfold draw_card_room. rewrite Hcur, str_eq_refl, Hw, Hdrawn. simpl.
    rewrite replenish_deck_noop by (by right). by rewrite Hd. }
  split; [exact E|]. intros s room_id Hres. unfold handle_draw_card. by rewrite Hres, E.
Qed.

Lemma exhausted_draw_bot_raises_witness :
  draw_card_room g0 None (Some "b") "r" "b" room_exhausted
    = Raised "AttributeError" room_exhausted.
Proof.
  apply (exhausted_draw_bot_raises g0 (Some "b") "r" "b" room_exhausted);
    [reflexivity | reflexivity | reflexivity | reflexivity | simpl; lia].
Defined.

(** ** Skipping a turn *)

Lemma resolve_room_Some s ws bot_id room_id player_id rid room :
  resolve_room s ws bot_id room_id = Some (player_id, rid, room) ->
  rooms s !! rid = Some room /\ game_started room = true.
Proof.
  unfold resolve_room. destruct (resolve _ _ _ _) as [[p r]|]; [|done].
  destruct (rooms s !! r) as [room'|] eqn:E; [|done].
  destruct (game_started room') eqn:Hs; [|done].
  by intros [= <- <- <-].
Qed.

Lemma put_room_id rid room s : rooms s !! rid = Some room -> put_room rid room s = s.
Proof.
  intros H. destruct s as [rs cs prs]. unfold put_room. simpl in *.
  by rewrite insert_id.
Qed.

Lemma skip_done_nil : ~ skip_done [].
Proof. intros (pid & m & H). by apply elem_of_nil in H. Qed.

Lemma skip_done_send_if_ws ws m : ~ skip_done (send_if_ws ws (ev_error m)).
Proof.
  intros (pid & m' & H). destruct ws; simpl in H.
  - apply list_elem_of_singleton in H. discriminate H.
  - by apply elem_of_nil in H.
Qed.

Lemma error_replied_send w m : error_replied (send_if_ws (Some w) (ev_error m)).
Proof. exists w, m. simpl. apply list_elem_of_singleton. done. Qed.

Lemma skip_pre_dec player_id room : skip_pre player_id room \/ ~ skip_pre player_id room.
Proof.
  unfold skip_pre.
  destruct (decide (player_ids room !! current_player_index room = Some player_id)),
    (waiting_for_eight room), (card_drawn_this_turn room); intuition congruence.
Qed.

Lemma skip_turn_room_ok ws rid player_id room :
  skip_pre player_id room ->
  exists out,
    skip_turn_room ws rid player_id room =
      Accepted (set_card_drawn_this_turn false
                  (set_current_player_index
                     ((current_player_index room + 1) mod length (players room)) room)) out
    /\ skip_done out.
Proof.
  intros (Hcur & Hw & Hd). unfold skip_turn_room.
  rewrite Hcur, str_eq_refl, Hw, Hd. simpl.
  unfold player_ids at 1. rewrite length_map.
  eexists. split; [done|].
  unfold skip_done, turn_skipped_messages. simpl.
  destruct (players room) as [|[k p] ps] eqn:Hps.
  { unfold player_ids in Hcur. rewrite Hps in Hcur. simpl in Hcur.
    by rewrite lookup_nil in Hcur. }
  simpl. eexists _, _. apply elem_of_cons. right. apply elem_of_cons. left. done.
Qed.

Lemma skip_turn_room_fail ws rid player_id room :
  ~ skip_pre player_id room ->
  (skip_turn_room ws rid player_id room = Raised "IndexError" room /\
   player_ids room !! current_player_index room = None) \/
  (exists m, skip_turn_room ws rid player_id room = Rejected room (send_if_ws ws (ev_error m))).
Proof.
  intros Hn. unfold skip_turn_room.
  destruct (player_ids room !! current_player_index room) as [cur|] eqn:Hcur; [|by left].
  right. destruct (str_eq_spec cur player_id) as [->|Hne]; simpl; [|eauto].
  destruct (waiting_for_eight room) eqn:Hw; [eauto|].
  destruct (card_drawn_this_turn room) eqn:Hd; simpl; [|eauto].
  exfalso. apply Hn. done.
Qed.

(** C9 (as amended): [handle_skip_turn] carries the skip out if and only if
    the request comes from the seat at [current_player_index] of a started
    room, no 8-chain is pending and a card was drawn this turn; it then
    advances [current_player_index] by exactly one seat and resets
    [card_drawn_this_turn]; in every other case the server state is left as
    it was, and an error event is replied when the request came over a
    client connection to a started room whose turn index is in range (a bot,
    and a request that names no started room, get a silent return). *)
Theorem handle_skip_turn_spec s ws bot_id room_id :
  ((exists s' out, handle_skip_turn s ws bot_id room_id = Return s' out /\ skip_done out)
   <-> skip_allowed s ws bot_id room_id) /\
  (forall player_id rid room,
     resolve_room s ws bot_id room_id = Some (player_id, rid, room) ->
     skip_pre player_id room ->
     exists out,
       handle_skip_turn s ws bot_id room_id =
         Return (put_room rid
                   (set_card_drawn_this_turn false
                      (set_current_player_index
                         ((current_player_index room + 1) mod length (players room))
                         room)) s) out) /\
  (~ skip_allowed s ws bot_id room_id ->
   exists out,
     (handle_skip_turn s ws bot_id room_id = Return s out \/
      handle_skip_turn s ws bot_id room_id = Except "IndexError" s out) /\
     (forall w player_id rid room,
        ws = Some w ->
        resolve_room s ws bot_id room_id = Some (player_id, rid, room) ->
        is_Some (player_ids room !! current_player_index room) ->
        error_replied out) /\
     (ws = None -> out = []) /\
     (resolve_room s ws bot_id room_id = None -> out = [])).
Proof.
  unfold handle_skip_turn, skip_allowed.
  destruct (resolve_room s ws bot_id room_id) as [[[pid rid] room]|] eqn:Hres.
  - apply resolve_room_Some in Hres as [Hroom Hstarted].
    split; [|split].
    + split.
      * intros (s' & out & E & Hdone). exists pid, rid, room. split; [done|].
        destruct (skip_pre_dec pid room) as [Hp|Hp]; [done|].
        destruct (skip_turn_room_fail ws rid pid room Hp) as [[E' _]|[m E']];
          rewrite E' in E; [done|].
        injection E as <- <-. by apply skip_done_send_if_ws in Hdone.
      * intros (p' & r' & room' & [= <- <- <-] & Hp).
        destruct (skip_turn_room_ok ws rid pid room Hp) as (out & E & Hdone).
        rewrite E. eauto.
    + intros p' r' room' [= <- <- <-] Hp.
      destruct (skip_turn_room_ok ws rid pid room Hp) as (out & E & Hdone).
      rewrite E. eauto.
    + intros Hn.
      assert (~ skip_pre pid room) as Hp by (intros Hp; apply Hn; eauto 6).
      destruct (skip_turn_room_fail ws rid pid room Hp) as [[E' Hnone]|[m E']];
        rewrite E', (put_room_id _ _ _ Hroom).
      * exists []. split; [by right|]. split; [|done].
        intros w p' r' room' _ [= <- <- <-] [x Hx]. congruence.
      * eexists. split; [by left|]. split; [|split; [|done]].
        -- intros w p' r' room' -> _ _. apply error_replied_send.
        -- by intros ->.
  - split; [|split].
    + split.
      * intros (s' & out & [= <- <-] & Hdone). by apply skip_done_nil in Hdone.
      * intros (p' & r' & room' & E & _). done.
    + intros p' r' room' E. done.
    + intros _. exists []. split; [by left|]. done.
Qed.

Lemma handle_skip_turn_spec_witness :
  exists out,
    handle_skip_turn (server_of room_drawn) (Some 1) None None =
      Return (put_room "r"
                (set_card_drawn_this_turn false
                   (set_current_player_index
                      ((current_player_index room_drawn + 1)
                         mod length (players room_drawn)) room_drawn))
                (server_of room_drawn)) out.
Proof.
  apply (proj1 (proj2 (handle_skip_turn_spec (server_of room_drawn) (Some 1) None None))
           "a" "r" room_drawn); [reflexivity | repeat split].
Defined.

(** C9, the claim as written fails between two rounds: a client's
    [skip_turn] for a room that is not started returns without any event. *)
Lemma skip_failure_silent : ~ skip_failure_always_replies.
Proof.
  intros H.
  destruct (H (server_of room_lobby) (Some 1) None None) as (out & E & (w & m & Hin)).
  - intros (p & r & room & E & _). vm_compute in E. discriminate E.
  - assert (handle_skip_turn (server_of room_lobby) (Some 1) None None
            = Return (server_of room_lobby) []) as E' by reflexivity.
    rewrite E' in E. injection E as <-. by apply elem_of_nil in Hin.
Qed.

(** ** Frames *)

Lemma frame_refl r : frame r r.
Proof. by repeat split. Qed.

Lemma frame_trans r1 r2 r3 : frame r1 r2 -> frame r2 r3 -> frame r1 r3.
Proof. unfold frame. intros H1 H2. intuition congruence. Qed.

Lemma replenish_deck_frame g room r b : replenish_deck g room = (r, b) -> frame room r.
Proof.
  unfold replenish_deck.
  destruct (_ && _); [|intros [= <- <-]; apply frame_refl].
  destruct (last _); intros [= <- <-]; [|apply frame_refl]. by repeat split.
Qed.

Lemma draw_to_frame pid room r n : draw_to pid room = (r, n) -> frame room r.
Proof.
  unfold draw_to. destruct (pop _) as [[c d]|]; intros [= <- <-]; [|apply frame_refl].
  repeat split. unfold player_ids. simpl. apply update_player_keys.
Qed.

Lemma forced_draw_frame g pid room r n b : forced_draw g pid room = (r, n, b) -> frame room r.
Proof.
  unfold forced_draw.
  destruct (replenish_deck g room) as [r1 sh] eqn:E1.
  destruct (draw_to pid r1) as [r2 m] eqn:E2. intros [= <- <- <-].
  eapply frame_trans; [by eapply replenish_deck_frame | by eapply draw_to_frame].
Qed.

Lemma play_card_draw_effects_frame g card room r nx fid fc sh :
  play_card_draw_effects g card room = (r, nx, fid, fc, sh) -> frame room r.
Proof.
  unfold play_card_draw_effects.
  destruct (str_eq (rank card) "6").
  - destruct (forced_draw g _ room) as [[r1 c1] s1] eqn:E1. intros [= <- <- <- <- <-].
    by eapply forced_draw_frame.
  - destruct (str_eq (rank card) "7"); [|intros [= <- <- <- <- <-]; apply frame_refl].
    destruct (forced_draw g _ room) as [[r1 c1] s1] eqn:E1.
    destruct (forced_draw g _ r1) as [[r2 c2] s2] eqn:E2. intros [= <- <- <- <- <-].
    eapply frame_trans; by eapply forced_draw_frame.
Qed.

Lemma play_card_check_inr ws card top_card room room1 :
  play_card_check ws card top_card room = inr room1 ->
  players room1 = players room /\ deck room1 = deck room /\
  discard_pile room1 = discard_pile room /\
  current_player_index room1 = current_player_index room /\
  waiting_for_eight room1 = false.
Proof.
  unfold play_card_check. destruct (waiting_for_eight room) eqn:Hw.
  - destruct (_ && _); [done|]. intros [= <-].
    unfold clear_eight_drawn_cards. simpl. by destruct (eight_drawn_cards room).
  - destruct (negb _); [done|]. by intros [= <-].
Qed.

Lemma play_card_move_other pid card room k :
  k <> pid -> get_player k (players (play_card_move pid card room)) = get_player k (players room).
Proof.
  intros Hne. unfold play_card_move.
  assert (str_eq pid k = false) as E by (apply str_eq_false; congruence).
  destruct (negb _); simpl; rewrite get_player_update, E; by destruct (get_player k _).
Qed.

Lemma play_card_move_frame pid card room :
  current_player_index (play_card_move pid card room) = current_player_index room /\
  waiting_for_eight (play_card_move pid card room) = waiting_for_eight room /\
  deck (play_card_move pid card room) = deck room.
Proof. unfold play_card_move. by destruct (negb _). Qed.

(** ** What the events show *)

Lemma card_played_messages_own room pid card forced :
  Forall (own_hand room) (card_played_messages room pid card forced).
Proof.
  unfold card_played_messages. apply Forall_map, Forall_forall.
  intros [k p] Hin. simpl. split; [done|]. split; [by intros l [= <-]|].
  intros h [= <-]. exists p. by split.
Qed.

Lemma card_drawn_messages_own room pid n :
  Forall (own_hand room) (card_drawn_messages room pid n).
Proof.
  unfold card_drawn_messages. apply Forall_map, Forall_forall.
  intros [k p] Hin. simpl. split; [done|]. split; [by intros l [= <-]|].
  intros h [= <-]. exists p. by split.
Qed.

Lemma turn_skipped_messages_own room pid :
  Forall (own_hand room) (turn_skipped_messages room pid).
Proof.
  unfold turn_skipped_messages. apply Forall_map, Forall_forall.
  intros [k p] Hin. simpl. split; [done|]. split; [by intros l [= <-]|].
  intros h [= <-]. exists p. by split.
Qed.

Lemma game_started_messages_own room first_card forced :
  Forall (own_hand room) (game_started_messages room first_card forced).
Proof.
  unfold game_started_messages. apply Forall_map, Forall_forall.
  intros [k p] Hin. simpl. split; [done|]. split; [by intros l [= <-]|].
  intros h [= <-]. exists p. by split.
Qed.

Lemma deck_shuffled_messages_own room room' b :
  Forall (own_hand room) (deck_shuffled_messages room' b).
Proof.
  unfold deck_shuffled_messages. destruct b; [|constructor].
  apply Forall_map, Forall_forall. intros k _. by repeat split.
Qed.

Lemma bot_turn_own room rid room' : Forall (own_hand room) (bot_turn rid room').
Proof.
  unfold bot_turn. destruct (get_player _ _) as [p|]; [|constructor].
  destruct (is_bot p); repeat constructor.
Qed.

Lemma send_if_ws_own room ws m : Forall (own_hand room) (send_if_ws ws (ev_error m)).
Proof. destruct ws; repeat constructor. Qed.

Lemma send_unguarded_own ws m room :
  Forall (own_hand (room_of (send_unguarded ws (ev_error m) room)))
    (events_of (send_unguarded ws (ev_error m) room)).
Proof. destruct ws; repeat constructor. Qed.

Lemma play_card_room_own g ws rid pid cid chosen room :
  Forall (own_hand (room_of (play_card_room g ws rid pid cid chosen room)))
    (events_of (play_card_room g ws rid pid cid chosen room)).
Proof.
  unfold play_card_room.
  destruct (player_ids room !! current_player_index room) as [cur|]; [|constructor].
  destruct (negb (str_eq cur pid)); [apply send_if_ws_own|].
  destruct (get_player pid (players room)) as [player|]; [|constructor].
  destruct (find_card cid (hand player)) as [card|]; [|apply send_if_ws_own].
  destruct (last (discard_pile room)) as [top_card|]; [|apply send_if_ws_own].
  unfold play_card_check.
  destruct (waiting_for_eight room).
  - destruct (_ && _); [apply send_unguarded_own|].
    unfold play_card_apply.
    destruct (play_card_draw_effects _ _ _) as [[[[r4 nx] fid] fc] sh].
    destruct (get_player pid (players r4)) as [p4|]; [|constructor].
    destruct (length (hand p4) =? 0); [constructor|].
    destruct (play_card_late_effects _ _ _ _) as [r5 nx']. simpl.
    constructor; [done|]. rewrite !Forall_app. split; [|split].
    + apply card_played_messages_own.
    + apply deck_shuffled_messages_own.
    + apply bot_turn_own.
  - destruct (negb _); [apply send_if_ws_own|].
    unfold play_card_apply.
    destruct (play_card_draw_effects _ _ _) as [[[[r4 nx] fid] fc] sh].
    destruct (get_player pid (players r4)) as [p4|]; [|constructor].
    destruct (length (hand p4) =? 0); [constructor|].
    destruct (play_card_late_effects _ _ _ _) as [r5 nx']. simpl.
    constructor; [done|]. rewrite !Forall_app. split; [|split].
    + apply card_played_messages_own.
    + apply deck_shuffled_messages_own.
    + apply bot_turn_own.
Qed.

Lemma draw_card_tail_own bot_id rid pid n room :
  Forall (own_hand room) (draw_card_tail bot_id rid pid n room).
Proof.
  unfold draw_card_tail. constructor; [done|]. rewrite Forall_app. split.
  - apply card_drawn_messages_own.
  - destruct (_ && _); repeat constructor.
Qed.

Lemma draw_card_room_own g ws bot_id rid pid room :
  Forall (own_hand (room_of (draw_card_room g ws bot_id rid pid room)))
    (events_of (draw_card_room g ws bot_id rid pid room)).
Proof.
  unfold draw_card_room.
  destruct (player_ids room !! current_player_index room) as [cur|]; [|constructor].
  destruct (negb (str_eq cur pid)); [apply send_if_ws_own|].
  destruct (waiting_for_eight room).
  - destruct (eight_draw_used room); [apply send_if_ws_own|].
    destruct (eight_draw_loop _ _ _ _ _ _) as [[r2 drawn] sh]. simpl.
    rewrite Forall_app. split;
      [apply deck_shuffled_messages_own | apply draw_card_tail_own].
  - destruct (card_drawn_this_turn room); [apply send_unguarded_own|].
    destruct (replenish_deck g room) as [r1 sh].
    destruct (pop (deck r1)) as [[c d]|]; [|apply send_unguarded_own]. simpl.
    rewrite Forall_app. split;
      [apply deck_shuffled_messages_own | apply draw_card_tail_own].
Qed.

Lemma skip_turn_room_own ws rid pid room :
  Forall (own_hand (room_of (skip_turn_room ws rid pid room)))
    (events_of (skip_turn_room ws rid pid room)).
Proof.
  unfold skip_turn_room.
  destruct (player_ids room !! current_player_index room) as [cur|]; [|constructor].
  destruct (negb (str_eq cur pid)); [apply send_if_ws_own|].
  destruct (waiting_for_eight room); [apply send_if_ws_own|].
  destruct (negb (card_drawn_this_turn room)); [apply send_if_ws_own|]. simpl.
  constructor; [done|]. rewrite Forall_app. split.
  - apply turn_skipped_messages_own.
  - apply bot_turn_own.
Qed.

Lemma start_game_room_own g rid room :
  Forall (own_hand (room_of (start_game_room g rid room)))
    (events_of (start_game_room g rid room)).
Proof.
  unfold start_game_room.
  destruct (deal _ _) as [[ps d] ok]. destruct (negb ok); [constructor|].
  destruct (pop _) as [[first_card d']|]; [|constructor].
  destruct (length _ =? 0); [constructor|].
  destruct (first_card_effects _ _ _) as [[[r5 fid] fc] sh]. simpl.
  constructor; [done|]. rewrite Forall_app. split.
  - apply game_started_messages_own.
  - apply deck_shuffled_messages_own.
Qed.

Lemma tally_results winner_id room :
  map (fun r => (re_player_id r, re_hand r)) (tally winner_id room).2 =
  map (fun kp : string * Player =>
         (fst kp, if str_eq (fst kp) winner_id then [] else hand (snd kp)))
      (players room).
Proof.
  unfold tally. simpl. rewrite !map_map. apply map_ext.
  intros [k p]. unfold tally_player. simpl. by destruct (str_eq k winner_id).
Qed.

Lemma game_end_room_events rid winner_id room :
  Forall (round_end_event winner_id room) (game_end_out (game_end_room rid winner_id room)).
Proof.
  pose proof (tally_results winner_id room) as Hres.
  unfold game_end_room.
  destruct (tally winner_id room) as [room1 results]. simpl in Hres.
  match goal with |- context [map ?f (player_ids ?r)] =>
    assert (Forall (round_end_event winner_id room) (map f (player_ids r))) as Hended
  end.
  { apply Forall_map, Forall_forall. intros k _. exact Hres. }
  match goal with |- context [if ?c then RoomClosed _ _ else _] => destruct c end; simpl.
  - rewrite !Forall_app. split; [exact Hended|]. split; [|by repeat constructor].
    apply Forall_map, Forall_forall. by intros k _.
  - rewrite !Forall_app. split; [exact Hended|]. split.
    + apply Forall_map, Forall_forall. by intros k _.
    + constructor; [done|]. apply Forall_map, Forall_forall. by intros k _.
Qed.

(** ** What a reconnect shows *)

Lemma handle_reconnect_own s ws data_player_id data_room_id q :
  Forall (reconnect_own_hand
            (reconnect_server (handle_reconnect s ws data_player_id data_room_id q)))
    (reconnect_out (handle_reconnect s ws data_player_id data_room_id q)).
Proof.
  unfold handle_reconnect.
  destruct (negb (truthy data_player_id) || negb (truthy data_room_id)).
  { simpl. repeat constructor; by intros. }
  set (player_id := default "" data_player_id).
  set (room_id := default "" data_room_id).
  set (s1 := match rooms s !! room_id with Some _ => s | None => _ end).
  destruct (rooms s1 !! room_id) as [room|] eqn:Hroom.
  2:{ simpl. repeat constructor; by intros. }
  destruct (get_player player_id (players room)) as [player|] eqn:Hp.
  2:{ simpl. repeat constructor; by intros. }
  set (s2 := mkServer _ _ _).
  assert (forall h, h = hand player ->
            exists pid rid room0 p,
              clients s2 !! ws = Some pid /\ player_rooms s2 !! pid = Some rid /\
              rooms s2 !! rid = Some room0 /\
              get_player pid (players room0) = Some p /\ h = hand p) as Hhand.
  { intros h ->. exists player_id, room_id, room, player. subst s2. simpl.
    rewrite !lookup_insert_eq. done. }
  assert (forall l, l = players_to_dict room ->
            exists rid room0, rooms s2 !! rid = Some room0 /\ l = players_to_dict room0)
    as Hlist.
  { intros l ->. by exists room_id, room. }
  destruct (game_started room).
  - destruct (player_ids room !! current_player_index room) as [current|].
    2:{ simpl. by repeat constructor. }
    destruct (player_ids room !! dealer_index room) as [dealer|].
    2:{ simpl. by repeat constructor. }
    destruct (get_player current (players room)) as [p|]; simpl.
    + constructor; [done|]. constructor.
      { split; [intros h [= <-]; by apply Hhand|intros l [= <-]; by apply Hlist]. }
      destruct (is_bot p); by repeat constructor.
    + constructor; [done|]. constructor; [|constructor].
      split; [intros h [= <-]; by apply Hhand|intros l [= <-]; by apply Hlist].
  - simpl. constructor; [done|]. constructor; [|constructor].
    split; [done|]. intros l [= <-]. by apply Hlist.
Qed.

(** C7 (as amended): every event of [handle_play_card], [handle_draw_card],
    [handle_skip_turn] and [start_game] (so every [card_played],
    [card_drawn], [turn_skipped] and the [game_started] of the deal) that is
    addressed to a seat carries that seat's own hand and no other, the seats
    being listed by hand count only; the [game_started] that
    [handle_reconnect] replies on a connection carries the hand of the seat
    that this request has registered the connection for, and no other, and
    nothing else of a reconnect carries a hand; at the round end,
    [game_ended] lays open to every seat the remaining hand of every seat
    but the winner, and no other event of the round end carries a hand. *)
Theorem events_show_own_hand g ws bot_id rid pid cid chosen winner_id room
    s conn data_player_id data_room_id q :
  Forall (own_hand (room_of (play_card_room g ws rid pid cid chosen room)))
    (events_of (play_card_room g ws rid pid cid chosen room)) /\
  Forall (own_hand (room_of (draw_card_room g ws bot_id rid pid room)))
    (events_of (draw_card_room g ws bot_id rid pid room)) /\
  Forall (own_hand (room_of (skip_turn_room ws rid pid room)))
    (events_of (skip_turn_room ws rid pid room)) /\
  Forall (own_hand (room_of (start_game_room g rid room)))
    (events_of (start_game_room g rid room)) /\
  Forall (reconnect_own_hand
            (reconnect_server (handle_reconnect s conn data_player_id data_room_id q)))
    (reconnect_out (handle_reconnect s conn data_player_id data_room_id q)) /\
  Forall (round_end_event winner_id room)
    (game_end_out (game_end_room rid winner_id room)).
Proof.
  split; [apply play_card_room_own|]. split; [apply draw_card_room_own|].
  split; [apply skip_turn_room_own|]. split; [apply start_game_room_own|].
  split; [apply handle_reconnect_own|].
  apply game_end_room_events.
Qed.

(** C7, the claim as written fails at the round end: the [game_ended] event
    sent to seat a, whose hand is empty, contains the 9 of diamonds left in
    the hand of seat b. *)
Lemma game_ended_reveals_hands : ~ round_end_shows_own_hand_only.
Proof.
  intros H.
  destruct (H "r" "a" room_endQ "a"
              (ev_game_ended "a" (Some cQs)
                 [mkResultEntry "a" "a" (-40) (-40) [] (Some (-40)%Z);
                  mkResultEntry "b" "b" 13 13 [c9d; cKs] None])
              c9d) as (p & Hp & Hc).
  - apply list_elem_of_In. vm_compute. left. reflexivity.
  - apply list_elem_of_In. vm_compute. left. reflexivity.
  - apply list_elem_of_In in Hp. simpl in Hp.
    destruct Hp as [[= <-]|[[=]|[]]].
    apply list_elem_of_In in Hc. simpl in Hc. done.
Qed.

(** ** The score rules at the round end *)

Lemma str_in_elem a l : str_in a l = true <-> a ∈ l.
Proof.
  unfold str_in. rewrite existsb_exists. split.
  - intros (x & Hin & ->%str_eq_true). by apply list_elem_of_In.
  - intros Hin. exists a. split; [by apply list_elem_of_In|apply str_eq_refl].
Qed.

Lemma str_in_not_elem a l : str_in a l = false <-> a ∉ l.
Proof.
  rewrite <- str_in_elem. destruct (str_in a l); split; try done.
Qed.

Lemma players_to_kick_elem pid ps :
  pid ∈ players_to_kick ps <-> exists p, (pid, p) ∈ ps /\ (101 < score p)%Z.
Proof.
  unfold players_to_kick. rewrite list_elem_of_In, in_map_iff. split.
  - intros ([k p] & <- & [Hin Hs%Z.ltb_lt]%filter_In). exists p.
    split; [by apply list_elem_of_In|done].
  - intros (p & Hin & Hs). exists (pid, p). split; [done|].
    apply filter_In. split; [by apply list_elem_of_In|by apply Z.ltb_lt].
Qed.

Lemma del_players_elem kick ps kp :
  kp ∈ foldl (fun ps pid => del_player pid ps) ps kick <-> kp ∈ ps /\ fst kp ∉ kick.
Proof.
  revert ps. induction kick as [|k kick IH]; intros ps; simpl.
  - split; [|by intros [? _]]. intros H. split; [done|]. apply not_elem_of_nil.
  - rewrite IH. unfold del_player. rewrite list_elem_of_filter, str_eq_false.
    rewrite not_elem_of_cons. tauto.
Qed.

Lemma reset_for_new_game_elem room pid p :
  (pid, p) ∈ players room ->
  exists p', (pid, p') ∈ players (reset_for_new_game room) /\ score p' = score p
             /\ hand p' = [].
Proof.
  intros Hin. unfold reset_for_new_game. simpl.
  exists (set_ready (is_bot p) (set_hand [] p)). split; [|done].
  apply list_elem_of_In, in_map_iff. exists (pid, p).
  split; [done|by apply list_elem_of_In].
Qed.

Lemma reset_for_new_game_ids room :
  player_ids (reset_for_new_game room) = player_ids room.
Proof.
  unfold reset_for_new_game, player_ids. simpl. rewrite map_map. by apply map_ext.
Qed.

(** The fold that picks the final winner, one seat at a time. *)
Lemma final_winner_id_spec kick ps :
  match final_winner_id kick ps with
  | Some w =>
      exists p, (w, p) ∈ ps /\ (w ∉ kick) /\
        forall k' p', (k', p') ∈ ps -> k' ∉ kick -> (score p <= score p')%Z
  | None => forall k' p', (k', p') ∈ ps -> k' ∈ kick
  end.
Proof.
  unfold final_winner_id.
  set (f := fun (acc : option string * option Z) (kp : string * Player) => _).
  assert (forall l,
    match fold_left f l (None, None) with
    | (Some w, Some m) =>
        exists p, (w, p) ∈ l /\ (w ∉ kick) /\ score p = m /\
          forall k' p', (k', p') ∈ l -> k' ∉ kick -> (m <= score p')%Z
    | (None, None) => forall k' p', (k', p') ∈ l -> k' ∈ kick
    | _ => False
    end) as Hinv.
  { induction l as [|[k q] l IH] using rev_ind; simpl.
    - intros k' p' H. by apply elem_of_nil in H.
    - rewrite fold_left_app. simpl.
      destruct (fold_left f l (None, None)) as [[w|] [m|]]; try done.
      + destruct IH as (p & Hp & Hw & Hm & Hmin).
        unfold f at 1. simpl.
        destruct (str_in k kick) eqn:Hk; simpl.
        * exists p. split; [apply elem_of_app; by left|]. split; [done|]. split; [done|].
          intros k' p' [Hin|Hin%list_elem_of_singleton]%elem_of_app Hnk; [by eapply Hmin|].
          injection Hin as -> ->. by apply str_in_elem in Hk.
        * destruct (score q <? m)%Z eqn:Hlt.
          -- apply Z.ltb_lt in Hlt. exists q.
             split; [apply elem_of_app; right; by apply list_elem_of_singleton|].
             split; [by apply str_in_not_elem|]. split; [done|].
             intros k' p' [Hin|Hin%list_elem_of_singleton]%elem_of_app Hnk.
             ++ specialize (Hmin _ _ Hin Hnk). lia.
             ++ injection Hin as -> ->. lia.
          -- apply Z.ltb_ge in Hlt. exists p.
             split; [apply elem_of_app; by left|]. split; [done|]. split; [done|].
             intros k' p' [Hin|Hin%list_elem_of_singleton]%elem_of_app Hnk;
               [by eapply Hmin|].
             injection Hin as -> ->. lia.
      + unfold f at 1. simpl.
        destruct (str_in k kick) eqn:Hk; simpl.
        * intros k' p' [Hin|Hin%list_elem_of_singleton]%elem_of_app; [by eapply IH|].
          injection Hin as -> ->. by apply str_in_elem.
        * exists q.
          split; [apply elem_of_app; right; by apply list_elem_of_singleton|].
          split; [by apply str_in_not_elem|]. split; [done|].
          intros k' p' [Hin|Hin%list_elem_of_singleton]%elem_of_app Hnk.
          -- by apply IH in Hin.
          -- injection Hin as -> ->. lia. }
  specialize (Hinv ps).
  destruct (fold_left f ps (None, None)) as [[w|] [m|]]; simpl; try done.
  destruct Hinv as (p & Hp & Hw & Hm & Hmin). exists p. subst m. eauto.
Qed.

Lemma broadcast_rooms_gone s rid :
  rooms s !! rid = None -> rooms (broadcast_rooms s).1 !! rid = None.
Proof.
  intros H. unfold broadcast_rooms, cleanup_bot_only_rooms. simpl.
  destruct (filter _ (rooms s) !! rid) eqn:E; [|done].
  apply map_lookup_filter_Some in E as [E _]. congruence.
Qed.

Lemma broadcast_rooms_out s : exists m, (broadcast_rooms s).2 = [BroadcastRooms m].
Proof. unfold broadcast_rooms. simpl. eauto. Qed.

Lemma reset_101_elem ps pid p :
  (pid, p) ∈ ps ->
  (pid, if (score p =? 101)%Z then set_score 0 p else p) ∈ map reset_101 ps.
Proof.
  intros Hin. apply list_elem_of_In, in_map_iff. exists (pid, p).
  split; [|by apply list_elem_of_In].
  unfold reset_101. simpl. by destruct (score p =? 101)%Z.
Qed.

Lemma reset_101_ids ps : map fst (map reset_101 ps) = map fst ps.
Proof.
  rewrite map_map. apply map_ext. intros [k p]. unfold reset_101. simpl.
  by destruct (score p =? 101)%Z.
Qed.

Lemma handle_game_end_closed s rid winner_id room room' out :
  rooms s !! rid = Some room ->
  game_end_room rid winner_id room = RoomClosed room' out ->
  rooms (handle_game_end s rid winner_id).1 !! rid = None /\
  exists m, (handle_game_end s rid winner_id).2 = out ++ [BroadcastRooms m].
Proof.
  intros Hroom Hend. unfold handle_game_end. rewrite Hroom, Hend.
  set (s1 := mkServer _ _ _).
  destruct (broadcast_rooms_out s1) as [m Hm].
  pose proof (broadcast_rooms_gone s1 rid) as Hgone.
  destruct (broadcast_rooms s1) as [s2 out2]. simpl in *. subst out2.
  split; [|eauto]. apply Hgone. apply lookup_delete_eq.
Qed.

Lemma players_unique (ps : list (string * Player)) k p q :
  NoDup (map fst ps) -> (k, p) ∈ ps -> (k, q) ∈ ps -> p = q.
Proof.
  induction ps as [|[k' p'] ps IH]; simpl.
  - intros _ H. by apply elem_of_nil in H.
  - intros [Hnin Hnd]%NoDup_cons [Hp|Hp]%elem_of_cons [Hq|Hq]%elem_of_cons.
    + congruence.
    + injection Hp as -> ->. exfalso. apply Hnin.
      apply list_elem_of_In, in_map_iff. exists (k', q). split; [done|by apply list_elem_of_In].
    + injection Hq as -> ->. exfalso. apply Hnin.
      apply list_elem_of_In, in_map_iff. exists (k', p). split; [done|by apply list_elem_of_In].
    + by apply IH.
Qed.

(** C5: after the tally, a seat at exactly 101 is back at 0 and a seat
    above 101 is to go. When that would leave fewer than two seats the room
    is destroyed: it is gone from the server's rooms, the durable store is
    told to delete it, and every seat gets a [final_winner] event naming the
    seat that stays and has the lowest score. Otherwise the seats above 101
    are removed from the room, which returns to the lobby with the others
    and their scores. *)
Theorem game_end_score_rules s rid winner_id room :
  rooms s !! rid = Some room ->
  NoDup (player_ids room) ->
  let tallied := players (tally winner_id room).1 in
  let kick := players_to_kick tallied in
  (forall pid, pid ∈ kick <-> exists p, (pid, p) ∈ tallied /\ (101 < score p)%Z) /\
  (kick <> [] -> length tallied - length kick < 2 ->
   exists room' out,
     game_end_room rid winner_id room = RoomClosed room' out /\
     (forall pid p, (pid, p) ∈ tallied -> score p = 101%Z ->
        (pid, set_score 0 p) ∈ players room') /\
     rooms (handle_game_end s rid winner_id).1 !! rid = None /\
     DbDeleteRoom rid ∈ (handle_game_end s rid winner_id).2 /\
     (forall pid, pid ∈ player_ids room ->
        exists nick,
          SendToPlayer pid
            (ev_final_winner (final_winner_id kick (players room')) nick
               (map (nickname_of room') kick))
          ∈ (handle_game_end s rid winner_id).2) /\
     match final_winner_id kick (players room') with
     | Some w =>
         exists p, (w, p) ∈ players room' /\ (w ∉ kick) /\
           forall k' p', (k', p') ∈ players room' -> k' ∉ kick -> (score p <= score p')%Z
     | None => forall k', k' ∈ player_ids room -> k' ∈ kick
     end) /\
  (kick = [] \/ 2 <= length tallied - length kick ->
   exists room' out,
     game_end_room rid winner_id room = NextRound room' kick out /\
     game_started room' = false /\
     forall pid p, (pid, p) ∈ tallied ->
       if (101 <? score p)%Z then pid ∉ player_ids room'
       else exists p', (pid, p') ∈ players room' /\
                       score p' = (if (score p =? 101)%Z then 0%Z else score p)).
Proof.
  intros Hroom Hnd tallied kick.
  split; [intros pid; apply players_to_kick_elem|].
  assert (player_ids room = map fst tallied) as Hids.
  { subst tallied. unfold tally, player_ids. simpl. rewrite !map_map.
    apply map_ext. intros [k p]. unfold tally_player. simpl.
    by destruct (negb (str_eq k winner_id)). }
  assert (exists room1 results, tally winner_id room = (room1, results)
                                /\ players room1 = tallied) as (room1 & results & Ht & Hps).
  { subst tallied. destruct (tally winner_id room); eauto. }
  split.
  - intros Hk Hlen.
    assert (((0 <? length kick) && (length (map reset_101 tallied) - length kick <? 2))
            = true) as Hcond.
    { rewrite length_map. apply andb_true_iff.
      split; [apply Nat.ltb_lt|by apply Nat.ltb_lt].
      destruct kick eqn:?; [done|simpl; lia]. }
    assert (exists room' out,
      game_end_room rid winner_id room = RoomClosed room' (out ++ [DbDeleteRoom rid])
      /\ players room' = map reset_101 tallied
      /\ out = map (fun pid => SendToPlayer pid
                     (ev_game_ended winner_id (last (discard_pile room')) results))
                  (player_ids room')
              ++ map (fun pid => SendToPlayer pid
                     (ev_final_winner (final_winner_id kick (players room'))
                        (if truthy (final_winner_id kick (players room'))
                         then nickname_of room'
                                (default "" (final_winner_id kick (players room')))
                         else "")
                        (map (nickname_of room') kick)))
                  (player_ids room'))
      as (room' & out & Hend & Hps' & Hout).
    { unfold game_end_room. rewrite Ht. simpl. rewrite Hps. fold kick.
      rewrite Hcond. eexists _, _. rewrite <- app_assoc. split; [done|]. by split. }
    destruct (handle_game_end_closed s rid winner_id room _ _ Hroom Hend) as [Hgone [m Hm]].
    exists room', (out ++ [DbDeleteRoom rid]). split; [done|].
    split; [|split; [done|split; [|split]]].
    + intros pid p Hin Hs. apply reset_101_elem in Hin.
      apply Z.eqb_eq in Hs. rewrite Hs in Hin. by rewrite Hps'.
    + rewrite Hm, !elem_of_app. left. right. by apply list_elem_of_singleton.
    + intros pid Hin. eexists. rewrite Hm, Hout, !elem_of_app. left. left. right.
      apply list_elem_of_In, in_map_iff. exists pid. split; [done|].
      apply list_elem_of_In. unfold player_ids at 1.
      rewrite Hps', reset_101_ids. by rewrite <- Hids.
    + rewrite Hps'.
      pose proof (final_winner_id_spec kick (map reset_101 tallied)) as Hw.
      destruct (final_winner_id kick (map reset_101 tallied)) as [w|]; [done|].
      intros k' Hin. rewrite Hids, <- (reset_101_ids tallied) in Hin.
      apply list_elem_of_In, in_map_iff in Hin as ([k'' p'] & <- & Hin).
      apply list_elem_of_In in Hin. by eapply Hw.
  - intros Hcase.
    assert (((0 <? length kick) && (length (map reset_101 tallied) - length kick <? 2))
            = false) as Hcond.
    { rewrite length_map. apply andb_false_iff.
      destruct Hcase as [->|Hlen]; [by left|right]. apply Nat.ltb_ge. lia. }
    assert (exists room' out,
      game_end_room rid winner_id room = NextRound room' kick out
      /\ game_started room' = false
      /\ exists room4, room' = reset_for_new_game room4 /\
           players room4 = foldl (fun ps pid => del_player pid ps)
                             (map reset_101 tallied) kick)
      as (room' & out & Hend & Hst & room4 & -> & Hps4).
    { unfold game_end_room. rewrite Ht. simpl. rewrite Hps. fold kick.
      rewrite Hcond. eexists _, _. split; [done|]. split; [done|].
      eexists. split; [done|]. done. }
    eexists _, _. split; [done|]. split; [done|].
    intros pid p Hin. destruct (101 <? score p)%Z eqn:Hs.
    + rewrite reset_for_new_game_ids. unfold player_ids. rewrite Hps4.
      intros Hin'%list_elem_of_In%in_map_iff. destruct Hin' as ([k q] & <- & Hq).
      apply list_elem_of_In, del_players_elem in Hq as [_ Hq]. apply Hq. simpl.
      apply players_to_kick_elem. exists p. split; [done|by apply Z.ltb_lt].
    + apply Z.ltb_ge in Hs.
      assert ((pid, if (score p =? 101)%Z then set_score 0 p else p) ∈ players room4)
        as Hin'.
      { rewrite Hps4. apply del_players_elem. split; [by apply reset_101_elem|]. simpl.
        intros (q & Hq & Hlt)%players_to_kick_elem.
        assert (p = q) as <-; [|lia].
        eapply players_unique; [|done..]. by rewrite <- Hids. }
      apply reset_for_new_game_elem in Hin' as (p' & Hp' & Hsc & _).
      exists p'. split; [done|]. rewrite Hsc. by destruct (score p =? 101)%Z.
Qed.

Lemma game_end_score_rules_witness :
  rooms (handle_game_end (server_of room_end_high) "r" "a").1 !! "r" = None.
Proof.
  destruct (game_end_score_rules (server_of room_end_high) "r" "a" room_end_high)
    as (_ & Hclosed & _).
  - reflexivity.
  - apply NoDup_cons. split; [|apply NoDup_singleton].
    intros H%list_elem_of_singleton. discriminate H.
  - destruct Hclosed as (room' & out & _ & _ & Hgone & _).
    + vm_compute. discriminate.
    + vm_compute. lia.
    + exact Hgone.
Defined.

Lemma tally_frame winner_id room :
  player_ids (tally winner_id room).1 = player_ids room /\
  discard_pile (tally winner_id room).1 = discard_pile room.
Proof.
  unfold tally, player_ids. simpl. split; [|done]. rewrite !map_map. apply map_ext.
  intros [k' p]. unfold tally_player. simpl. by destruct (negb _).
Qed.

(** Every seat is sent [game_ended] with the results of the tally. *)
Lemma game_end_room_ended rid winner_id room k :
  k ∈ player_ids room ->
  SendToPlayer k (ev_game_ended winner_id (last (discard_pile room))
                    (tally winner_id room).2)
    ∈ game_end_out (game_end_room rid winner_id room).
Proof.
  intros Hk. unfold game_end_room.
  destruct (tally_frame winner_id room) as [Hids Hdp].
  destruct (tally winner_id room) as [room1 results] eqn:Et. simpl in Hids, Hdp |- *.
  match goal with |- context [map ?f (player_ids ?r)] =>
    assert (SendToPlayer k (ev_game_ended winner_id (last (discard_pile room)) results)
              ∈ map f (player_ids r)) as Hended
  end.
  { apply list_elem_of_fmap. exists k. simpl. rewrite Hdp. split; [done|].
    unfold player_ids in *. simpl. rewrite map_map. simpl.
    rewrite <- Hids in Hk. erewrite map_ext; [exact Hk|].
    intros [k' p]. unfold reset_101. simpl. by destruct (_ =? _)%Z. }
  match goal with |- context [if ?c then RoomClosed _ _ else _] => destruct c end; simpl;
    apply elem_of_app; by left.
Qed.

(** ** The tally, seat by seat, through the round end *)

(** What [handle_game_end] does with the seat at index [i]: its entry of
    [results], and its score in the room that is left. *)
Lemma game_end_room_seat rid winner_id room i pid p :
  NoDup (player_ids room) ->
  players room !! i = Some (pid, p) ->
  let change := if str_eq pid winner_id then queen_bonus room
                else calculate_hand_points (hand p) in
  let total := (score p + change)%Z in
  let kept := if (total =? 101)%Z then 0%Z else total in
  (exists entry,
     (tally winner_id room).2 !! i = Some entry /\
     re_player_id entry = pid /\ re_points entry = change /\
     re_total_score entry = total) /\
  match game_end_room rid winner_id room with
  | RoomClosed room' _ =>
      exists p', players room' !! i = Some (pid, p') /\ score p' = kept
  | NextRound room' kicked _ =>
      if (101 <? total)%Z then (pid ∈ kicked /\ pid ∉ player_ids room')
      else ((pid ∉ kicked) /\
            exists p', (pid, p') ∈ players room' /\ score p' = kept /\ hand p' = [])
  end.
Proof.
  intros Hnd Hi change total kept.
  pose proof (tally_lookup winner_id room i pid p Hi) as Ht. fold change total in Ht.
  split.
  { unfold tally. simpl. rewrite !list_lookup_fmap, Hi. simpl.
    subst total change. destruct (str_eq pid winner_id); simpl; eauto. }
  destruct (tally_frame winner_id room) as [Hids _].
  unfold game_end_room.
  destruct (tally winner_id room) as [room1 results] eqn:Et. simpl in Ht, Hids.
  set (kick := players_to_kick (players room1)).
  assert ((pid, set_score total p) ∈ players room1) as Hin by (by eapply list_elem_of_lookup_2).
  assert (pid ∈ kick <-> (101 < total)%Z) as Hkick.
  { subst kick. rewrite players_to_kick_elem. split.
    - intros (q & Hq & Hlt). assert (set_score total p = q) as <-; [|done].
      eapply players_unique; [|done..]. by rewrite <- Hids in Hnd.
    - intros Hlt. by exists (set_score total p). }
  match goal with |- context [if ?c then RoomClosed _ _ else _] => destruct c end.
  - simpl. rewrite list_lookup_fmap, Ht. simpl. unfold reset_101. simpl. subst kept.
    destruct (total =? 101)%Z; eauto.
  - destruct (101 <? total)%Z eqn:Hs.
    + apply Z.ltb_lt in Hs. split; [by apply Hkick|].
      rewrite reset_for_new_game_ids. unfold player_ids. simpl.
      intros Hin'%list_elem_of_In%in_map_iff. destruct Hin' as ([k q] & <- & Hq).
      apply list_elem_of_In, del_players_elem in Hq as [_ Hq]. apply Hq. simpl.
      by apply Hkick.
    + apply Z.ltb_ge in Hs.
      assert (pid ∉ kick) as Hnk by (rewrite Hkick; lia).
      split; [done|].
      match goal with |- context [reset_for_new_game ?r] => set (room4 := r) end.
      assert ((pid, if (total =? 101)%Z then set_score 0 (set_score total p)
                    else set_score total p) ∈ players room4) as Hin'.
      { subst room4. simpl. apply del_players_elem. split; [|done].
        by apply (reset_101_elem _ _ _ Hin). }
      apply reset_for_new_game_elem in Hin' as (p' & Hp' & Hsc & Hh).
      exists p'. split; [done|]. split; [|done]. rewrite Hsc. subst kept.
      by destruct (total =? 101)%Z.
Qed.

Lemma handle_game_end_out s rid winner_id room :
  rooms s !! rid = Some room ->
  exists l, (handle_game_end s rid winner_id).2
            = game_end_out (game_end_room rid winner_id room)
              ++ [BroadcastRooms (ev_rooms_list l)].
Proof.
  intros Hroom. unfold handle_game_end. rewrite Hroom.
  destruct (game_end_room rid winner_id room) as [rc out|rn kicked out]; simpl; eauto.
Qed.

Lemma handle_game_end_room s rid winner_id room room' :
  rooms s !! rid = Some room ->
  rooms (handle_game_end s rid winner_id).1 !! rid = Some room' ->
  exists kicked out, game_end_room rid winner_id room = NextRound room' kicked out.
Proof.
  intros Hroom. unfold handle_game_end. rewrite Hroom.
  destruct (game_end_room rid winner_id room) as [rc out|rn kicked out]; simpl.
  - intros [H _]%map_lookup_filter_Some. by rewrite lookup_delete_eq in H.
  - intros [H _]%map_lookup_filter_Some. rewrite lookup_insert_eq in H.
    injection H as <-. eauto.
Qed.

(** C6: at the round end [handle_game_end] announces to every seat, in
    [game_ended], the points of each seat and its new total, and keeps that
    total as the seat's score: a non-winning seat's score has grown by
    exactly the value of its remaining hand under the valuation (2-10 face
    value, J=2, K=4, A=11, Q=20, Q of spades=40), and the winner's score has
    changed by exactly -40, -20 or 0 according to the final discarded card
    (Queen of spades, another Queen, anything else), which may make it
    negative.  The room the handler leaves has the seat with that total, 0
    in place of exactly 101, and without the seat when the total is above
    101. *)
Theorem tally_scores s rid winner_id room i pid p vs b :
  rooms s !! rid = Some room ->
  NoDup (player_ids room) ->
  players room !! i = Some (pid, p) ->
  Forall2 card_value (hand p) vs ->
  winner_bonus (last (discard_pile room)) b ->
  exists change,
    (pid <> winner_id -> change = foldr Z.add 0%Z vs) /\
    (pid = winner_id -> change = b) /\
    (exists results entry,
       results !! i = Some entry /\
       re_player_id entry = pid /\ re_points entry = change /\
       re_total_score entry = (score p + change)%Z /\
       forall k, k ∈ player_ids room ->
         SendToPlayer k (ev_game_ended winner_id (last (discard_pile room)) results)
           ∈ (handle_game_end s rid winner_id).2) /\
    match game_end_room rid winner_id room with
    | RoomClosed room' _ =>
        exists p', players room' !! i = Some (pid, p') /\
          score p' = (if (score p + change =? 101)%Z then 0 else score p + change)%Z
    | NextRound room' kicked _ =>
        if (101 <? score p + change)%Z then (pid ∈ kicked /\ pid ∉ player_ids room')
        else ((pid ∉ kicked) /\
              exists p', (pid, p') ∈ players room' /\
                score p' = (if (score p + change =? 101)%Z then 0 else score p + change)%Z /\
                hand p' = [])
    end /\
    forall room',
      rooms (handle_game_end s rid winner_id).1 !! rid = Some room' ->
      exists kicked out, game_end_room rid winner_id room = NextRound room' kicked out.
Proof.
  intros Hroom Hnd Hi Hvs Hb.
  destruct (game_end_room_seat rid winner_id room i pid p Hnd Hi) as [(entry & He) Hkept].
  exists (if str_eq pid winner_id then queen_bonus room else calculate_hand_points (hand p)).
  split.
  { intros Hne%str_eq_false. by rewrite Hne, (hand_value_sound _ _ Hvs). }
  split.
  { intros Heq%str_eq_true. by rewrite Heq, (winner_bonus_sound _ _ Hb). }
  split.
  { exists (tally winner_id room).2, entry. destruct He as (H1 & H2 & H3 & H4).
    repeat (split; [done|]). intros k Hk.
    destruct (handle_game_end_out s rid winner_id room Hroom) as [m ->].
    apply elem_of_app. left. by apply game_end_room_ended. }
  split; [exact Hkept|].
  intros room'. by apply handle_game_end_room.
Qed.

Lemma tally_scores_witness :
  exists change,
    ("b" <> "a" -> change = 13%Z) /\
    match game_end_room "r" "a" room_endQ with
    | RoomClosed room' _ => False
    | NextRound room' kicked _ =>
        exists p', ("b", p') ∈ players room' /\
          score p' = (if (0 + change =? 101)%Z then 0 else 0 + change)%Z
    end.
Proof.
  destruct (tally_scores (server_of room_endQ) "r" "a" room_endQ 1 "b"
              (snd (seat "b" [c9d; cKs] 0 true)) [9; 4]%Z (-40)%Z)
    as (change & Hne & _ & _ & Hkept & _).
  - reflexivity.
  - apply NoDup_cons. split; [|apply NoDup_singleton].
    intros H%list_elem_of_singleton. discriminate H.
  - reflexivity.
  - constructor; [apply (value_numeral _ 9); [lia|reflexivity]|].
    constructor; [by apply value_K|constructor].
  - apply bonus_Q_spades; reflexivity.
  - exists change. split; [exact Hne|].
    assert (change = 13%Z) as -> by (apply Hne; discriminate).
    revert Hkept. vm_compute. intros (_ & p' & Hin & Hs & _). exists p'. split; [exact Hin|exact Hs].
Defined.

(** ** The 8-chain draw *)

Lemma replenish_deck_cases g room r b :
  Random_ok g ->
  replenish_deck g room = (r, b) ->
  frame room r /\ players r = players room /\
  last (discard_pile r) = last (discard_pile room) /\
  length (deck r) + length (discard_pile r) = length (deck room) + length (discard_pile room) /\
  (deck r = [] -> deck room = [] /\ length (discard_pile room) <= 1 /\ r = room).
Proof.
  intros Hg H. split; [by eapply replenish_deck_frame|].
  split; [by eapply replenish_deck_players|].
  unfold replenish_deck in H.
  destruct (length (deck room) =? 0) eqn:E0; simpl in H.
  - apply Nat.eqb_eq in E0. apply length_zero_iff_nil in E0.
    destruct (1 <? length (discard_pile room)) eqn:E1.
    + apply Nat.ltb_lt in E1.
      destruct (last (discard_pile room)) as [top|] eqn:Et.
      * injection H as <- <-. apply last_Some in Et as [rest Hrest]. simpl.
        rewrite Hrest, removelast_last, E0.
        rewrite (Permutation_length (shuffle_perm g Hg rest)).
        rewrite length_app. simpl. split; [done|]. split; [lia|].
        intros Hnil. assert (length (shuffle g rest) = 0) as Hl by (by rewrite Hnil).
        rewrite (Permutation_length (shuffle_perm g Hg rest)) in Hl.
        rewrite Hrest, length_app in E1. simpl in E1. lia.
      * apply last_None in Et. rewrite Et in E1. simpl in E1. lia.
    + injection H as <- <-. apply Nat.ltb_ge in E1. done.
  - injection H as <- <-. apply Nat.eqb_neq in E0.
    split; [done|]. split; [done|]. intros Hnil. rewrite Hnil in E0. done.
Qed.

Lemma eight_draw_loop_spec g fuel pid room drawn0 sh0 top :
  Random_ok g ->
  last (discard_pile room) = Some top ->
  length (deck room) + length (discard_pile room) <= fuel ->
  exists room' new sh,
    eight_draw_loop g fuel pid room drawn0 sh0 = (room', drawn0 ++ new, sh) /\
    frame room room' /\
    last (discard_pile room') = Some top /\
    length new + length (deck room') + length (discard_pile room')
      = length (deck room) + length (discard_pile room) /\
    (forall i c, new !! i = Some c -> i + 1 < length new -> eight_match c top = false) /\
    ((exists c, last new = Some c /\ eight_match c top = true) \/
     (deck room' = [] /\ length (discard_pile room') <= 1 /\
      forall c, c ∈ new -> eight_match c top = false)).
Proof.
  intros Hg. revert room drawn0 sh0.
  induction fuel as [|fuel IH]; intros room drawn0 sh0 Htop Hlen.
  { apply last_Some in Htop as [l Hl]. rewrite Hl, length_app in Hlen. simpl in Hlen. lia. }
  simpl.
  destruct (replenish_deck g room) as [room1 shuffled] eqn:Hrep.
  destruct (replenish_deck_cases g room room1 shuffled Hg Hrep)
    as (Hfr1 & Hps1 & Htop1 & Hlen1 & Hempty).
  rewrite Htop in Htop1.
  destruct (pop (deck room1)) as [[card deck']|] eqn:Hpop.
  - apply pop_Some in Hpop. rewrite Htop1.
    set (room2 := set_players _ _).
    assert (frame room room2) as Hfr2.
    { eapply frame_trans; [exact Hfr1|]. repeat split. unfold player_ids. simpl.
      apply update_player_keys. }
    assert (length (deck room1) = S (length deck')) as Hd.
    { rewrite Hpop, length_app. simpl. lia. }
    destruct (eight_match card top) eqn:Hm.
    + exists room2, [card], (sh0 || shuffled). split; [done|]. split; [done|].
      split; [done|]. split; [simpl; lia|]. split.
      * intros i c Hi Hlt. simpl in Hlt. lia.
      * left. by exists card.
    + destruct (IH room2 (drawn0 ++ [card]) (sh0 || shuffled)) as
        (room' & new & sh & Hloop & Hfr & Htop' & Hlen' & Hnon & Hstop).
      { done. }
      { simpl. lia. }
      exists room', (card :: new), sh. rewrite Hloop, <- app_assoc. split; [done|].
      split; [by eapply frame_trans|]. split; [done|]. simpl in *.
      split; [lia|]. split.
      * intros [|i] c Hi Hlt; simpl in Hi.
        -- by injection Hi as <-.
        -- eapply Hnon; [done|lia].
      * destruct Hstop as [(c & Hc & Hmc)|(Hd' & Hdp' & Hall)].
        -- left. exists c. split; [|done]. destruct new; [done|]. done.
        -- right. split; [done|]. split; [done|].
           intros c [->|Hc]%elem_of_cons; [done|by apply Hall].
  - apply pop_None in Hpop. destruct (Hempty Hpop) as (Hd & Hdp & ->).
    exists room, [], (sh0 || shuffled). rewrite app_nil_r. split; [done|].
    split; [apply frame_refl|]. split; [done|]. split; [simpl; lia|]. split.
    + intros i c Hi. by rewrite lookup_nil in Hi.
    + right. split; [done|]. split; [done|]. intros c Hc. by apply elem_of_nil in Hc.
Qed.

(* [max_iterations] is a numeral: the loop is not to be unrolled from here on. *)
Arguments eight_draw_loop : simpl never.

Lemma eight_match_qualifies c top : eight_match c top = true <-> qualifies c top.
Proof.
  unfold eight_match, qualifies.
  rewrite !orb_true_iff, !str_eq_true. tauto.
Qed.

Lemma eight_match_not_qualifies c top : eight_match c top = false <-> ~ qualifies c top.
Proof.
  rewrite <- eight_match_qualifies. destruct (eight_match c top); split; done.
Qed.

Lemma hand_sizes_le room : length (deck room) + length (discard_pile room) <= total_cards room.
Proof. unfold total_cards. lia. Qed.

(** The 8-chain draw on a room that has all its cards and a card on the
    table. *)
Lemma eight_chain_draw_from g ws bot_id rid pid room top :
  Random_ok g ->
  player_ids room !! current_player_index room = Some pid ->
  waiting_for_eight room = true ->
  eight_draw_used room = false ->
  last (discard_pile room) = Some top ->
  total_cards room = deck_size room ->
  deck_size room = 36 \/ deck_size room = 52 ->
  exists room2 drawn sh out,
    eight_draw_loop g max_iterations pid (set_eight_draw_used true room) [] false
      = (room2, drawn, sh) /\
    draw_card_room g ws bot_id rid pid room = Accepted (eight_draw_finish room2 drawn) out /\
    length drawn < deck_size room /\
    last (discard_pile room2) = Some top /\
    (forall i c, drawn !! i = Some c -> i + 1 < length drawn -> ~ qualifies c top) /\
    ((exists c, last drawn = Some c /\ qualifies c top /\
        waiting_for_eight (eight_draw_finish room2 drawn) = true /\
        current_player_index (eight_draw_finish room2 drawn) = current_player_index room)
     \/
     ((drawn = [] \/ exists c, last drawn = Some c /\ ~ qualifies c top) /\
      deck room2 = [] /\ length (discard_pile room2) <= 1 /\
      waiting_for_eight (eight_draw_finish room2 drawn) = false /\
      eight_drawn_cards (eight_draw_finish room2 drawn) = Some ∅ /\
      current_player_index (eight_draw_finish room2 drawn)
        = (current_player_index room + 1) mod length (players room))).
Proof.
  intros Hg Hcur Hw Hused Htop Htotal Hsize.
  pose proof (hand_sizes_le room) as Hle.
  destruct (eight_draw_loop_spec g max_iterations pid (set_eight_draw_used true room)
              [] false top Hg) as (room2 & drawn & sh & Hloop & Hfr & Htop2 & Hlen & Hnon & Hstop).
  { done. }
  { simpl. unfold max_iterations. lia. }
  simpl in Hloop, Hlen.
  exists room2, drawn, sh. eexists. split; [exact Hloop|].
  split.
  { unfold draw_card_room. rewrite Hcur, str_eq_refl, Hw, Hused. simpl.
    by rewrite Hloop. }
  assert (1 <= length (discard_pile room2)) as Hdp.
  { apply last_Some in Htop2 as [l ->]. rewrite length_app. simpl. lia. }
  split; [lia|]. split; [done|]. split.
  { intros i c Hi Hlt. apply eight_match_not_qualifies. by eapply Hnon. }
  destruct Hfr as (_ & Hids & Hfcur & _ & _ & _ & Hfw & _). simpl in Hfw, Hfcur, Hids.
  unfold eight_draw_finish. simpl. rewrite Htop2.
  destruct Hstop as [(c & Hc & Hm)|(Hd & Hdp' & Hall)].
  - left. exists c. rewrite Hc, Hm. simpl.
    split; [done|]. split; [by apply eight_match_qualifies|]. split; congruence.
  - right.
    assert (length (player_ids room2) = length (players room)) as Hn.
    { rewrite Hids. unfold player_ids. by rewrite length_map. }
    destruct (last drawn) as [c|] eqn:Hc.
    + assert (eight_match c top = false) as Hm.
      { apply Hall. apply last_Some in Hc as [l ->]. apply elem_of_app. right.
        by apply list_elem_of_singleton. }
      rewrite Hm. simpl.
      split; [right; exists c; split; [done|by apply eight_match_not_qualifies]|].
      split; [done|]. split; [done|].
      unfold eight_chain_drop. simpl. split; [done|]. split; [done|]. rewrite Hfcur.
      unfold player_ids in *. simpl. by rewrite Hn.
    + apply last_None in Hc.
      split; [by left|]. split; [done|]. split; [done|].
      unfold eight_chain_drop. simpl. split; [done|]. split; [done|]. rewrite Hfcur.
      unfold player_ids in *. simpl. by rewrite Hn.
Qed.

(** ** Conservation of the cards *)

Lemma conserves_refl r : conserves r r.
Proof. by repeat split. Qed.

Lemma conserves_trans r1 r2 r3 : conserves r1 r2 -> conserves r2 r3 -> conserves r1 r3.
Proof.
  unfold conserves. intros (Ht & Hn & Hsz & Hst & Hd) (Ht' & Hn' & Hsz' & Hst' & Hd').
  repeat split; [congruence..|]. auto.
Qed.

Lemma hand_sizes_update pid f ps p :
  get_player pid ps = Some p ->
  hand_sizes (update_player pid f ps) + length (hand p)
    = hand_sizes ps + length (hand (f p)).
Proof.
  induction ps as [|[k q] ps IH]; simpl; [done|].
  destruct (str_eq k pid).
  - intros [= ->]. simpl. lia.
  - intros H. simpl. specialize (IH H). lia.
Qed.

Lemma update_player_length pid f ps : length (update_player pid f ps) = length ps.
Proof.
  rewrite <- (length_map fst (update_player pid f ps)), update_player_keys.
  apply length_map.
Qed.

Lemma list_remove_length card h :
  card ∈ h -> S (length (list_remove card h)) = length h.
Proof.
  induction h as [|c h IH]; simpl.
  - by intros ?%elem_of_nil.
  - destruct (card_eq c card) eqn:E; [done|].
    intros [->|Hin]%elem_of_cons.
    + unfold card_eq in E. by rewrite !str_eq_refl in E.
    + simpl. by rewrite IH.
Qed.

Lemma find_card_elem i h card : find_card i h = Some card -> card ∈ h.
Proof.
  unfold find_card. destruct i as [i|]; [|done].
  intros [H _]%find_some. by apply list_elem_of_In.
Qed.

Lemma id_at_elem room i : i < length (player_ids room) -> id_at room i ∈ player_ids room.
Proof.
  intros H. unfold id_at.
  destruct (lookup_lt_is_Some_2 (player_ids room) i H) as [k Hk].
  rewrite Hk. simpl. by eapply list_elem_of_lookup_2.
Qed.

Lemma replenish_deck_conserves g room r b :
  Random_ok g -> replenish_deck g room = (r, b) -> conserves room r.
Proof.
  intros Hg H.
  destruct (replenish_deck_cases g room r b Hg H) as (Hfr & Hps & Htop & Hlen & _).
  destruct Hfr as (_ & _ & _ & _ & Hst & _ & _ & _ & _ & Hsz & _).
  unfold conserves, total_cards. rewrite Hps. repeat split; [lia|done..|].
  intros Hne Hnil. rewrite Hnil in Htop. symmetry in Htop. by apply last_None in Htop.
Qed.

Lemma draw_to_conserves pid room r n :
  pid ∈ player_ids room -> draw_to pid room = (r, n) -> conserves room r.
Proof.
  intros Hin. unfold draw_to.
  destruct (pop (deck room)) as [[c d]|] eqn:Hpop; intros [= <- <-];
    [|apply conserves_refl].
  apply pop_Some in Hpop.
  destruct (get_player_is_Some pid (players room) Hin) as [p Hp].
  pose proof (hand_sizes_update pid (hand_append c) _ _ Hp) as Hh.
  unfold conserves, total_cards. simpl in *.
  rewrite update_player_length, Hpop. rewrite !length_app in *. simpl in *.
  repeat split; [lia|done..].
Qed.

Lemma forced_draw_conserves g pid room r n b :
  Random_ok g -> pid ∈ player_ids room ->
  forced_draw g pid room = (r, n, b) -> conserves room r.
Proof.
  intros Hg Hin. unfold forced_draw.
  destruct (replenish_deck g room) as [r1 sh] eqn:E1.
  destruct (draw_to pid r1) as [r2 m] eqn:E2. intros [= <- <- <-].
  eapply conserves_trans; [by eapply replenish_deck_conserves|].
  eapply draw_to_conserves; [|done].
  unfold player_ids. by rewrite (replenish_deck_players _ _ _ _ E1).
Qed.

Lemma play_card_draw_effects_conserves g card room r nx fid fc sh :
  Random_ok g -> 0 < length (player_ids room) ->
  play_card_draw_effects g card room = (r, nx, fid, fc, sh) -> conserves room r.
Proof.
  intros Hg Hn. unfold play_card_draw_effects.
  assert (id_at room ((current_player_index room + 1) mod length (player_ids room))
          ∈ player_ids room) as Hin.
  { apply id_at_elem. apply Nat.mod_upper_bound. lia. }
  destruct (str_eq (rank card) "6").
  - destruct (forced_draw g _ room) as [[r1 c1] s1] eqn:E1. intros [= <- <- <- <- <-].
    by eapply forced_draw_conserves.
  - destruct (str_eq (rank card) "7"); [|intros [= <- <- <- <- <-]; apply conserves_refl].
    destruct (forced_draw g _ room) as [[r1 c1] s1] eqn:E1.
    destruct (forced_draw g _ r1) as [[r2 c2] s2] eqn:E2. intros [= <- <- <- <- <-].
    eapply conserves_trans; [by eapply forced_draw_conserves|].
    eapply forced_draw_conserves; [done| |done].
    by rewrite (forced_draw_ids _ _ _ _ _ _ E1).
Qed.

Lemma play_card_move_conserves pid card room player :
  get_player pid (players room) = Some player ->
  card ∈ hand player ->
  conserves room (play_card_move pid card room).
Proof.
  intros Hp Hc. unfold play_card_move.
  pose proof (hand_sizes_update pid (fun p => set_hand (list_remove card (hand p)) p)
                _ _ Hp) as Hh.
  pose proof (list_remove_length card (hand player) Hc) as Hl.
  unfold conserves, total_cards.
  destruct (negb _); simpl in *; rewrite update_player_length, length_app; simpl;
    (repeat split; [lia..|]); intros _ Hnil; by apply app_eq_nil in Hnil as [_ ?].
Qed.

Lemma play_card_late_effects_conserves card chosen nx room r nx' :
  play_card_late_effects card chosen nx room = (r, nx') -> conserves room r.
Proof.
  unfold play_card_late_effects.
  destruct (str_eq (rank card) "A"); [by intros [= <- <-]|].
  destruct (_ && _); [by intros [= <- <-]|].
  destruct (str_eq (rank card) "Q"); [|by intros [= <- <-]].
  destruct (truthy chosen); by intros [= <- <-].
Qed.

Lemma play_card_room_conserves g ws rid pid cid chosen room :
  Random_ok g -> conserves room (room_of (play_card_room g ws rid pid cid chosen room)).
Proof.
  intros Hg. unfold play_card_room.
  destruct (player_ids room !! current_player_index room) as [cur|] eqn:Hcur;
    [|apply conserves_refl].
  destruct (negb (str_eq cur pid)); [apply conserves_refl|].
  destruct (get_player pid (players room)) as [player|] eqn:Hp; [|apply conserves_refl].
  destruct (find_card cid (hand player)) as [card|] eqn:Hc; [|apply conserves_refl].
  destruct (last (discard_pile room)) as [top_card|]; [|apply conserves_refl].
  destruct (play_card_check ws card top_card room) as [early|room1] eqn:Hcheck.
  { unfold play_card_check in Hcheck.
    destruct (waiting_for_eight room).
    - destruct (_ && _); [|done]. injection Hcheck as <-.
      destruct ws; apply conserves_refl.
    - destruct (negb _); [|done]. injection Hcheck as <-. apply conserves_refl. }
  assert (conserves room room1 /\ players room1 = players room) as [Hc1 Hps1].
  { unfold play_card_check in Hcheck.
    destruct (waiting_for_eight room).
    - destruct (_ && _); [done|]. injection Hcheck as <-.
      unfold clear_eight_drawn_cards. simpl.
      destruct (eight_drawn_cards room); by repeat split.
    - destruct (negb _); [done|]. injection Hcheck as <-. by repeat split. }
  apply find_card_elem in Hc.
  assert (conserves room (play_card_move pid card room1)) as Hc2.
  { eapply conserves_trans; [exact Hc1|].
    eapply play_card_move_conserves; [by rewrite Hps1|done]. }
  unfold play_card_apply.
  destruct (play_card_draw_effects g card (play_card_move pid card room1))
    as [[[[r4 nx] fid] fc] sh] eqn:Heff.
  assert (conserves room r4) as Hc4.
  { eapply conserves_trans; [exact Hc2|].
    eapply play_card_draw_effects_conserves; [done| |done].
    rewrite play_card_move_ids. unfold player_ids. rewrite Hps1.
    apply lookup_lt_Some in Hcur. unfold player_ids in Hcur. lia. }
  destruct (get_player pid (players r4)) as [p4|]; [|done].
  destruct (length (hand p4) =? 0); [done|].
  destruct (play_card_late_effects card chosen nx r4) as [r5 nx'] eqn:Hlate.
  apply play_card_late_effects_conserves in Hlate. simpl.
  eapply conserves_trans; [exact Hc4|]. eapply conserves_trans; [exact Hlate|].
  by repeat split.
Qed.

Lemma eight_draw_loop_S g fuel pid room drawn sh :
  eight_draw_loop g (S fuel) pid room drawn sh =
  let (room1, shuffled) := replenish_deck g room in
  match pop (deck room1) with
  | None => (room1, drawn, sh || shuffled)
  | Some (card, deck') =>
      match last (discard_pile room1) with
      | None => (room1, drawn, sh || shuffled)
      | Some top_card =>
          let room2 :=
            set_players (update_player pid (hand_append card) (players room1))
              (set_deck deck' room1) in
          if eight_match card top_card then (room2, drawn ++ [card], sh || shuffled)
          else eight_draw_loop g fuel pid room2 (drawn ++ [card]) (sh || shuffled)
      end
  end.
Proof. reflexivity. Qed.

Lemma eight_draw_loop_conserves g fuel pid room drawn sh r drawn' sh' :
  Random_ok g -> pid ∈ player_ids room ->
  eight_draw_loop g fuel pid room drawn sh = (r, drawn', sh') -> conserves room r.
Proof.
  intros Hg. revert room drawn sh.
  induction fuel as [|fuel IH]; intros room drawn sh Hin.
  { intros [= <- <- <-]. apply conserves_refl. }
  rewrite eight_draw_loop_S.
  destruct (replenish_deck g room) as [room1 shuffled] eqn:Hrep.
  pose proof (replenish_deck_conserves _ _ _ _ Hg Hrep) as Hc1.
  pose proof (replenish_deck_players _ _ _ _ Hrep) as Hps1.
  destruct (pop (deck room1)) as [[card deck']|] eqn:Hpop;
    [|by intros [= <- <- <-]].
  destruct (last (discard_pile room1)) as [top|]; [|by intros [= <- <- <-]].
  assert (pid ∈ player_ids room1) as Hin1 by (unfold player_ids; by rewrite Hps1).
  assert (conserves room1
            (set_players (update_player pid (hand_append card) (players room1))
               (set_deck deck' room1))) as Hc2.
  { eapply (draw_to_conserves pid room1 _ 1); [done|]. unfold draw_to. by rewrite Hpop. }
  destruct (eight_match card top).
  - intros [= <- <- <-]. by eapply conserves_trans.
  - intros Hloop. apply IH in Hloop.
    + eapply conserves_trans; [exact Hc1|]. by eapply conserves_trans.
    + unfold player_ids. simpl. by rewrite update_player_keys.
Qed.

Lemma eight_draw_finish_conserves room drawn : conserves room (eight_draw_finish room drawn).
Proof.
  unfold eight_draw_finish, eight_chain_drop.
  destruct (last drawn); [|by repeat split].
  destruct (negb _); by repeat split.
Qed.

Lemma draw_card_room_conserves g ws bot_id rid pid room :
  Random_ok g -> conserves room (room_of (draw_card_room g ws bot_id rid pid room)).
Proof.
  intros Hg. unfold draw_card_room.
  destruct (player_ids room !! current_player_index room) as [cur|] eqn:Hcur;
    [|apply conserves_refl].
  destruct (str_eq_spec cur pid) as [->|]; simpl; [|apply conserves_refl].
  apply list_elem_of_lookup_2 in Hcur.
  destruct (waiting_for_eight room).
  - destruct (eight_draw_used room); [apply conserves_refl|].
    destruct (eight_draw_loop _ _ _ _ _ _) as [[r2 drawn] sh] eqn:Hloop. simpl.
    apply eight_draw_loop_conserves in Hloop; [|done..].
    eapply conserves_trans; [|apply eight_draw_finish_conserves].
    eapply conserves_trans; [|exact Hloop]. by repeat split.
  - destruct (card_drawn_this_turn room).
    { destruct ws; apply conserves_refl. }
    destruct (replenish_deck g room) as [r1 sh] eqn:Hrep.
    pose proof (replenish_deck_conserves _ _ _ _ Hg Hrep) as Hc1.
    pose proof (replenish_deck_players _ _ _ _ Hrep) as Hps1.
    destruct (pop (deck r1)) as [[c d]|] eqn:Hpop.
    + simpl. eapply conserves_trans; [exact Hc1|].
      assert (conserves r1
                (set_players (update_player pid (hand_append c) (players r1))
                   (set_deck d r1))) as Hc2.
      { eapply (draw_to_conserves pid r1 _ 1).
        - unfold player_ids. by rewrite Hps1.
        - unfold draw_to. by rewrite Hpop. }
      eapply conserves_trans; [exact Hc2|]. by repeat split.
    + by destruct ws.
Qed.

Lemma skip_turn_room_conserves ws rid pid room :
  conserves room (room_of (skip_turn_room ws rid pid room)).
Proof.
  unfold skip_turn_room.
  destruct (player_ids room !! current_player_index room) as [cur|];
    [|apply conserves_refl].
  destruct (negb (str_eq cur pid)); [apply conserves_refl|].
  destruct (waiting_for_eight room); [apply conserves_refl|].
  destruct (negb (card_drawn_this_turn room)); [apply conserves_refl|].
  by repeat split.
Qed.

Lemma del_players_length kick (ps : list (string * Player)) :
  length (foldl (fun ps pid => del_player pid ps) ps kick) <= length ps.
Proof.
  revert ps. induction kick as [|k kick IH]; intros ps; simpl; [done|].
  etrans; [apply IH|]. unfold del_player. apply length_filter.
Qed.

Lemma game_end_room_next rid winner_id room room' kicked out :
  game_end_room rid winner_id room = NextRound room' kicked out ->
  game_started room' = false /\
  length (players room') <= length (players room) /\
  deck_size room' = deck_size room.
Proof.
  unfold game_end_room, tally.
  match goal with |- context [if ?c then RoomClosed _ _ else _] => destruct c end;
    [done|].
  intros [= <- <- <-]. split; [done|]. split; [|done].
  unfold reset_for_new_game. simpl. rewrite length_map.
  etrans; [apply del_players_length|]. by rewrite !length_map.
Qed.

(** *** The deal *)

Lemma create_deck_length g size :
  Random_ok g -> length (create_deck g size) = if size =? 36 then 36 else 52.
Proof.
  intros Hg. unfold create_deck.
  rewrite (Permutation_length (shuffle_perm g Hg _)), length_imap.
  by destruct (size =? 36).
Qed.

Lemma pop_list_Some n d h d' :
  pop_list n d = (Some h, d') -> length d' + n = length d.
Proof.
  revert d h d'. induction n as [|n IH]; intros d h d'; simpl.
  - by intros [= <- <-].
  - destruct (pop d) as [[c d1]|] eqn:Hpop; [|done].
    apply pop_Some in Hpop. destruct (pop_list n d1) as [r d2] eqn:Hrec.
    destruct r as [h'|]; [|done]. intros [= <- <-].
    apply IH in Hrec. rewrite Hpop, length_app. simpl. lia.
Qed.

Lemma pop_list_enough n d :
  n <= length d -> exists h d', pop_list n d = (Some h, d').
Proof.
  revert d. induction n as [|n IH]; intros d Hlen; simpl; [eauto|].
  destruct (pop d) as [[c d1]|] eqn:Hpop.
  - apply pop_Some in Hpop. rewrite Hpop, length_app in Hlen. simpl in Hlen.
    destruct (IH d1) as (h & d' & ->); [lia|]. simpl. eauto.
  - apply pop_None in Hpop. rewrite Hpop in Hlen. simpl in Hlen. lia.
Qed.

Lemma pop_list_length n d h d' : pop_list n d = (Some h, d') -> length h = n.
Proof.
  revert d h d'. induction n as [|n IH]; intros d h d'; simpl; [by intros [= <- <-]|].
  destruct (pop d) as [[c d0]|]; [|done].
  destruct (pop_list n d0) as [[h'|] d2] eqn:E; [|done].
  intros [= <- <-]. simpl. by rewrite (IH _ _ _ E).
Qed.

Lemma deal_cons k p ps d :
  deal ((k, p) :: ps) d =
  match pop_list 5 d with
  | (Some h, d1) => let '(ps'', d', ok) := deal ps d1 in ((k, set_hand h p) :: ps'', d', ok)
  | (None, d1) => ((k, p) :: ps, d1, false)
  end.
Proof. reflexivity. Qed.

Lemma deal_total ps d ps' d' :
  deal ps d = (ps', d', true) ->
  hand_sizes ps' + length d' = length d /\ map fst ps' = map fst ps /\
  hand_sizes ps' = 5 * length ps.
Proof.
  revert d ps' d'. induction ps as [|[k p] ps IH]; intros d ps' d'.
  - by intros [= <- <-].
  - rewrite deal_cons.
    destruct (pop_list 5 d) as [[h|] d1] eqn:Hpop; [|done].
    destruct (deal ps d1) as [[ps1 d2] ok] eqn:Hdeal. intros [= <- <- ->].
    apply IH in Hdeal as (Hh & Hk & H5). apply pop_list_Some in Hpop as Hl.
    apply pop_list_length in Hpop. simpl. rewrite Hk.
    split; [lia|]. split; [done|]. lia.
Qed.

Lemma deal_enough ps d :
  5 * length ps <= length d -> exists ps' d', deal ps d = (ps', d', true).
Proof.
  revert d. induction ps as [|[k p] ps IH]; intros d Hlen; [simpl; eauto|].
  rewrite deal_cons. simpl in Hlen.
  destruct (pop_list_enough 5 d) as (h & d1 & Hpop); [lia|].
  rewrite Hpop. apply pop_list_Some in Hpop as Hl.
  destruct (IH d1) as (ps' & d' & ->); [lia|]. eauto.
Qed.

Lemma first_card_effects_conserves g first_card room r fid fc sh :
  Random_ok g -> current_player_index room < length (player_ids room) ->
  first_card_effects g first_card room = (r, fid, fc, sh) -> conserves room r.
Proof.
  intros Hg Hcur. unfold first_card_effects.
  pose proof (id_at_elem room _ Hcur) as Hin.
  destruct (str_eq (rank first_card) "6").
  { destruct (forced_draw g _ room) as [[r1 c1] s1] eqn:E1. intros [= <- <- <- <-].
    eapply conserves_trans; [by eapply forced_draw_conserves|]. by repeat split. }
  destruct (str_eq (rank first_card) "7").
  { destruct (forced_draw g _ room) as [[r1 c1] s1] eqn:E1.
    destruct (forced_draw g _ r1) as [[r2 c2] s2] eqn:E2. intros [= <- <- <- <-].
    eapply conserves_trans; [by eapply forced_draw_conserves|].
    eapply conserves_trans.
    - eapply forced_draw_conserves; [done| |done].
      by rewrite (forced_draw_ids _ _ _ _ _ _ E1).
    - by repeat split. }
  destruct (_ && _); [by intros [= <- <- <- <-]|].
  destruct (str_eq (rank first_card) "A"); [by intros [= <- <- <- <-]|].
  destruct (str_eq (rank first_card) "Q"); by intros [= <- <- <- <-].
Qed.

Lemma conserves_inv r r' : room_inv r -> conserves r r' -> room_inv r'.
Proof.
  unfold room_inv, conserves. intros (Hn & Hsz & Ht) (Ht' & Hn' & Hsz' & Hst' & Hd').
  rewrite Hn', Hsz', Hst', Ht'. split; [done|]. split; [done|].
  intros Hst. destruct (Ht Hst) as [Htot Hd]. auto.
Qed.

Lemma after_inv rid o r' : room_inv (room_of o) -> after rid o = Some r' -> room_inv r'.
Proof.
  destruct o as [r out|exn r|r w|r out]; simpl; try by intros ? [= <-].
  intros (Hn & Hsz & _).
  destruct (game_end_room rid w r) as [|r1 kicked out] eqn:Hend; [done|].
  intros [= <-]. apply game_end_room_next in Hend as (Hst & Hlen & Hsz').
  unfold room_inv. rewrite Hsz', Hst. split; [lia|]. split; [done|]. done.
Qed.

Lemma start_game_room_inv g rid room :
  Random_ok g -> length (players room) <= 4 ->
  deck_size room = 36 \/ deck_size room = 52 ->
  room_inv (room_of (start_game_room g rid room)).
Proof.
  intros Hg Hn Hsz. unfold start_game_room.
  set (room1 := set_deck _ _).
  assert (length (deck room1) = deck_size room) as Hd1.
  { subst room1. simpl. rewrite create_deck_length by done.
    destruct Hsz as [-> | ->]; done. }
  destruct (deal_enough (players room1) (deck room1)) as (ps & d & Hdeal).
  { rewrite Hd1. subst room1. simpl. lia. }
  rewrite Hdeal. simpl.
  apply deal_total in Hdeal as (Htot & Hkeys & H5).
  assert (length ps = length (players room)) as Hps.
  { rewrite <- (length_map fst ps), Hkeys. subst room1. simpl. apply length_map. }
  destruct (pop d) as [[first_card d']|] eqn:Hpop.
  2:{ apply pop_None in Hpop. subst d. subst room1. simpl in *. lia. }
  apply pop_Some in Hpop.
  assert (length d = S (length d')) as Hd by (rewrite Hpop, length_app; simpl; lia).
  set (room3 := set_discard_pile _ _).
  assert (room_inv room3) as Hinv3.
  { unfold room_inv, total_cards. subst room3 room1. simpl in *.
    split; [lia|]. split; [done|]. intros _. split; [lia|done]. }
  destruct (length (player_ids room3) =? 0) eqn:Hz; [done|].
  apply Nat.eqb_neq in Hz.
  set (room4 := set_current_player_index _ _).
  destruct (first_card_effects g first_card room4) as [[[r5 fid] fc] sh] eqn:Heff.
  simpl. apply first_card_effects_conserves in Heff; [|done|].
  - eapply conserves_inv; [|exact Heff]. exact Hinv3.
  - subst room4. simpl. apply Nat.mod_upper_bound. exact Hz.
Qed.

Lemma hand_sizes_set_ready pid b ps :
  hand_sizes (update_player pid (fun p => set_ready (b p) p) ps) = hand_sizes ps.
Proof.
  induction ps as [|[k p] ps IH]; simpl; [done|].
  destruct (str_eq k pid); simpl; by rewrite ?IH.
Qed.

Lemma toggle_ready_inv g rid pid room :
  Random_ok g -> room_inv room -> room_inv (room_of (toggle_ready g rid pid room)).
Proof.
  intros Hg Hinv. unfold toggle_ready.
  destruct (get_player pid (players room)); [|done].
  set (room1 := set_players _ room).
  assert (conserves room room1) as Hc1.
  { subst room1. unfold conserves, total_cards. simpl.
    rewrite update_player_length.
    by rewrite (hand_sizes_set_ready pid (fun p => negb (ready p))). }
  pose proof (conserves_inv _ _ Hinv Hc1) as Hinv1.
  destruct (_ && _).
  - assert (room_inv (room_of (start_game_room g rid (set_countdown_active false room1))))
      as Hs.
    { destruct Hinv1 as (Hn & Hsz & _). by apply start_game_room_inv. }
    by destruct (start_game_room g rid (set_countdown_active false room1)).
  - destruct (_ && _); [exact Hinv1|]. destruct (_ && _); exact Hinv1.
Qed.

Lemma countdown_expired_inv g rid room :
  Random_ok g -> room_inv room -> room_inv (room_of (countdown_expired g rid room)).
Proof.
  intros Hg Hinv. unfold countdown_expired.
  destruct (2 <=? _); [|exact Hinv].
  destruct Hinv as (Hn & Hsz & _). apply start_game_room_inv; [done| |done].
  simpl. etrans; [apply List.filter_length_le|]. done.
Qed.

Lemma join_room_inv pid nick room r' :
  room_inv room -> join_room pid nick room = Some r' -> room_inv r'.
Proof.
  intros (Hn & Hsz & _). unfold join_room.
  destruct (game_started room) eqn:Hst; [done|].
  destruct (4 <=? length (players room)) eqn:H4; [done|].
  destruct (existsb _ _); [done|]. intros [= <-].
  apply Nat.leb_gt in H4. unfold room_inv. simpl. rewrite length_app. simpl.
  split; [lia|]. split; [done|]. by rewrite Hst.
Qed.

Lemma change_deck_size_inv pid size room r' :
  room_inv room -> change_deck_size pid size room = Some r' -> room_inv r'.
Proof.
  intros (Hn & Hsz & _). unfold change_deck_size.
  destruct (negb _); [done|]. destruct (game_started room) eqn:Hst; [done|].
  destruct (size =? 36) eqn:H36; simpl.
  - intros [= <-]. apply Nat.eqb_eq in H36. unfold room_inv. simpl.
    split; [done|]. split; [by left|]. by rewrite Hst.
  - destruct (size =? 52) eqn:H52; simpl; [|done].
    intros [= <-]. apply Nat.eqb_eq in H52. unfold room_inv. simpl.
    split; [done|]. split; [by right|]. by rewrite Hst.
Qed.

Lemma toggle_private_inv pid private room r' :
  room_inv room -> toggle_private pid private room = Some r' -> room_inv r'.
Proof.
  intros Hinv. unfold toggle_private.
  destruct (negb _); [done|]. destruct (_ || _); [done|]. by intros [= <-].
Qed.

Lemma disconnect_inv pid room : room_inv room -> room_inv (disconnect pid room).
Proof.
  intros Hinv. unfold disconnect.
  destruct (game_started room) eqn:Hst; simpl; [done|].
  destruct (existsb _ _); [done|].
  destruct Hinv as (Hn & Hsz & _). unfold room_inv. simpl. rewrite Hst.
  split; [|done]. unfold del_player. etrans; [apply length_filter|]. done.
Qed.

Lemma create_bot_game_inv rid pid nick bots size r :
  create_bot_game rid pid nick bots size = Some r -> room_inv r.
Proof.
  unfold create_bot_game.
  destruct (length bots <? 1) eqn:H1; simpl; [done|].
  destruct (3 <? length bots) eqn:H3; simpl; [done|].
  apply Nat.ltb_ge in H3.
  destruct (negb _); [done|].
  intros [= <-]. unfold room_inv. simpl.
  rewrite length_map. split; [lia|]. split; [by right|done].
Qed.

Lemma room_step_inv r r' : room_inv r -> room_step r r' -> room_inv r'.
Proof.
  intros Hinv Hstep.
  destruct Hstep as [pid nick r' H|g rid pid r' Hg H|g rid r' Hg H|pid size r' H
                     |pid private r' H|pid|g ws rid pid cid chosen r' Hg Hst H
                     |g ws bot_id rid pid r' Hg Hst H|ws rid pid r' Hst H].
  - by eapply join_room_inv.
  - eapply after_inv; [|exact H]. by apply toggle_ready_inv.
  - eapply after_inv; [|exact H]. by apply countdown_expired_inv.
  - by eapply change_deck_size_inv.
  - by eapply toggle_private_inv.
  - by apply disconnect_inv.
  - eapply after_inv; [|exact H].
    eapply conserves_inv; [exact Hinv|]. by apply play_card_room_conserves.
  - eapply after_inv; [|exact H].
    eapply conserves_inv; [exact Hinv|]. by apply draw_card_room_conserves.
  - eapply after_inv; [|exact H].
    eapply conserves_inv; [exact Hinv|]. apply skip_turn_room_conserves.
Qed.

Lemma reachable_inv r : reachable r -> room_inv r.
Proof.
  induction 1 as [rid pid nick private|rid pid nick bots size r H|r r' _ IH Hstep].
  - unfold room_inv. simpl. split; [lia|]. split; [by right|done].
  - by eapply create_bot_game_inv.
  - by eapply room_step_inv.
Qed.

(** X22: in every state of a started room that the handlers reach from a
    room just created (a reload from the database apart) the draw pile, the
    discard pile and the hands together hold exactly [deck_size] cards, 36 or
    52; and playing a card, a voluntary draw, an 8-chain draw, a skipped turn
    and a deck replenishment each leave that total as it was (also when the
    request is refused). *)
Theorem conservation :
  (forall r, reachable r -> game_started r = true ->
     total_cards r = deck_size r /\ (deck_size r = 36 \/ deck_size r = 52)) /\
  (forall g ws bot_id rid pid cid chosen r,
     Random_ok g ->
     total_cards (room_of (play_card_room g ws rid pid cid chosen r)) = total_cards r /\
     total_cards (room_of (draw_card_room g ws bot_id rid pid r)) = total_cards r /\
     total_cards (room_of (skip_turn_room ws rid pid r)) = total_cards r /\
     total_cards (replenish_deck g r).1 = total_cards r).
Proof.
  split.
  - intros r Hr Hst. destruct (reachable_inv r Hr) as (_ & Hsz & Ht).
    destruct (Ht Hst) as [Htot _]. done.
  - intros g ws bot_id rid pid cid chosen r Hg.
    split; [apply (play_card_room_conserves g ws rid pid cid chosen r Hg)|].
    split; [apply (draw_card_room_conserves g ws bot_id rid pid r Hg)|].
    split; [apply (skip_turn_room_conserves ws rid pid r)|].
    destruct (replenish_deck g r) as [r1 b] eqn:E.
    by apply (replenish_deck_conserves g r r1 b Hg E).
Qed.

Lemma room_dealt_reachable : reachable room_dealt.
Proof.
  eapply reach_step; [eapply reach_step; [eapply reach_step|]|].
  - apply (reach_create_room "r" "a" "a" false).
  - apply (step_join _ "b" "b"). reflexivity.
  - apply (step_toggle_ready _ g0 "r" "a"); [apply g0_ok|]. vm_compute. reflexivity.
  - apply (step_toggle_ready _ g0 "r" "b"); [apply g0_ok|]. vm_compute. reflexivity.
Defined.

Lemma conservation_witness :
  total_cards room_dealt = deck_size room_dealt /\
  (deck_size room_dealt = 36 \/ deck_size room_dealt = 52).
Proof.
  apply (proj1 conservation room_dealt room_dealt_reachable). vm_compute. reflexivity.
Defined.

(** ** A game read back from the database *)

Lemma room_dealt36_reachable : reachable room_dealt36.
Proof.
  eapply reach_step; [eapply reach_step; [eapply reach_step; [eapply reach_step|]|]|].
  - apply (reach_create_room "r" "a" "a" false).
  - apply (step_join _ "b" "b"). reflexivity.
  - apply (step_change_deck_size _ "a" 36). reflexivity.
  - apply (step_toggle_ready _ g0 "r" "a"); [apply g0_ok|]. vm_compute. reflexivity.
  - apply (step_toggle_ready _ g0 "r" "b"); [apply g0_ok|]. vm_compute. reflexivity.
Qed.

(** C2, the code against the claim: a started game of 36 cards that
    [save_room_to_db] has stored and that [load_room] reads back, at the
    start of the server or on a [handle_reconnect] for a room that is not
    in memory, is in memory with its 36 cards, each where it was, and with
    [deck_size] 52: the [rooms] table has no column for it and [load_room]
    falls back on the default.  The reconnecting seat is told [deck_size]
    52 in [game_started]. *)
Theorem reloaded_room_has_deck_size_52 :
  reachable room_dealt36 /\
  game_started room_dealt36 = true /\
  deck_size room_dealt36 = 36 /\
  total_cards room_dealt36 = 36 /\
  exists s' room' m flag,
    handle_reconnect server_restarted 1 (Some "a") (Some "r")
      (save_room_to_db room_dealt36)
    = RcReturn s' [RcBroadcast "r" (rc_player_reconnected "a" "a") "a";
                   RcSend 1 (rc_game_started m flag)] /\
    rooms s' !! "r" = Some room' /\
    (load_room server_restarted "r" (save_room_to_db room_dealt36)).2 = Some room' /\
    game_started room' = true /\
    deck room' = deck room_dealt36 /\
    discard_pile room' = discard_pile room_dealt36 /\
    map (fun kp : string * Player => (fst kp, hand (snd kp))) (players room')
      = map (fun kp : string * Player => (fst kp, hand (snd kp))) (players room_dealt36) /\
    total_cards room' = 36 /\
    deck_size room' = 52 /\
    gs_deck_size m = 52.
Proof.
  split; [apply room_dealt36_reachable|].
  split; [vm_compute; reflexivity|]. split; [vm_compute; reflexivity|].
  split; [vm_compute; reflexivity|].
  eexists _, _, _, _. split; [vm_compute; reflexivity|].
  split; [vm_compute; reflexivity|].
  repeat split; vm_compute; reflexivity.
Qed.

(** ** The scenarios of the specification, run *)

(** First discard a 7 with two seats: the seat after the dealer gets two
    cards and the turn passes to the dealer. *)
Example scenario_first_card_seven :
  let '(room, forced_id, forced_count, _) := first_card_effects g0 c7c room_first7 in
  get_player "b" (players room) = Some (snd (seat "b" [c9d; cKs; c5h] 0 true)) /\
  deck room = [c3c] /\ current_player_index room = 0 /\
  forced_id = Some "b" /\ forced_count = 2.
Proof. vm_compute. by repeat split. Qed.

(** The Queen of spades as last card: the round ends, the winner loses 40
    points and the other seat gains its hand (9 + 4). *)
Example scenario_queen_of_spades_wins :
  scores_of
    (server_after (handle_play_card g0 (server_of room_winQ) (Some 1) (Some "c6")
                     (Some "hearts") None None)) "r"
  = [("a", (-40)%Z); ("b", 13%Z)].
Proof. vm_compute. reflexivity. Qed.

(** The deck is empty with five discards: four go back into the draw pile,
    the top discard stays, and the draw goes through. *)
Example scenario_replenish_on_draw :
  let room := room_of (draw_card_room g0 (Some 1) None "r" "a" room_five) in
  length (deck room) = 3 /\ discard_pile room = [c7c] /\
  get_player "a" (players room) = Some (snd (seat "a" [c7h; c6h] 0 false)) /\
  card_drawn_this_turn room = true.
Proof. vm_compute. by repeat split. Qed.

(** A winning 6 makes the next seat draw before the tally: seat b is
    charged 9 + 3. *)
Example scenario_winning_six :
  scores_of
    (server_after (handle_play_card g0 (server_of room_win6) (Some 1) (Some "c4")
                     None None None)) "r"
  = [("a", 0%Z); ("b", 12%Z)].
Proof. vm_compute. reflexivity. Qed.

(** ** The 8-chain draw in a reachable room *)

(** C4: in every reachable started room an 8-chain draw (the seat to move,
    [waiting_for_eight] on, [eight_draw_used] off) comes to an end after
    fewer draws than the deck has cards; every drawn card but the last fails
    to qualify (rank 2, Q or 8, or the suit of the top discard); the draw
    ends on a qualifying card, which keeps the chain for this seat, or on an
    exhausted deck (draw pile empty, at most one discard), and then
    [waiting_for_eight] is cleared, [eight_drawn_cards] is emptied and
    [current_player_index] advances by exactly one seat. *)
Theorem eight_chain_draw g ws bot_id rid pid room :
  Random_ok g ->
  reachable room ->
  game_started room = true ->
  player_ids room !! current_player_index room = Some pid ->
  waiting_for_eight room = true ->
  eight_draw_used room = false ->
  exists top room2 drawn sh out,
    last (discard_pile room) = Some top /\
    eight_draw_loop g max_iterations pid (set_eight_draw_used true room) [] false
      = (room2, drawn, sh) /\
    draw_card_room g ws bot_id rid pid room = Accepted (eight_draw_finish room2 drawn) out /\
    length drawn < deck_size room /\
    last (discard_pile room2) = Some top /\
    (forall i c, drawn !! i = Some c -> i + 1 < length drawn -> ~ qualifies c top) /\
    ((exists c, last drawn = Some c /\ qualifies c top /\
        waiting_for_eight (eight_draw_finish room2 drawn) = true /\
        current_player_index (eight_draw_finish room2 drawn) = current_player_index room)
     \/
     ((drawn = [] \/ exists c, last drawn = Some c /\ ~ qualifies c top) /\
      deck room2 = [] /\ length (discard_pile room2) <= 1 /\
      waiting_for_eight (eight_draw_finish room2 drawn) = false /\
      eight_drawn_cards (eight_draw_finish room2 drawn) = Some ∅ /\
      current_player_index (eight_draw_finish room2 drawn)
        = (current_player_index room + 1) mod length (players room))).
Proof.
  intros Hg Hr Hst Hcur Hw Hused.
  destruct (reachable_inv room Hr) as (_ & Hsz & Hinv).
  destruct (Hinv Hst) as [Htotal Hne].
  destruct (last (discard_pile room)) as [top|] eqn:Htop.
  2:{ by apply last_None in Htop. }
  destruct (eight_chain_draw_from g ws bot_id rid pid room top Hg Hcur Hw Hused Htop
              Htotal Hsz) as (room2 & drawn & sh & out & H).
  by exists top, room2, drawn, sh, out.
Qed.

Lemma room_eight_reached_reachable : reachable room_eight_reached.
Proof.
  eapply reach_step; [apply room_dealt_reachable|].
  apply (step_play _ g0 (Some 2) "r" "b" (Some "45") None); [apply g0_ok| |].
  - vm_compute. reflexivity.
  - vm_compute. reflexivity.
Defined.

Lemma eight_chain_draw_witness :
  exists room2 drawn out,
    draw_card_room g0 (Some 1) None "r" "a" room_eight_reached
      = Accepted (eight_draw_finish room2 drawn) out /\
    length drawn < 52.
Proof.
  destruct (eight_chain_draw g0 (Some 1) None "r" "a" room_eight_reached g0_ok
              room_eight_reached_reachable)
    as (top & room2 & drawn & sh & out & _ & _ & Hdraw & Hlen & _).
  - vm_compute. reflexivity.
  - vm_compute. reflexivity.
  - vm_compute. reflexivity.
  - vm_compute. reflexivity.
  - exists room2, drawn, out. split; [exact Hdraw | exact Hlen].
Defined.

(** * Further properties of the code *)

(** ** An accepted play, step by step *)

Lemma play_card_room_Accepted g ws rid pid cid chosen room r' out :
  play_card_room g ws rid pid cid chosen room = Accepted r' out ->
  exists player card top room1 r4 nx fid fc sh r5 nx',
    player_ids room !! current_player_index room = Some pid /\
    get_player pid (players room) = Some player /\
    find_card cid (hand player) = Some card /\
    last (discard_pile room) = Some top /\
    play_card_check ws card top room = inr room1 /\
    play_card_draw_effects g card (play_card_move pid card room1) = (r4, nx, fid, fc, sh) /\
    play_card_late_effects card chosen nx r4 = (r5, nx') /\
    r' = set_card_drawn_this_turn false (set_current_player_index nx' r5).
Proof.
  unfold play_card_room.
  destruct (player_ids room !! _) as [cur|] eqn:Hcur; [|done].
  destruct (str_eq cur pid) eqn:Hme; [|done]. apply str_eq_true in Hme as ->. simpl.
  destruct (get_player pid (players room)) as [player|] eqn:Hp; [|done].
  destruct (find_card cid (hand player)) as [card|] eqn:Hc; [|done].
  destruct (last (discard_pile room)) as [top|] eqn:Ht; [|done].
  destruct (play_card_check ws card top room) as [early|room1] eqn:Hk.
  { intros ->. unfold play_card_check in Hk.
    destruct (waiting_for_eight room).
    - destruct (_ && _); [|done]. by destruct ws.
    - by destruct (negb _). }
  unfold play_card_apply.
  destruct (play_card_draw_effects g card _) as [[[[r4 nx] fid] fc] sh] eqn:E.
  destruct (get_player pid (players r4)) as [p4|]; [|done].
  destruct (length (hand p4) =? 0); [done|].
  destruct (play_card_late_effects card chosen nx r4) as [r5 nx'] eqn:E5.
  intros [= <- _].
  by exists player, card, top, room1, r4, nx, fid, fc, sh, r5, nx'.
Qed.

Lemma replenish_deck_last g room r b :
  replenish_deck g room = (r, b) -> last (discard_pile r) = last (discard_pile room).
Proof.
  unfold replenish_deck.
  destruct (_ && _); [|by intros [= <- <-]].
  destruct (last (discard_pile room)) eqn:E; by intros [= <- <-].
Qed.

Lemma draw_to_discard pid room r n :
  draw_to pid room = (r, n) -> discard_pile r = discard_pile room.
Proof. unfold draw_to. destruct (pop _) as [[c d]|]; by intros [= <- <-]. Qed.

Lemma forced_draw_last g pid room r n b :
  forced_draw g pid room = (r, n, b) -> last (discard_pile r) = last (discard_pile room).
Proof.
  unfold forced_draw.
  destruct (replenish_deck g room) as [r1 sh] eqn:E1.
  destruct (draw_to pid r1) as [r2 m] eqn:E2. intros [= <- <- <-].
  rewrite (draw_to_discard _ _ _ _ E2). by eapply replenish_deck_last.
Qed.

Lemma play_card_draw_effects_last g card room r nx fid fc sh :
  play_card_draw_effects g card room = (r, nx, fid, fc, sh) ->
  last (discard_pile r) = last (discard_pile room).
Proof.
  unfold play_card_draw_effects.
  destruct (str_eq (rank card) "6").
  - destruct (forced_draw g _ room) as [[r1 c1] s1] eqn:E1. intros [= <- <- <- <- <-].
    by eapply forced_draw_last.
  - destruct (str_eq (rank card) "7"); [|by intros [= <- <- <- <- <-]].
    destruct (forced_draw g _ room) as [[r1 c1] s1] eqn:E1.
    destruct (forced_draw g _ r1) as [[r2 c2] s2] eqn:E2. intros [= <- <- <- <- <-].
    rewrite (forced_draw_last _ _ _ _ _ _ E2). by eapply forced_draw_last.
Qed.

Lemma play_card_draw_effects_next g card room r nx fid fc sh :
  play_card_draw_effects g card room = (r, nx, fid, fc, sh) ->
  let n := length (players room) in
  let nxt := (current_player_index room + 1) mod n in
  nx = if str_eq (rank card) "6" || str_eq (rank card) "7" then (nxt + 1) mod n else nxt.
Proof.
  unfold play_card_draw_effects, player_ids. rewrite length_map.
  destruct (str_eq (rank card) "6"); simpl.
  - destruct (forced_draw g _ room) as [[r1 c1] s1]. by intros [= <- <- <- <- <-].
  - destruct (str_eq (rank card) "7"); [|by intros [= <- <- <- <- <-]].
    destruct (forced_draw g _ room) as [[r1 c1] s1].
    destruct (forced_draw g _ r1) as [[r2 c2] s2]. by intros [= <- <- <- <- <-].
Qed.

Lemma play_card_late_effects_frame card chosen nx room r nx' :
  play_card_late_effects card chosen nx room = (r, nx') ->
  room_id r = room_id room /\ players r = players room /\ deck r = deck room /\
  discard_pile r = discard_pile room /\ game_started r = game_started room /\
  deck_size r = deck_size room /\ dealer_index r = dealer_index room /\
  nx' = (if str_eq (rank card) "A" then (nx + 1) mod length (players room) else nx).
Proof.
  unfold play_card_late_effects, player_ids. rewrite length_map.
  destruct (str_eq (rank card) "A"); [by intros [= <- <-]|].
  destruct (_ && _); [by intros [= <- <-]|].
  destruct (str_eq (rank card) "Q"); [|by intros [= <- <-]].
  destruct (truthy chosen); by intros [= <- <-].
Qed.

Lemma frame_length r r' : frame r r' -> length (players r') = length (players r).
Proof.
  intros (_ & Hids & _). unfold player_ids in Hids.
  by rewrite <- (length_map fst (players r')), Hids, length_map.
Qed.

Lemma play_card_move_length pid card room :
  length (players (play_card_move pid card room)) = length (players room).
Proof.
  pose proof (play_card_move_ids pid card room) as H. unfold player_ids in H.
  by rewrite <- (length_map fst (players (play_card_move _ _ _))), H, length_map.
Qed.

Lemma play_card_move_last pid card room :
  last (discard_pile (play_card_move pid card room)) = Some card.
Proof. unfold play_card_move. destruct (negb _); simpl; apply last_snoc. Qed.

Lemma str_eq_ne a b c : str_eq a b = true -> b <> c -> str_eq a c = false.
Proof. intros ->%str_eq_true H. by apply str_eq_false. Qed.

(** X1: when [handle_play_card] carries a play out and the round goes on,
    the played card is the top of the discard pile (also when a 6 or a 7
    made the deck be reshuffled), the turn has moved on by one seat, and by
    two seats after a 6, a 7 or an A, and the draw latch of the turn is
    cleared. *)
Theorem play_card_advances_turn g ws rid pid cid chosen room r' out :
  play_card_room g ws rid pid cid chosen room = Accepted r' out ->
  exists card,
    (exists player, get_player pid (players room) = Some player /\
                    find_card cid (hand player) = Some card) /\
    last (discard_pile r') = Some card /\
    length (players r') = length (players room) /\
    current_player_index r' =
      (if skips_a_seat card
       then ((current_player_index room + 1) mod length (players room) + 1)
              mod length (players room)
       else (current_player_index room + 1) mod length (players room)) /\
    card_drawn_this_turn r' = false.
Proof.
  intros H. apply play_card_room_Accepted in H
    as (player & card & top & room1 & r4 & nx & fid & fc & sh & r5 & nx' &
        Hcur & Hp & Hc & Ht & Hk & E4 & E5 & ->).
  exists card. split; [by exists player|].
  apply play_card_check_inr in Hk as (Hps & _ & _ & Hidx & _).
  pose proof (play_card_draw_effects_last _ _ _ _ _ _ _ _ E4) as Hlast.
  pose proof (play_card_draw_effects_next _ _ _ _ _ _ _ _ E4) as Hnx. simpl in Hnx.
  pose proof (frame_length _ _ (play_card_draw_effects_frame _ _ _ _ _ _ _ _ E4)) as Hlen.
  rewrite play_card_move_length, Hps in Hlen.
  rewrite play_card_move_length, Hps in Hnx.
  destruct (play_card_move_frame pid card room1) as (Hi & _). rewrite Hi, Hidx in Hnx.
  apply play_card_late_effects_frame in E5 as (_ & Hps5 & _ & Hd5 & _ & _ & _ & Hnx').
  simpl. rewrite Hd5, Hlast, play_card_move_last, Hps5, Hlen.
  repeat split. subst nx'. rewrite Hlen. subst nx. unfold skips_a_seat.
  destruct (str_eq (rank card) "6") eqn:E6.
  { simpl. by rewrite (str_eq_ne _ _ "A" E6). }
  destruct (str_eq (rank card) "7") eqn:E7.
  { simpl. by rewrite (str_eq_ne _ _ "A" E7). }
  simpl. by destruct (str_eq (rank card) "A").
Qed.

(** ** A winning play *)

Lemma set_hand_app_nil p : set_hand (hand p ++ []) p = p.
Proof. destruct p. unfold set_hand. simpl. by rewrite app_nil_r. Qed.

Lemma play_card_check_legal ws card top_card room :
  chosen_suit room <> Some "" ->
  is_legal card top_card (chosen_suit room) (waiting_for_eight room)
    (default ∅ (eight_drawn_cards room)) ->
  exists room1, play_card_check ws card top_card room = inr room1.
Proof.
  intros Hcs. unfold play_card_check, is_legal.
  destruct (waiting_for_eight room) eqn:Hw.
  - destruct (str_eq_spec (rank card) "2") as [H2|H2]; simpl; [by eauto|].
    destruct (eight_drawn_cards room) as [ids|]; simpl.
    + case_bool_decide as Hd; simpl; [by eauto|]. by intros [?|?].
    + intros [?|?]; [done|]. set_solver.
  - intros Hl.
    assert (can_play_card card top_card (chosen_suit room) false = true) as ->.
    { apply can_play_card_legal; [done|]. exact Hl. }
    simpl. eauto.
Qed.

(** One forced draw takes a card whenever the draw pile, or the discard
    pile under its top card, has one. *)
Lemma forced_draw_takes g pid room r n sh :
  Random_ok g -> forced_draw g pid room = (r, n, sh) ->
  exists drawn,
    length drawn = n /\
    n = Nat.min 1 (length (deck room) + (length (discard_pile room) - 1)) /\
    length (deck r) + length (discard_pile r) + n
      = length (deck room) + length (discard_pile room) /\
    (discard_pile room <> [] -> discard_pile r <> []) /\
    forall k, get_player k (players r) =
      (if str_eq pid k then fun p => set_hand (hand p ++ drawn) p else fun p => p)
        <$> get_player k (players room).
Proof.
  intros Hg. unfold forced_draw.
  destruct (replenish_deck g room) as [r1 s1] eqn:E1.
  destruct (replenish_deck_cases g room r1 s1 Hg E1) as (_ & Hps & Hlast & Hlen & Hnil).
  unfold draw_to. destruct (pop (deck r1)) as [[c d]|] eqn:Hpop.
  - intros [= <- <- <-]. apply pop_Some in Hpop. exists [c].
    split; [done|].
    assert (length (deck r1) = S (length d)) as Hd.
    { rewrite Hpop, length_app. simpl. lia. }
    assert (length (discard_pile r1) = 0 <-> length (discard_pile room) = 0) as Hne.
    { rewrite !length_zero_iff_nil, <- !last_None, Hlast. done. }
    cbn [deck discard_pile set_players set_deck].
    split; [lia|]. split; [lia|].
    split. { rewrite <- !length_zero_iff_nil. lia. }
    intros k. cbn [players set_players]. rewrite get_player_update.
    change (players (set_deck d r1)) with (players r1). rewrite Hps. done.
  - intros [= <- <- <-]. apply pop_None in Hpop.
    destruct (Hnil Hpop) as (Hd & Hl & ->). exists [].
    split; [done|]. rewrite Hd. cbn [length]. split; [lia|]. split; [lia|]. split; [done|].
    intros k. destruct (get_player k (players room)) as [p|]; simpl;
      destruct (str_eq pid k); [|done..]. by rewrite set_hand_app_nil.
Qed.

Lemma play_card_draw_effects_count g card room r nx fid fc sh :
  Random_ok g -> discard_pile room <> [] ->
  play_card_draw_effects g card room = (r, nx, fid, fc, sh) ->
  exists drawn,
    length drawn = Nat.min (forced_draw_cards card)
                     (length (deck room) + (length (discard_pile room) - 1)) /\
    fc = length drawn /\
    length (deck r) + length (discard_pile r) + length drawn
      = length (deck room) + length (discard_pile room) /\
    (forall k, get_player k (players r) =
       (if str_eq (id_at room ((current_player_index room + 1) mod length (players room))) k
        then fun p => set_hand (hand p ++ drawn) p else fun p => p)
         <$> get_player k (players room)) /\
    (forced_draw_cards card = 0 -> r = room).
Proof.
  intros Hg Hne. unfold play_card_draw_effects, forced_draw_cards, player_ids.
  rewrite length_map.
  set (next := id_at room _).
  assert (1 <= length (discard_pile room)) as Hl.
  { destruct (discard_pile room); [done|simpl; lia]. }
  destruct (str_eq (rank card) "6").
  - destruct (forced_draw g next room) as [[r1 c1] s1] eqn:E1. intros [= <- <- <- <- <-].
    destruct (forced_draw_takes _ _ _ _ _ _ Hg E1) as (drawn & Hn & Hmin & Htot & _ & Hps).
    exists drawn. split; [lia|]. split; [done|]. split; [lia|]. split; [done|]. done.
  - destruct (str_eq (rank card) "7"); [|intros [= <- <- <- <- <-]].
    + destruct (forced_draw g next room) as [[r1 c1] s1] eqn:E1.
      destruct (forced_draw g next r1) as [[r2 c2] s2] eqn:E2. intros [= <- <- <- <- <-].
      destruct (forced_draw_takes _ _ _ _ _ _ Hg E1) as (d1 & Hn1 & Hmin1 & Htot1 & Hne1 & Hps1).
      destruct (forced_draw_takes _ _ _ _ _ _ Hg E2) as (d2 & Hn2 & Hmin2 & Htot2 & _ & Hps2).
      assert (1 <= length (discard_pile r1)) as Hl1.
      { specialize (Hne1 Hne). destruct (discard_pile r1); [done|simpl; lia]. }
      exists (d1 ++ d2). rewrite length_app.
      split; [lia|]. split; [lia|]. split; [lia|]. split; [|done].
      intros k. rewrite Hps2, Hps1.
      destruct (get_player k (players room)) as [p|]; simpl; [|done].
      destruct (str_eq next k); [|done]. unfold set_hand. simpl. by rewrite app_assoc.
    + exists []. simpl. split; [done|]. split; [done|]. split; [lia|]. split; [|done].
      intros k. destruct (get_player k (players room)) as [p|]; simpl;
        destruct (str_eq next k); [|done..]. by rewrite set_hand_app_nil.
Qed.

Lemma next_seat_differs room pid :
  NoDup (player_ids room) -> 2 <= length (players room) ->
  player_ids room !! current_player_index room = Some pid ->
  let i := (current_player_index room + 1) mod length (players room) in
  player_ids room !! i = Some (id_at room i) /\ id_at room i <> pid.
Proof.
  intros Hnd Hn Hcur i.
  assert (length (player_ids room) = length (players room)) as Hlen.
  { unfold player_ids. by rewrite length_map. }
  assert (current_player_index room < length (players room)) as Hlt.
  { rewrite <- Hlen. by eapply lookup_lt_Some. }
  assert (i < length (players room)) as Hi by (apply Nat.mod_upper_bound; lia).
  destruct (lookup_lt_is_Some_2 (player_ids room) i) as [nxt Hnxt]; [lia|].
  unfold id_at. rewrite Hnxt. simpl. split; [done|]. intros ->.
  pose proof (NoDup_lookup _ _ _ _ Hnd Hnxt Hcur) as Heq.
  subst i. destruct (decide (current_player_index room + 1 = length (players room))) as [E|E].
  - rewrite E, Nat.Div0.mod_same in Heq. lia.
  - rewrite Nat.mod_small in Heq by lia. lia.
Qed.

(** C1 (as amended): a legal play that empties the hand of the seat to move
    ends the round at once: [handle_play_card] hands the room to
    [handle_game_end], which sends [game_ended] with that card to every
    seat; the turn is not advanced and no 8-chain is pending.  The 6 / 7
    draw effect comes before the win check: the seat after the winner has
    drawn one card (6) or two cards (7), or as many as the draw pile and the
    discard pile under its top card held when these were fewer; after any
    other card (8, A, Q included) nothing is drawn and the draw pile is as
    it was.  Every further seat is untouched. *)
Theorem winning_play_effects g ws rid pid cid chosen room player card top_card :
  Random_ok g ->
  NoDup (player_ids room) -> 2 <= length (players room) ->
  player_ids room !! current_player_index room = Some pid ->
  get_player pid (players room) = Some player ->
  find_card (Some cid) (hand player) = Some card ->
  last (discard_pile room) = Some top_card ->
  chosen_suit room <> Some "" ->
  is_legal card top_card (chosen_suit room) (waiting_for_eight room)
    (default ∅ (eight_drawn_cards room)) ->
  list_remove card (hand player) = [] ->
  let next := id_at room ((current_player_index room + 1) mod length (players room)) in
  exists room' drawn,
    play_card_room g ws rid pid (Some cid) chosen room = RoundOver room' pid /\
    (forall s bot_id room_id,
       resolve_room s ws bot_id room_id = Some (pid, rid, room) ->
       handle_play_card g s ws (Some cid) chosen bot_id room_id =
         Return (handle_game_end (put_room rid room' s) rid pid).1
                (handle_game_end (put_room rid room' s) rid pid).2 /\
       forall k, k ∈ player_ids room ->
         exists results,
           SendToPlayer k (ev_game_ended pid (Some card) results)
             ∈ (handle_game_end (put_room rid room' s) rid pid).2) /\
    current_player_index room' = current_player_index room /\
    waiting_for_eight room' = false /\
    last (discard_pile room') = Some card /\
    get_player pid (players room') = Some (set_hand [] player) /\
    length drawn = Nat.min (forced_draw_cards card)
                     (length (deck room) + length (discard_pile room)) /\
    (forall q, get_player next (players room) = Some q ->
               get_player next (players room') = Some (set_hand (hand q ++ drawn) q)) /\
    (forall k, k <> pid -> k <> next ->
               get_player k (players room') = get_player k (players room)) /\
    length (deck room') + length (discard_pile room') + length drawn
      = length (deck room) + length (discard_pile room) + 1 /\
    (rank card <> "6" -> rank card <> "7" ->
     deck room' = deck room /\ discard_pile room' = discard_pile room ++ [card]).
Proof.
  intros Hg Hnd Hn Hcur Hp Hc Htop Hcs Hlegal Hlast next.
  destruct (next_seat_differs room pid Hnd Hn Hcur) as [Hnext Hne]. fold next in Hnext, Hne.
  destruct (play_card_check_legal ws card top_card room Hcs Hlegal) as [room1 Hk].
  destruct (play_card_check_inr _ _ _ _ _ Hk) as (Hps & Hdeck & Hdp & Hidx & Hw).
  set (room3 := play_card_move pid card room1).
  destruct (play_card_move_frame pid card room1) as (Hmidx & Hmw & Hmdeck). fold room3 in Hmidx, Hmw, Hmdeck.
  assert (discard_pile room3 = discard_pile room ++ [card]) as Hmdp.
  { subst room3. unfold play_card_move. rewrite <- Hdp. by destruct (negb _). }
  assert (forall k, get_player k (players room3) =
            (if str_eq pid k then fun p => set_hand (list_remove card (hand p)) p
             else fun p => p) <$> get_player k (players room)) as Hmps.
  { intros k. subst room3. unfold play_card_move. rewrite <- Hps.
    destruct (negb _); simpl; apply get_player_update. }
  assert (length (players room3) = length (players room)) as Hmlen.
  { subst room3. by rewrite play_card_move_length, Hps. }
  assert (player_ids room3 = player_ids room) as Hmids.
  { subst room3. rewrite play_card_move_ids. unfold player_ids. by rewrite Hps. }
  destruct (play_card_draw_effects g card room3) as [[[[r4 nx] fid] fc] sh] eqn:E4.
  destruct (play_card_draw_effects_count _ _ _ _ _ _ _ _ Hg
              ltac:(rewrite Hmdp; by destruct (discard_pile room)) E4)
    as (drawn & Hlen & _ & Htot & Hps4 & Hnone).
  pose proof (play_card_draw_effects_frame _ _ _ _ _ _ _ _ E4)
    as (_ & _ & H4idx & _ & _ & _ & H4w & _).
  pose proof (play_card_draw_effects_last _ _ _ _ _ _ _ _ E4) as H4last.
  unfold room3 in H4last. rewrite play_card_move_last in H4last.
  assert (id_at room3 ((current_player_index room3 + 1) mod length (players room3)) = next)
    as Hnx.
  { unfold id_at. by rewrite Hmids, Hmidx, Hidx, Hmlen. }
  rewrite Hnx in Hps4.
  assert (get_player pid (players r4) = Some (set_hand [] player)) as Hp4.
  { rewrite Hps4, Hmps, Hp, str_eq_refl. simpl.
    rewrite (proj2 (str_eq_false _ _) Hne). by rewrite Hlast. }
  assert (play_card_room g ws rid pid (Some cid) chosen room = RoundOver r4 pid) as Hplay.
  { unfold play_card_room. rewrite Hcur, str_eq_refl, Hp, Hc, Htop, Hk. simpl.
    unfold play_card_apply. fold room3. rewrite E4, Hp4. done. }
  exists r4, drawn. split; [done|]. split.
  { intros s bot_id room_id Hres. split.
    - unfold handle_play_card. rewrite Hres, Hplay.
      by destruct (handle_game_end (put_room rid r4 s) rid pid).
    - intros k Hin. unfold handle_game_end. simpl. rewrite lookup_insert_eq.
      assert (k ∈ player_ids r4) as Hr.
      { pose proof (play_card_draw_effects_ids _ _ _ _ _ _ _ _ E4) as H4ids. congruence. }
      apply (game_end_room_ended rid pid) in Hr.
      exists (tally pid r4).2. rewrite H4last in Hr.
      clear -Hr.
      destruct (game_end_room rid pid r4) as [rc out|rn kicked out]; simpl in *;
        apply elem_of_app; by left. }
  split; [congruence|]. split; [congruence|].
  split; [done|]. split; [done|].
  split.
  { rewrite Hlen, Hmdeck, Hdeck, Hmdp, length_app. simpl. f_equal. lia. }
  split.
  { intros q Hq. rewrite Hps4, Hmps, Hq, str_eq_refl. simpl.
    assert (str_eq pid next = false) as -> by (apply str_eq_false; congruence). done. }
  split.
  { intros k Hk1 Hk2. rewrite Hps4, Hmps.
    assert (str_eq pid k = false) as -> by (apply str_eq_false; congruence).
    assert (str_eq next k = false) as -> by (apply str_eq_false; congruence).
    by destruct (get_player k (players room)). }
  split.
  { rewrite Htot, Hmdeck, Hdeck, Hmdp, length_app. simpl. lia. }
  intros H6%str_eq_false H7%str_eq_false.
  rewrite Hnone by (unfold forced_draw_cards; by rewrite H6, H7).
  split; congruence.
Qed.

(** Seat a wins with a 7 of hearts when the draw pile is empty and only the
    7 of clubs lies on the table. *)
Lemma winning_play_effects_witness :
  exists room' drawn,
    play_card_room g0 None "r" "a" (Some "c1") None
      (table [seat "a" [c7h] 0 false; seat "b" [c9d; cKs] 0 true] [] [c7c] 0 52)
      = RoundOver room' "a" /\
    length drawn = 1 /\
    get_player "b" (players room')
      = Some (set_hand ([c9d; cKs] ++ drawn) (snd (seat "b" [c9d; cKs] 0 true))).
Proof.
  destruct (winning_play_effects g0 None "r" "a" "c1" None
              (table [seat "a" [c7h] 0 false; seat "b" [c9d; cKs] 0 true] [] [c7c] 0 52)
              (snd (seat "a" [c7h] 0 false)) c7h c7c)
    as (room' & drawn & Hplay & _ & _ & _ & _ & _ & Hlen & Hnext & _).
  - exact g0_ok.
  - apply NoDup_cons. split; [|apply NoDup_singleton].
    intros H%list_elem_of_singleton. discriminate H.
  - simpl. lia.
  - reflexivity.
  - reflexivity.
  - reflexivity.
  - reflexivity.
  - simpl. discriminate.
  - simpl. right. right. reflexivity.
  - reflexivity.
  - exists room', drawn. split; [exact Hplay|]. split; [exact Hlen|].
    apply Hnext. reflexivity.
Defined.

(** C1, the claim as written fails for a winning 6: seat b has drawn the
    last card of the deck before the tally. *)
Lemma winning_six_makes_next_draw : ~ winning_card_has_no_effect.
Proof.
  intros H.
  destruct (H g0 None "r" "a" "c4" None room_win6
              (table [seat "a" [] 0 false; seat "b" [c9d; c3c] 0 true] [] [c7h; c6h] 0 52)
              "a") as [Hdeck _]; [reflexivity|].
  discriminate Hdeck.
Qed.

(** ** What a turn leaves alone *)

Lemma same_table_refl r : same_table r r.
Proof. by repeat split. Qed.

Lemma same_table_trans r1 r2 r3 : same_table r1 r2 -> same_table r2 r3 -> same_table r1 r3.
Proof. unfold same_table. intros H1 H2. intuition congruence. Qed.

Lemma standings_update pid f ps :
  (forall p, nickname (f p) = nickname p /\ ready (f p) = ready p /\
             score (f p) = score p /\ is_bot (f p) = is_bot p) ->
  map standing (update_player pid f ps) = map standing ps.
Proof.
  intros Hf. induction ps as [|[k p] ps IH]; simpl; [done|].
  destruct (str_eq k pid); simpl; [|by rewrite IH].
  unfold standing. simpl. destruct (Hf p) as (-> & -> & -> & ->). done.
Qed.

Lemma replenish_deck_same_table g room r b :
  replenish_deck g room = (r, b) -> same_table room r.
Proof.
  unfold replenish_deck.
  destruct (_ && _); [|intros [= <- <-]; apply same_table_refl].
  destruct (last _); intros [= <- <-]; by repeat split.
Qed.

Lemma draw_to_same_table pid room r n : draw_to pid room = (r, n) -> same_table room r.
Proof.
  unfold draw_to. destruct (pop _) as [[c d]|]; intros [= <- <-];
    [|apply same_table_refl].
  repeat split. unfold standings. simpl. by apply standings_update.
Qed.

Lemma forced_draw_same_table g pid room r n b :
  forced_draw g pid room = (r, n, b) -> same_table room r.
Proof.
  unfold forced_draw.
  destruct (replenish_deck g room) as [r1 sh] eqn:E1.
  destruct (draw_to pid r1) as [r2 m] eqn:E2. intros [= <- <- <-].
  eapply same_table_trans; [by eapply replenish_deck_same_table|by eapply draw_to_same_table].
Qed.

Lemma play_card_draw_effects_same_table g card room r nx fid fc sh :
  play_card_draw_effects g card room = (r, nx, fid, fc, sh) -> same_table room r.
Proof.
  unfold play_card_draw_effects.
  destruct (str_eq (rank card) "6").
  - destruct (forced_draw g _ room) as [[r1 c1] s1] eqn:E1. intros [= <- <- <- <- <-].
    by eapply forced_draw_same_table.
  - destruct (str_eq (rank card) "7"); [|intros [= <- <- <- <- <-]; apply same_table_refl].
    destruct (forced_draw g _ room) as [[r1 c1] s1] eqn:E1.
    destruct (forced_draw g _ r1) as [[r2 c2] s2] eqn:E2. intros [= <- <- <- <- <-].
    eapply same_table_trans; by eapply forced_draw_same_table.
Qed.

Lemma play_card_move_same_table pid card room :
  same_table room (play_card_move pid card room).
Proof.
  unfold play_card_move.
  destruct (negb _); repeat split; unfold standings; simpl; by apply standings_update.
Qed.

Lemma play_card_check_same_table ws card top room :
  match play_card_check ws card top room with
  | inl early => room_of early = room
  | inr room1 => same_table room room1
  end.
Proof.
  unfold play_card_check. destruct (waiting_for_eight room).
  - destruct (_ && _); [by destruct ws|].
    unfold clear_eight_drawn_cards. simpl. by destruct (eight_drawn_cards room).
  - destruct (negb _); [done|apply same_table_refl].
Qed.

Lemma play_card_late_effects_same_table card chosen nx room r nx' :
  play_card_late_effects card chosen nx room = (r, nx') -> same_table room r.
Proof.
  unfold play_card_late_effects.
  destruct (str_eq (rank card) "A"); [by intros [= <- <-]|].
  destruct (_ && _); [by intros [= <- <-]|].
  destruct (str_eq (rank card) "Q"); [|by intros [= <- <-]].
  destruct (truthy chosen); by intros [= <- <-].
Qed.

Lemma play_card_room_same_table g ws rid pid cid chosen room :
  same_table room (room_of (play_card_room g ws rid pid cid chosen room)).
Proof.
  unfold play_card_room.
  destruct (player_ids room !! current_player_index room) as [cur|];
    [|apply same_table_refl].
  destruct (negb (str_eq cur pid)); [apply same_table_refl|].
  destruct (get_player pid (players room)) as [player|]; [|apply same_table_refl].
  destruct (find_card cid (hand player)) as [card|]; [|apply same_table_refl].
  destruct (last (discard_pile room)) as [top_card|]; [|apply same_table_refl].
  pose proof (play_card_check_same_table ws card top_card room) as Hk.
  destruct (play_card_check ws card top_card room) as [early|room1].
  { rewrite Hk. apply same_table_refl. }
  eapply same_table_trans; [exact Hk|].
  eapply same_table_trans; [apply (play_card_move_same_table pid card)|].
  unfold play_card_apply.
  destruct (play_card_draw_effects g card (play_card_move pid card room1))
    as [[[[r4 nx] fid] fc] sh] eqn:Heff.
  apply play_card_draw_effects_same_table in Heff.
  destruct (get_player pid (players r4)) as [p4|]; [|done].
  destruct (length (hand p4) =? 0); [done|].
  destruct (play_card_late_effects card chosen nx r4) as [r5 nx'] eqn:Hlate.
  apply play_card_late_effects_same_table in Hlate. simpl.
  eapply same_table_trans; [exact Heff|]. eapply same_table_trans; [exact Hlate|].
  by repeat split.
Qed.

Lemma eight_draw_loop_same_table g fuel pid room drawn sh r drawn' sh' :
  eight_draw_loop g fuel pid room drawn sh = (r, drawn', sh') -> same_table room r.
Proof.
  revert room drawn sh.
  induction fuel as [|fuel IH]; intros room drawn sh.
  { intros [= <- <- <-]. apply same_table_refl. }
  rewrite eight_draw_loop_S.
  destruct (replenish_deck g room) as [room1 shuffled] eqn:Hrep.
  apply replenish_deck_same_table in Hrep.
  destruct (pop (deck room1)) as [[card deck']|] eqn:Hpop;
    [|by intros [= <- <- <-]].
  destruct (last (discard_pile room1)) as [top|]; [|by intros [= <- <- <-]].
  assert (same_table room1
            (set_players (update_player pid (hand_append card) (players room1))
               (set_deck deck' room1))) as Hc2.
  { apply (draw_to_same_table pid room1 _ 1). unfold draw_to. by rewrite Hpop. }
  destruct (eight_match card top).
  - intros [= <- <- <-]. by eapply same_table_trans.
  - intros Hloop. apply IH in Hloop.
    eapply same_table_trans; [exact Hrep|]. by eapply same_table_trans.
Qed.

Lemma eight_draw_finish_same_table room drawn : same_table room (eight_draw_finish room drawn).
Proof.
  unfold eight_draw_finish, eight_chain_drop.
  destruct (last drawn); [|by repeat split].
  destruct (negb _); by repeat split.
Qed.

Lemma draw_card_room_same_table g ws bot_id rid pid room :
  same_table room (room_of (draw_card_room g ws bot_id rid pid room)).
Proof.
  unfold draw_card_room.
  destruct (player_ids room !! current_player_index room) as [cur|];
    [|apply same_table_refl].
  destruct (negb (str_eq cur pid)); [apply same_table_refl|].
  destruct (waiting_for_eight room).
  - destruct (eight_draw_used room); [apply same_table_refl|].
    destruct (eight_draw_loop _ _ _ _ _ _) as [[r2 drawn] sh] eqn:Hloop. simpl.
    apply eight_draw_loop_same_table in Hloop.
    eapply same_table_trans; [|apply eight_draw_finish_same_table].
    eapply same_table_trans; [|exact Hloop]. by repeat split.
  - destruct (card_drawn_this_turn room).
    { destruct ws; apply same_table_refl. }
    destruct (replenish_deck g room) as [r1 sh] eqn:Hrep.
    apply replenish_deck_same_table in Hrep.
    destruct (pop (deck r1)) as [[c d]|] eqn:Hpop; [|by destruct ws].
    simpl. eapply same_table_trans; [exact Hrep|].
    assert (same_table r1
              (set_players (update_player pid (hand_append c) (players r1))
                 (set_deck d r1))) as Hc2.
    { apply (draw_to_same_table pid r1 _ 1). unfold draw_to. by rewrite Hpop. }
    eapply same_table_trans; [exact Hc2|]. by repeat split.
Qed.

Lemma skip_turn_room_same_table ws rid pid room :
  same_table room (room_of (skip_turn_room ws rid pid room)).
Proof.
  unfold skip_turn_room.
  destruct (player_ids room !! current_player_index room) as [cur|];
    [|apply same_table_refl].
  destruct (negb (str_eq cur pid)); [apply same_table_refl|].
  destruct (waiting_for_eight room); [apply same_table_refl|].
  destruct (negb (card_drawn_this_turn room)); [apply same_table_refl|].
  by repeat split.
Qed.

(** X2: a turn changes nobody's score, ready flag, nickname or seat, and
    neither the dealer, the deck size, the creator, the privacy nor the
    started flag of the room, whatever [handle_play_card] (up to the round
    tally), [handle_draw_card] and [handle_skip_turn] answer. *)
Theorem turn_handlers_keep_the_table g ws bot_id rid pid cid chosen room :
  same_table room (room_of (play_card_room g ws rid pid cid chosen room)) /\
  same_table room (room_of (draw_card_room g ws bot_id rid pid room)) /\
  same_table room (room_of (skip_turn_room ws rid pid room)).
Proof.
  split; [|split].
  - apply play_card_room_same_table.
  - apply draw_card_room_same_table.
  - apply skip_turn_room_same_table.
Qed.

(** ** The deal *)

Lemma get_player_elem pid ps p : get_player pid ps = Some p -> (pid, p) ∈ ps.
Proof.
  induction ps as [|[k q] ps IH]; simpl; [done|].
  destruct (str_eq k pid) eqn:E.
  - apply str_eq_true in E as ->. intros [= ->]. apply elem_of_cons. by left.
  - intros H. apply elem_of_cons. right. by apply IH.
Qed.

Lemma deal_hands ps d ps' d' :
  deal ps d = (ps', d', true) ->
  Forall (fun kp : string * Player => length (hand (snd kp)) = 5) ps' /\
  map standing ps' = map standing ps.
Proof.
  revert d ps' d'. induction ps as [|[k p] ps IH]; intros d ps' d'.
  - by intros [= <- <-].
  - rewrite deal_cons.
    destruct (pop_list 5 d) as [[h|] d1] eqn:Hpop; [|done].
    destruct (deal ps d1) as [[ps1 d2] ok] eqn:Hdeal. intros [= <- <- ->].
    apply IH in Hdeal as (Hh & Hk). apply pop_list_length in Hpop.
    split; [by constructor|]. simpl. by rewrite Hk.
Qed.

Lemma index_of_lt pid ids :
  str_in pid ids = true -> exists i, index_of pid ids = Some i /\ ids !! i = Some pid.
Proof.
  induction ids as [|k ids IH]; simpl; [done|].
  replace (str_eq pid k) with (str_eq k pid) by (unfold str_eq; apply String.eqb_sym).
  destruct (str_eq k pid) eqn:E; simpl.
  - intros _. exists 0. apply str_eq_true in E as ->. done.
  - intros H. destruct (IH H) as (i & -> & Hi). by exists (S i).
Qed.

Lemma forced_draw_nonempty g pid room d c :
  deck room = d ++ [c] ->
  forced_draw g pid room =
    (set_players (update_player pid (hand_append c) (players room)) (set_deck d room),
     1, false).
Proof.
  intros Hd. unfold forced_draw.
  rewrite replenish_deck_noop by (left; rewrite Hd; by destruct d).
  unfold draw_to. by rewrite (proj2 (pop_Some _ _ _) Hd).
Qed.

Lemma list_snoc_length {A} (l : list A) n :
  length l = S n -> exists l' x, l = l' ++ [x] /\ length l' = n.
Proof.
  intros H. destruct (pop l) as [[x l']|] eqn:E.
  - apply pop_Some in E as ->. exists l', x. split; [done|].
    rewrite length_app in H. simpl in H. lia.
  - apply pop_None in E as ->. done.
Qed.

(** The room as [start_game] leaves it when the first table card is known:
    one case per kind of first card. *)
Lemma first_card_effects_shape g first room d c1 c2 :
  deck room = d ++ [c2; c1] ->
  current_player_index room < length (players room) ->
  exists r fid fc sh,
    first_card_effects g first room = (r, fid, fc, sh) /\
    same_table room r /\
    discard_pile r = discard_pile room /\
    length (players r) = length (players room) /\
    current_player_index r =
      (if skips_a_seat first
       then (current_player_index room + 1) mod length (players room)
       else current_player_index room) /\
    card_drawn_this_turn r = card_drawn_this_turn room /\
    forall pid,
      length ∘ hand <$> get_player pid (players r) =
      (fun p => if str_eq (id_at room (current_player_index room)) pid
                then length (hand p) + first_card_draws first
                else length (hand p)) <$> get_player pid (players room).
Proof.
  intros Hd Hcur. unfold first_card_effects, skips_a_seat, first_card_draws, player_ids.
  rewrite length_map.
  set (victim := id_at room (current_player_index room)).
  destruct (str_eq (rank first) "6") eqn:E6.
  { rewrite (forced_draw_nonempty g victim room (d ++ [c2]) c1)
      by (by rewrite Hd, <- app_assoc).
    eexists _, _, _, _. split; [done|]. simpl.
    split; [repeat split; unfold standings; simpl; apply standings_update; by intros []|].
    rewrite update_player_length. repeat split.
    intros pid. rewrite get_player_update.
    destruct (get_player pid (players room)) as [p|]; [|done]. simpl.
    destruct (str_eq victim pid); simpl; [|done].
    rewrite length_app. simpl. done. }
  destruct (str_eq (rank first) "7") eqn:E7.
  { rewrite (forced_draw_nonempty g victim room (d ++ [c2]) c1)
      by (by rewrite Hd, <- app_assoc).
    rewrite (forced_draw_nonempty g victim _ d c2) by done.
    eexists _, _, _, _. split; [done|]. simpl.
    split.
    { repeat split. unfold standings. simpl.
      rewrite !standings_update; [done|by intros []..]. }
    rewrite !update_player_length. repeat split.
    intros pid. rewrite !get_player_update.
    destruct (get_player pid (players room)) as [p|]; [|done]. simpl.
    destruct (str_eq victim pid); simpl; [|done].
    rewrite !length_app. simpl. f_equal. lia. }
  simpl.
  assert (forall pid,
            length ∘ hand <$> get_player pid (players room) =
            (fun p => if str_eq victim pid then length (hand p) + 0 else length (hand p))
              <$> get_player pid (players room)) as Hsame.
  { intros pid. destruct (get_player pid (players room)); [|done]. simpl.
    destruct (str_eq victim pid); [|done]. f_equal. lia. }
  destruct (_ && _) eqn:E8.
  { apply andb_true_iff in E8 as [E8 _].
    rewrite (str_eq_ne _ _ "A" E8) by done.
    eexists _, _, _, _. split; [done|]. simpl. by repeat split. }
  destruct (str_eq (rank first) "A").
  { eexists _, _, _, _. split; [done|]. simpl. by repeat split. }
  destruct (str_eq (rank first) "Q");
    (eexists _, _, _, _; split; [done|]; simpl; by repeat split).
Qed.

Lemma start_game_room_Accepted g rid room :
  Random_ok g ->
  1 <= length (players room) <= 4 ->
  deck_size room = 36 \/ deck_size room = 52 ->
  exists r' out first,
    start_game_room g rid room = Accepted r' out /\
    game_started r' = true /\
    standings r' = standings room /\
    deck_size r' = deck_size room /\
    card_drawn_this_turn r' = card_drawn_this_turn room /\
    discard_pile r' = [first] /\
    dealer_index r' < length (players room) /\
    (forall l, last_loser_id room = Some l -> l <> "" -> l ∈ player_ids room ->
               player_ids room !! dealer_index r' = Some l) /\
    current_player_index r' =
      (if skips_a_seat first
       then ((dealer_index r' + 1) mod length (players room) + 1) mod length (players room)
       else (dealer_index r' + 1) mod length (players room)) /\
    length (players r') = length (players room) /\
    forall pid p,
      get_player pid (players r') = Some p ->
      length (hand p) =
        if str_eq (id_at room ((dealer_index r' + 1) mod length (players room))) pid
        then 5 + first_card_draws first else 5.
Proof.
  intros Hg [Hn1 Hn4] Hsz. unfold start_game_room.
  set (room1 := set_deck _ _).
  assert (length (deck room1) = deck_size room) as Hd1.
  { subst room1. simpl. rewrite create_deck_length by done.
    destruct Hsz as [-> | ->]; done. }
  destruct (deal_enough (players room1) (deck room1)) as (ps & d & Hdeal).
  { rewrite Hd1. subst room1. simpl. lia. }
  rewrite Hdeal. simpl.
  pose proof (deal_hands _ _ _ _ Hdeal) as (Hfive & Hstand).
  apply deal_total in Hdeal as (Htot & Hkeys & H5).
  assert (length ps = length (players room)) as Hps.
  { rewrite <- (length_map fst ps), Hkeys. subst room1. simpl. apply length_map. }
  assert (exists k, length d = S (S (S k))) as [k Hk].
  { exists (length d - 3). subst room1. simpl in *. lia. }
  destruct (list_snoc_length d _ Hk) as (d1 & first & -> & Hk1).
  destruct (list_snoc_length d1 _ Hk1) as (d2 & c1 & -> & Hk2).
  destruct (list_snoc_length d2 _ Hk2) as (d3 & c2 & -> & _).
  rewrite (proj2 (pop_Some _ _ _) eq_refl).
  set (room3 := set_discard_pile _ _).
  assert (player_ids room3 = player_ids room) as Hids3.
  { unfold player_ids. subst room3 room1. simpl. exact Hkeys. }
  assert (length (player_ids room) = length (players room)) as Hlen
    by (unfold player_ids; apply length_map).
  rewrite Hids3, Hlen.
  destruct (length (players room) =? 0) eqn:Hz; [apply Nat.eqb_eq in Hz; lia|].
  set (dealer := if _ && _ then _ else _).
  assert (dealer < length (players room) /\
          forall l, last_loser_id room = Some l -> l <> "" -> l ∈ player_ids room ->
                    player_ids room !! dealer = Some l) as [Hdealer Hloser].
  { subst dealer. change (last_loser_id room3) with (last_loser_id room).
    destruct (truthy (last_loser_id room) &&
              str_in (default "" (last_loser_id room)) (player_ids room)) eqn:E.
    - apply andb_true_iff in E as [_ E].
      destruct (index_of_lt _ _ E) as (i & -> & Hi). simpl.
      split; [apply lookup_lt_Some in Hi; lia|].
      intros l Hl _ _. by rewrite Hl in Hi.
    - split.
      + destruct (randint_range g Hg 0 (length (players room) - 1)); lia.
      + intros l Hl Hne Hin. rewrite Hl in E. simpl in E.
        apply str_eq_false in Hne. rewrite Hne in E. simpl in E.
        by rewrite (proj2 (str_in_elem l _) Hin) in E. }
  set (room4 := set_current_player_index _ _).
  destruct (first_card_effects_shape g first room4 d3 c1 c2)
    as (r5 & fid & fc & sh & -> & Hsame & Hdisc & Hlen5 & Hcur5 & Hlatch & Hhands).
  { subst room4 room3. simpl. by rewrite <- !app_assoc. }
  { subst room4 room3 room1. simpl. rewrite Hps. by apply Nat.mod_upper_bound; lia. }
  assert (length (players room4) = length (players room)) as Hlen4
    by (subst room4 room3 room1; simpl; exact Hps).
  rewrite Hlen4 in *.
  destruct Hsame as (Hst5 & _ & Hdl5 & Hgs5 & Hsz5 & _).
  eexists r5, _, first. split; [done|].
  split; [by rewrite Hgs5|]. split.
  { rewrite Hst5. unfold standings. subst room4 room3 room1. simpl. exact Hstand. }
  split; [by rewrite Hsz5|]. split; [by rewrite Hlatch|].
  split; [by rewrite Hdisc|].
  rewrite Hdl5. change (dealer_index room4) with dealer.
  change (current_player_index room4) with ((dealer + 1) mod length (players room)) in *.
  split; [done|]. split; [done|]. split; [done|]. split; [done|].
  intros pid p Hp. specialize (Hhands pid). rewrite Hp in Hhands. simpl in Hhands.
  change (players room4) with ps in Hhands.
  destruct (get_player pid ps) as [q|] eqn:Hq; [|done]. simpl in Hhands.
  apply get_player_elem in Hq.
  rewrite Forall_forall in Hfive. apply Hfive in Hq. simpl in Hq.
  injection Hhands as ->. rewrite Hq.
  assert (id_at room4 ((dealer + 1) mod length (players room)) =
          id_at room ((dealer + 1) mod length (players room))) as ->.
  { unfold id_at. change (player_ids room4) with (player_ids room3). by rewrite Hids3. }
  done.
Qed.

(** ** The seat to move *)

Lemma same_table_length r r' : same_table r r' -> length (players r') = length (players r).
Proof.
  intros (Hst & _). unfold standings in Hst.
  by rewrite <- (length_map standing (players r')), Hst, length_map.
Qed.

Lemma turn_ok_keep r r' :
  same_table r r' ->
  current_player_index r' = current_player_index r \/
    current_player_index r' < length (players r') ->
  turn_ok r -> turn_ok r'.
Proof.
  intros Hsame Hidx Hok Hst. pose proof (same_table_length _ _ Hsame) as Hlen.
  destruct Hsame as (_ & _ & _ & Hgs & _). rewrite Hgs in Hst.
  destruct Hidx as [-> | H]; [|done]. rewrite Hlen. by apply Hok.
Qed.

Lemma eight_draw_loop_frame g fuel pid room drawn sh r drawn' sh' :
  eight_draw_loop g fuel pid room drawn sh = (r, drawn', sh') -> frame room r.
Proof.
  revert room drawn sh.
  induction fuel as [|fuel IH]; intros room drawn sh.
  { intros [= <- <- <-]. apply frame_refl. }
  rewrite eight_draw_loop_S.
  destruct (replenish_deck g room) as [room1 shuffled] eqn:Hrep.
  apply replenish_deck_frame in Hrep.
  destruct (pop (deck room1)) as [[card deck']|] eqn:Hpop;
    [|by intros [= <- <- <-]].
  destruct (last (discard_pile room1)) as [top|]; [|by intros [= <- <- <-]].
  assert (frame room1
            (set_players (update_player pid (hand_append card) (players room1))
               (set_deck deck' room1))) as Hc2.
  { apply (draw_to_frame pid room1 _ 1). unfold draw_to. by rewrite Hpop. }
  destruct (eight_match card top).
  - intros [= <- <- <-]. by eapply frame_trans.
  - intros Hloop. apply IH in Hloop.
    eapply frame_trans; [exact Hrep|]. by eapply frame_trans.
Qed.

Lemma play_card_room_index g ws rid pid cid chosen room :
  let r' := room_of (play_card_room g ws rid pid cid chosen room) in
  current_player_index r' = current_player_index room \/
  current_player_index r' < length (players r').
Proof.
  simpl. unfold play_card_room.
  destruct (player_ids room !! current_player_index room) as [cur|] eqn:Hcur; [|by left].
  destruct (negb (str_eq cur pid)); [by left|].
  destruct (get_player pid (players room)) as [player|]; [|by left].
  destruct (find_card cid (hand player)) as [card|]; [|by left].
  destruct (last (discard_pile room)) as [top_card|]; [|by left].
  pose proof (play_card_check_same_table ws card top_card room) as Hearly.
  destruct (play_card_check ws card top_card room) as [early|room1] eqn:Hk;
    [left; by rewrite Hearly|].
  apply play_card_check_inr in Hk as (Hps & _ & _ & Hidx & _).
  unfold play_card_apply.
  destruct (play_card_draw_effects g card (play_card_move pid card room1))
    as [[[[r4 nx] fid] fc] sh] eqn:E4.
  pose proof (play_card_draw_effects_next _ _ _ _ _ _ _ _ E4) as Hnx. simpl in Hnx.
  pose proof (frame_length _ _ (play_card_draw_effects_frame _ _ _ _ _ _ _ _ E4)) as Hlen.
  rewrite play_card_move_length, Hps in Hlen, Hnx.
  apply play_card_draw_effects_frame in E4 as (_ & _ & Hi4 & _).
  destruct (play_card_move_frame pid card room1) as (Hi3 & _).
  destruct (get_player pid (players r4)) as [p4|]; [|left; simpl; congruence].
  destruct (length (hand p4) =? 0); [left; simpl; congruence|].
  destruct (play_card_late_effects card chosen nx r4) as [r5 nx'] eqn:E5.
  apply play_card_late_effects_frame in E5 as (_ & Hps5 & _ & _ & _ & _ & _ & Hnx').
  right. simpl. rewrite Hps5, Hlen. subst nx'. rewrite Hlen.
  apply lookup_lt_Some in Hcur. unfold player_ids in Hcur. rewrite length_map in Hcur.
  assert (nx < length (players room)) as Hlt.
  { subst nx. destruct (_ || _); apply Nat.mod_upper_bound; lia. }
  destruct (str_eq (rank card) "A"); [apply Nat.mod_upper_bound; lia|done].
Qed.

Lemma draw_card_room_index g ws bot_id rid pid room :
  let r' := room_of (draw_card_room g ws bot_id rid pid room) in
  current_player_index r' = current_player_index room \/
  current_player_index r' < length (players r').
Proof.
  simpl. unfold draw_card_room.
  destruct (player_ids room !! current_player_index room) as [cur|] eqn:Hcur; [|by left].
  destruct (negb (str_eq cur pid)); [by left|].
  apply lookup_lt_Some in Hcur. unfold player_ids in Hcur. rewrite length_map in Hcur.
  destruct (waiting_for_eight room).
  - destruct (eight_draw_used room); [by left|].
    destruct (eight_draw_loop _ _ _ _ _ _) as [[r2 drawn] sh] eqn:Hloop. simpl.
    apply eight_draw_loop_frame in Hloop as Hfr.
    pose proof (frame_length _ _ Hfr) as Hlen. simpl in Hlen.
    destruct Hfr as (_ & _ & Hi & _). simpl in Hi.
    unfold eight_draw_finish, eight_chain_drop, player_ids. simpl.
    assert (forall x, (x + 1) mod length (map fst (players r2)) < length (players r2)) as Hm.
    { intros x. rewrite length_map. apply Nat.mod_upper_bound. lia. }
    destruct (last drawn); [|right; apply Hm].
    destruct (negb _); simpl; [right; apply Hm|by left].
  - destruct (card_drawn_this_turn room); [left; by destruct ws|].
    destruct (replenish_deck g room) as [r1 sh] eqn:Hrep.
    apply replenish_deck_frame in Hrep as (_ & _ & Hi & _).
    destruct (pop (deck r1)) as [[c d]|]; [by left|left; by destruct ws].
Qed.

Lemma skip_turn_room_index ws rid pid room :
  let r' := room_of (skip_turn_room ws rid pid room) in
  current_player_index r' = current_player_index room \/
  current_player_index r' < length (players r').
Proof.
  simpl. unfold skip_turn_room.
  destruct (player_ids room !! current_player_index room) as [cur|] eqn:Hcur; [|by left].
  destruct (negb (str_eq cur pid)); [by left|].
  destruct (waiting_for_eight room); [by left|].
  destruct (negb (card_drawn_this_turn room)); [by left|].
  right. simpl. apply lookup_lt_Some in Hcur. unfold player_ids in *.
  rewrite length_map in *. apply Nat.mod_upper_bound. lia.
Qed.

Lemma after_turn_ok rid o r' : turn_ok (room_of o) -> after rid o = Some r' -> turn_ok r'.
Proof.
  destruct o as [r out|exn r|r w|r out]; simpl; try by intros ? [= <-].
  intros _. destruct (game_end_room rid w r) as [|r1 kicked out] eqn:Hend; [done|].
  intros [= <-]. apply game_end_room_next in Hend as (Hst & _).
  intros Hst'. congruence.
Qed.

Lemma start_game_room_turn_ok g rid room :
  Random_ok g -> 1 <= length (players room) <= 4 ->
  deck_size room = 36 \/ deck_size room = 52 ->
  turn_ok (room_of (start_game_room g rid room)).
Proof.
  intros Hg Hn Hsz.
  destruct (start_game_room_Accepted g rid room Hg Hn Hsz)
    as (r' & out & first & -> & _ & _ & _ & _ & _ & _ & _ & Hcur & Hlen & _).
  simpl. intros _. rewrite Hcur, Hlen.
  destruct (skips_a_seat first); apply Nat.mod_upper_bound; lia.
Qed.

Lemma toggle_ready_turn_ok g rid pid room :
  Random_ok g -> room_inv room -> turn_ok room ->
  turn_ok (room_of (toggle_ready g rid pid room)).
Proof.
  intros Hg (Hn & Hsz & _) Hok. unfold toggle_ready.
  destruct (get_player pid (players room)); [|done].
  set (room1 := set_players _ room).
  assert (turn_ok room1) as Hok1.
  { intros Hst. subst room1. simpl in *. rewrite update_player_length. by apply Hok. }
  assert (length (players room1) = length (players room)) as Hlen
    by (subst room1; simpl; apply update_player_length).
  destruct ((2 <=? length (players room1)) && (ready_count room1 =? length (players room1)))
    eqn:E.
  - apply andb_true_iff in E as [E _]. apply Nat.leb_le in E.
    assert (turn_ok (room_of (start_game_room g rid (set_countdown_active false room1))))
      as Hs.
    { apply start_game_room_turn_ok; [done| |done].
      change (players (set_countdown_active false room1)) with (players room1). lia. }
    by destruct (start_game_room g rid (set_countdown_active false room1)).
  - clear E. destruct (_ && _); [exact Hok1|]. destruct (_ && _); exact Hok1.
Qed.

Lemma countdown_expired_turn_ok g rid room :
  Random_ok g -> room_inv room -> turn_ok room ->
  turn_ok (room_of (countdown_expired g rid room)).
Proof.
  intros Hg (Hn & Hsz & _) Hok. unfold countdown_expired.
  destruct (2 <=? _) eqn:E; [|exact Hok].
  apply Nat.leb_le in E. apply start_game_room_turn_ok; [done| |done].
  simpl in *. split; [lia|]. etrans; [apply List.filter_length_le|]. done.
Qed.

Lemma room_step_turn_ok r r' : room_inv r -> turn_ok r -> room_step r r' -> turn_ok r'.
Proof.
  intros Hinv Hok Hstep.
  destruct Hstep as [pid nick r' H|g rid pid r' Hg H|g rid r' Hg H|pid size r' H
                     |pid private r' H|pid|g ws rid pid cid chosen r' Hg Hst H
                     |g ws bot_id rid pid r' Hg Hst H|ws rid pid r' Hst H].
  - unfold join_room in H. destruct (game_started r) eqn:Hst; [done|].
    destruct (4 <=? _); [done|]. destruct (existsb _ _); [done|].
    injection H as <-. intros Hst'. simpl in Hst'. congruence.
  - eapply after_turn_ok; [|exact H]. by apply toggle_ready_turn_ok.
  - eapply after_turn_ok; [|exact H]. by apply countdown_expired_turn_ok.
  - unfold change_deck_size in H. destruct (negb _); [done|].
    destruct (game_started r) eqn:Hst; [done|]. destruct (negb _); [done|].
    injection H as <-. intros Hst'. simpl in Hst'. congruence.
  - unfold toggle_private in H. destruct (negb _); [done|].
    destruct (_ || _); [done|]. by injection H as <-.
  - unfold disconnect. destruct (game_started r) eqn:Hst; simpl; [done|].
    destruct (existsb _ _); [done|]. intros Hst'. simpl in Hst'. congruence.
  - eapply after_turn_ok; [|exact H].
    eapply turn_ok_keep; [apply play_card_room_same_table|apply play_card_room_index|done].
  - eapply after_turn_ok; [|exact H].
    eapply turn_ok_keep; [apply draw_card_room_same_table|apply draw_card_room_index|done].
  - eapply after_turn_ok; [|exact H].
    eapply turn_ok_keep; [apply skip_turn_room_same_table|apply skip_turn_room_index|done].
Qed.

Lemma reachable_turn_ok r : reachable r -> turn_ok r.
Proof.
  induction 1 as [rid pid nick private|rid pid nick bots size r H|r r' Hr IH Hstep].
  - done.
  - unfold create_bot_game in H. destruct (_ || _); [done|]. destruct (negb _); [done|].
    by injection H as <-.
  - eapply room_step_turn_ok; [by apply reachable_inv|done..].
Qed.

(** ** No exception on a reachable room *)

Lemma play_card_room_no_crash g ws rid pid cid chosen room :
  current_player_index room < length (players room) ->
  no_crash ws (play_card_room g ws rid pid cid chosen room).
Proof.
  intros Hlt. unfold play_card_room, no_crash.
  destruct (lookup_lt_is_Some_2 (player_ids room) (current_player_index room)) as [cur Hcur].
  { unfold player_ids. by rewrite length_map. }
  rewrite Hcur. destruct (str_eq cur pid) eqn:Hme; simpl; [|by left].
  apply str_eq_true in Hme as ->. apply list_elem_of_lookup_2 in Hcur.
  destruct (get_player_is_Some pid (players room) Hcur) as [player ->].
  destruct (find_card cid (hand player)) as [card|]; [|by left].
  destruct (last (discard_pile room)) as [top_card|]; [|by left].
  destruct (play_card_check ws card top_card room) as [early|room1] eqn:Hk.
  { unfold play_card_check in Hk. destruct (waiting_for_eight room).
    - destruct (_ && _); [|done]. injection Hk as <-. destruct ws; [by left|by right].
    - destruct (negb _); [|done]. injection Hk as <-. by left. }
  apply play_card_check_inr in Hk as (Hps & _).
  unfold play_card_apply.
  destruct (play_card_draw_effects g card (play_card_move pid card room1))
    as [[[[r4 nx] fid] fc] sh] eqn:E4.
  apply play_card_draw_effects_ids in E4. rewrite play_card_move_ids in E4.
  destruct (get_player_is_Some pid (players r4)) as [p4 ->].
  { change (pid ∈ player_ids r4). rewrite E4. unfold player_ids. by rewrite Hps. }
  destruct (length (hand p4) =? 0); [by left|].
  destruct (play_card_late_effects card chosen nx r4). by left.
Qed.

Lemma draw_card_room_no_crash g ws bot_id rid pid room :
  current_player_index room < length (players room) ->
  no_crash ws (draw_card_room g ws bot_id rid pid room).
Proof.
  intros Hlt. unfold draw_card_room, no_crash.
  destruct (lookup_lt_is_Some_2 (player_ids room) (current_player_index room)) as [cur Hcur].
  { unfold player_ids. by rewrite length_map. }
  rewrite Hcur. destruct (negb (str_eq cur pid)); [by left|].
  destruct (waiting_for_eight room).
  - destruct (eight_draw_used room); [by left|].
    destruct (eight_draw_loop _ _ _ _ _ _) as [[r2 drawn] sh]. by left.
  - destruct (card_drawn_this_turn room); [destruct ws; [by left|by right]|].
    destruct (replenish_deck g room) as [r1 sh].
    destruct (pop (deck r1)) as [[c d]|]; [by left|]. destruct ws; [by left|by right].
Qed.

Lemma skip_turn_room_no_crash ws rid pid room :
  current_player_index room < length (players room) ->
  raised (skip_turn_room ws rid pid room) = None.
Proof.
  intros Hlt. unfold skip_turn_room.
  destruct (lookup_lt_is_Some_2 (player_ids room) (current_player_index room)) as [cur Hcur].
  { unfold player_ids. by rewrite length_map. }
  rewrite Hcur. destruct (negb (str_eq cur pid)); [done|].
  destruct (waiting_for_eight room); [done|].
  by destruct (negb (card_drawn_this_turn room)).
Qed.

(** X3: in every started room the server can reach, the seat to move
    exists, so [handle_play_card], [handle_draw_card] and [handle_skip_turn]
    raise neither [IndexError] nor [KeyError]: they answer a client without
    an exception, and the only exception a bot's request can meet is the
    [AttributeError] of an error reply sent on its missing connection. *)
Theorem reachable_turn_never_crashes r :
  reachable r -> game_started r = true ->
  (exists pid p, player_ids r !! current_player_index r = Some pid /\
                 get_player pid (players r) = Some p) /\
  forall g ws bot_id rid pid cid chosen,
    no_crash ws (play_card_room g ws rid pid cid chosen r) /\
    no_crash ws (draw_card_room g ws bot_id rid pid r) /\
    raised (skip_turn_room ws rid pid r) = None.
Proof.
  intros Hr Hst. pose proof (reachable_turn_ok r Hr Hst) as Hlt. split.
  - destruct (lookup_lt_is_Some_2 (player_ids r) (current_player_index r)) as [cur Hcur].
    { unfold player_ids. by rewrite length_map. }
    destruct (get_player_is_Some cur (players r)) as [p Hp].
    { by eapply list_elem_of_lookup_2. }
    by exists cur, p.
  - intros g ws bot_id rid pid cid chosen. split; [|split].
    + by apply play_card_room_no_crash.
    + by apply draw_card_room_no_crash.
    + by apply skip_turn_room_no_crash.
Qed.

Lemma reachable_turn_never_crashes_witness :
  raised (skip_turn_room None "r" "b" room_dealt) = None.
Proof.
  destruct (reachable_turn_never_crashes room_dealt) as [_ H].
  - exact room_dealt_reachable.
  - vm_compute. reflexivity.
  - exact (proj2 (proj2 (H g0 None None "r" "b" None None))).
Defined.

(** X4: [start_game] on a room of one to four seats with a deck of 36 or
    52 never raises: it deals five cards to every seat, turns one card up,
    and treats that card as played by the dealer: the seat after the dealer
    draws one card on a 6 and two on a 7, and the turn passes over it on a
    6, a 7 and an A. Scores, names and seats stay, all [deck_size] cards
    are in the room, and the loser of the last round, if still seated,
    deals. *)
Theorem start_game_deals g rid room :
  Random_ok g ->
  1 <= length (players room) <= 4 ->
  deck_size room = 36 \/ deck_size room = 52 ->
  exists r' out first,
    start_game_room g rid room = Accepted r' out /\
    game_started r' = true /\
    standings r' = standings room /\
    total_cards r' = deck_size room /\
    discard_pile r' = [first] /\
    dealer_index r' < length (players room) /\
    (forall l, last_loser_id room = Some l -> l <> "" -> l ∈ player_ids room ->
               player_ids room !! dealer_index r' = Some l) /\
    current_player_index r' =
      (if skips_a_seat first
       then ((dealer_index r' + 1) mod length (players room) + 1) mod length (players room)
       else (dealer_index r' + 1) mod length (players room)) /\
    forall pid p,
      get_player pid (players r') = Some p ->
      length (hand p) =
        if str_eq (id_at room ((dealer_index r' + 1) mod length (players room))) pid
        then 5 + first_card_draws first else 5.
Proof.
  intros Hg Hn Hsz.
  destruct (start_game_room_Accepted g rid room Hg Hn Hsz)
    as (r' & out & first & E & Hst & Hstand & Hds & _ & Hdisc & Hdealer & Hloser & Hcur
        & _ & Hhands).
  exists r', out, first.
  pose proof (start_game_room_inv g rid room Hg (proj2 Hn) Hsz) as (_ & _ & Htot).
  rewrite E in Htot. simpl in Htot. destruct (Htot Hst) as [Htot' _].
  rewrite Hds in Htot'. done.
Qed.

Lemma start_game_deals_witness :
  exists r' out first,
    start_game_room g0 "r" room_two = Accepted r' out /\ discard_pile r' = [first].
Proof.
  destruct (start_game_deals g0 "r" room_two g0_ok)
    as (r' & out & first & E & _ & _ & _ & Hd & _).
  - vm_compute. lia.
  - right. reflexivity.
  - by exists r', out, first.
Defined.

(** ** The chosen suit and the 8-chain after a play *)

Lemma play_card_check_flags ws card top room room1 :
  play_card_check ws card top room = inr room1 ->
  chosen_suit room1 = chosen_suit room /\ deck_size room1 = deck_size room /\
  card_drawn_this_turn room1 = card_drawn_this_turn room /\
  (waiting_for_eight room = true ->
   eight_draw_used room1 = false /\
   eight_drawn_cards room1 = (fun _ => ∅) <$> eight_drawn_cards room) /\
  (waiting_for_eight room = false -> room1 = room).
Proof.
  unfold play_card_check. destruct (waiting_for_eight room) eqn:Hw.
  - destruct (_ && _); [done|]. intros [= <-].
    unfold clear_eight_drawn_cards.
    destruct (eight_drawn_cards room) eqn:E; simpl; rewrite ?E; done.
  - destruct (negb _); [done|]. by intros [= <-].
Qed.

(** X5: after a play that [handle_play_card] carried out, the round going
    on, an 8-chain is pending exactly when the card is an 8 in a room with
    the deck of 52, its draw not yet used; any card but a Queen clears the
    chosen suit; a Queen sets the suit the request names, and keeps the suit
    in force when the request names none. *)
Theorem play_card_sets_suit_and_chain g ws rid pid cid chosen room r' out :
  play_card_room g ws rid pid cid chosen room = Accepted r' out ->
  exists card,
    (exists player, get_player pid (players room) = Some player /\
                    find_card cid (hand player) = Some card) /\
    waiting_for_eight r' = str_eq (rank card) "8" && (deck_size room =? 52) /\
    (waiting_for_eight r' = true -> eight_draw_used r' = false) /\
    chosen_suit r' =
      (if str_eq (rank card) "Q"
       then (if truthy chosen then chosen else chosen_suit room)
       else None).
Proof.
  intros H. apply play_card_room_Accepted in H
    as (player & card & top & room1 & r4 & nx & fid & fc & sh & r5 & nx' &
        Hcur & Hp & Hc & Ht & Hk & E4 & E5 & ->).
  exists card. split; [by exists player|].
  apply play_card_check_inr in Hk as Hk'. destruct Hk' as (_ & _ & _ & _ & Hw1).
  apply play_card_check_flags in Hk as (Hcs1 & Hds1 & _).
  apply play_card_draw_effects_frame in E4
    as (_ & _ & _ & _ & _ & Hcs4 & Hw4 & _ & _ & Hds4 & _).
  destruct (play_card_move_frame pid card room1) as (_ & Hw3 & _).
  assert (chosen_suit (play_card_move pid card room1) =
          if str_eq (rank card) "Q" then chosen_suit room else None) as Hcs3.
  { unfold play_card_move. destruct (str_eq (rank card) "Q"); simpl; [done|done]. }
  assert (deck_size (play_card_move pid card room1) = deck_size room) as Hds3.
  { unfold play_card_move. by destruct (negb _). }
  rewrite Hw3, Hw1 in Hw4. rewrite Hcs3 in Hcs4. rewrite Hds3 in Hds4.
  revert E5. unfold play_card_late_effects. rewrite Hds4.
  destruct (str_eq (rank card) "A") eqn:EA.
  { intros [= <- <-]. simpl.
    rewrite (str_eq_ne _ _ "8" EA), (str_eq_ne _ _ "Q" EA) in * by done.
    simpl. rewrite Hw4. split; [done|]. split; [done|]. done. }
  destruct (str_eq (rank card) "8") eqn:E8; simpl.
  { rewrite (str_eq_ne _ _ "Q" E8) in * by done.
    destruct (deck_size room =? 52); intros [= <- <-]; simpl; [done|].
    rewrite Hw4. split; [done|]. split; [done|]. done. }
  destruct (str_eq (rank card) "Q").
  - destruct (truthy chosen); intros [= <- <-]; simpl; rewrite ?Hw4; done.
  - intros [= <- <-]. simpl. rewrite Hw4. done.
Qed.

Lemma play_card_sets_suit_and_chain_witness :
  waiting_for_eight
    (room_of (play_card_room g0 (Some 2) "r" "b" (Some "45") None room_dealt)) = true.
Proof.
  destruct (play_card_sets_suit_and_chain g0 (Some 2) "r" "b" (Some "45") None room_dealt
              (room_of (play_card_room g0 (Some 2) "r" "b" (Some "45") None room_dealt))
              (events_of (play_card_room g0 (Some 2) "r" "b" (Some "45") None room_dealt)))
    as (card & _ & Hw & _).
  - vm_compute. reflexivity.
  - vm_compute. reflexivity.
Defined.

Lemma play_card_advances_turn_witness :
  current_player_index
    (room_of (play_card_room g0 (Some 1) "r" "a" (Some "c1") None room_play)) = 0.
Proof.
  destruct (play_card_advances_turn g0 (Some 1) "r" "a" (Some "c1") None room_play
              (room_of (play_card_room g0 (Some 1) "r" "a" (Some "c1") None room_play))
              (events_of (play_card_room g0 (Some 1) "r" "a" (Some "c1") None room_play)))
    as (card & _ & _ & _ & Hcur & _).
  - vm_compute. reflexivity.
  - vm_compute. reflexivity.
Defined.

(** ** Drawing *)

Lemma replenish_deck_ready g room r b :
  Random_ok g ->
  replenish_deck g room = (r, b) ->
  deck room <> [] \/ 1 < length (discard_pile room) -> deck r <> [].
Proof.
  intros Hg H Hne Hnil.
  destruct (replenish_deck_cases g room r b Hg H) as (_ & _ & _ & _ & Hex).
  destruct (Hex Hnil) as (Hd & Hl & _). destruct Hne; [done|lia].
Qed.

(** X6: the voluntary draw. The seat to move, outside an 8-chain and not
    having drawn in this turn, gets exactly one card, the top of the draw
    pile (after a replenishment when the pile was empty), at the end of its
    hand; nobody else's hand changes and the turn stays with the seat. The
    draw is latched: a second draw in the same turn is refused and moves
    nothing, while [handle_skip_turn] now passes the turn on. *)
Theorem voluntary_draw_once g ws bot_id rid pid room p :
  Random_ok g ->
  player_ids room !! current_player_index room = Some pid ->
  get_player pid (players room) = Some p ->
  waiting_for_eight room = false ->
  card_drawn_this_turn room = false ->
  deck room <> [] \/ 1 < length (discard_pile room) ->
  exists r' out c,
    draw_card_room g ws bot_id rid pid room = Accepted r' out /\
    get_player pid (players r') = Some (hand_append c p) /\
    (forall k, k <> pid -> get_player k (players r') = get_player k (players room)) /\
    (deck room <> [] -> deck room = deck r' ++ [c] /\ discard_pile r' = discard_pile room) /\
    current_player_index r' = current_player_index room /\
    card_drawn_this_turn r' = true /\
    (forall g' ws' bot_id',
       ~ accepted (draw_card_room g' ws' bot_id' rid pid r') /\
       room_of (draw_card_room g' ws' bot_id' rid pid r') = r') /\
    accepted (skip_turn_room ws rid pid r').
Proof.
  intros Hg Hcur Hp Hw Hlatch Hne. unfold draw_card_room.
  rewrite Hcur, str_eq_refl, Hw, Hlatch. simpl.
  destruct (replenish_deck g room) as [r1 sh] eqn:Hrep.
  pose proof (replenish_deck_ready _ _ _ _ Hg Hrep Hne) as Hd1.
  pose proof (replenish_deck_players _ _ _ _ Hrep) as Hps1.
  pose proof (replenish_deck_frame _ _ _ _ Hrep) as (_ & Hids1 & Hi1 & _ & _ & _ & Hw1 & _).
  destruct (pop (deck r1)) as [[c d]|] eqn:Hpop; [|by apply pop_None in Hpop].
  apply pop_Some in Hpop.
  eexists _, _, c. split; [reflexivity|].
  remember (set_card_drawn_this_turn true
              (set_players (update_player pid (hand_append c) (players r1)) (set_deck d r1)))
    as r' eqn:Hr'.
  assert (player_ids r' !! current_player_index r' = Some pid) as Hcur'.
  { subst r'. unfold player_ids. simpl. rewrite update_player_keys.
    change (player_ids r1 !! current_player_index r1 = Some pid). by rewrite Hids1, Hi1. }
  assert (waiting_for_eight r' = false) as Hw' by (subst r'; simpl; congruence).
  assert (card_drawn_this_turn r' = true) as Hl' by (by subst r').
  split.
  { subst r'. simpl. by rewrite get_player_update, str_eq_refl, Hps1, Hp. }
  split.
  { intros k Hk. subst r'. simpl. rewrite get_player_update, Hps1.
    assert (str_eq pid k = false) as -> by (apply str_eq_false; congruence).
    by destruct (get_player k (players room)). }
  split.
  { intros Hdne. rewrite replenish_deck_noop in Hrep by (by left).
    injection Hrep as <- <-. by subst r'. }
  split; [by subst r'|]. split; [done|].
  clear Hr'. split.
  - intros g' ws' bot_id'. unfold draw_card_room.
    rewrite Hcur', str_eq_refl, Hw', Hl'. simpl.
    destruct ws'; simpl; (split; [tauto|done]).
  - unfold skip_turn_room. rewrite Hcur', str_eq_refl, Hw', Hl'. done.
Qed.

Lemma voluntary_draw_once_witness :
  exists r' out c,
    draw_card_room g0 (Some 1) None "r" "a" room_play = Accepted r' out /\
    get_player "a" (players r') = Some (hand_append c (snd (seat "a" [c7h; cKs] 0 false))).
Proof.
  destruct (voluntary_draw_once g0 (Some 1) None "r" "a" room_play
              (snd (seat "a" [c7h; cKs] 0 false)) g0_ok)
    as (r' & out & c & E & Hh & _).
  - reflexivity.
  - reflexivity.
  - reflexivity.
  - reflexivity.
  - left. done.
  - by exists r', out, c.
Defined.

(** *** The cards drawn on an 8 *)

Lemma eight_draw_loop_last g fuel pid room drawn sh r drawn' sh' :
  eight_draw_loop g fuel pid room drawn sh = (r, drawn', sh') ->
  last (discard_pile r) = last (discard_pile room).
Proof.
  revert room drawn sh.
  induction fuel as [|fuel IH]; intros room drawn sh.
  { by intros [= <- <- <-]. }
  rewrite eight_draw_loop_S.
  destruct (replenish_deck g room) as [room1 shuffled] eqn:Hrep.
  apply replenish_deck_last in Hrep.
  destruct (pop (deck room1)) as [[card deck']|] eqn:Hpop;
    [|by intros [= <- <- <-]].
  destruct (last (discard_pile room1)) as [top|] eqn:Htop;
    [|intros [= <- <- <-]; congruence].
  destruct (eight_match card top).
  - intros [= <- <- <-]. simpl. congruence.
  - intros Hloop. apply IH in Hloop. simpl in Hloop. congruence.
Qed.

Lemma eight_draw_loop_hand g fuel pid room drawn sh r drawn' sh' :
  eight_draw_loop g fuel pid room drawn sh = (r, drawn', sh') ->
  exists new,
    drawn' = drawn ++ new /\
    get_player pid (players r) =
      (fun p => set_hand (hand p ++ new) p) <$> get_player pid (players room) /\
    (new <> [] -> discard_pile room <> []).
Proof.
  revert room drawn sh.
  induction fuel as [|fuel IH]; intros room drawn sh.
  { intros [= <- <- <-]. exists []. rewrite !app_nil_r. split; [done|]. split; [|done].
    destruct (get_player pid (players room)) as [[]|]; simpl; [|done].
    unfold set_hand. simpl. by rewrite app_nil_r. }
  rewrite eight_draw_loop_S.
  destruct (replenish_deck g room) as [room1 shuffled] eqn:Hrep.
  apply replenish_deck_players in Hrep as Hps1.
  apply replenish_deck_last in Hrep as Hlast1.
  assert (get_player pid (players room1) =
          (fun p => set_hand (hand p ++ []) p) <$> get_player pid (players room)) as Hnone.
  { rewrite Hps1. destruct (get_player pid (players room)) as [[]|]; simpl; [|done].
    unfold set_hand. simpl. by rewrite app_nil_r. }
  destruct (pop (deck room1)) as [[card deck']|] eqn:Hpop.
  2:{ intros [= <- <- <-]. exists []. by rewrite app_nil_r. }
  destruct (last (discard_pile room1)) as [top|] eqn:Htop.
  2:{ intros [= <- <- <-]. exists []. by rewrite app_nil_r. }
  assert (discard_pile room <> []) as Hne.
  { intros E. rewrite E in Hlast1. simpl in Hlast1. congruence. }
  destruct (eight_match card top).
  - intros [= <- <- <-]. exists [card]. split; [done|]. simpl.
    rewrite get_player_update, str_eq_refl, Hps1. split; [|done].
    by destruct (get_player pid (players room)).
  - intros Hloop. apply IH in Hloop as (new & -> & Hh & Hd).
    exists (card :: new). split; [by rewrite <- app_assoc|]. split; [|done].
    rewrite Hh. simpl. rewrite get_player_update, str_eq_refl, Hps1.
    destruct (get_player pid (players room)) as [q|]; [|done]. simpl.
    unfold set_hand, hand_append. simpl. by rewrite <- app_assoc.
Qed.

Lemma find_card_by_id c h : c ∈ h -> exists c', find_card (Some (card_id c)) h = Some c' /\
                                                card_id c' = card_id c.
Proof.
  intros Hin. unfold find_card.
  destruct (List.find (fun c0 => str_eq (card_id c0) (card_id c)) h) as [c'|] eqn:E.
  - exists c'. split; [done|]. apply find_some in E as [_ E]. by apply str_eq_true.
  - exfalso. apply list_elem_of_In in Hin. eapply find_none in E; [|exact Hin].
    simpl in E. by rewrite str_eq_refl in E.
Qed.

(** X7: the draw on an 8. Every card [handle_draw_card] hands the seat in
    the 8-chain goes to the end of its hand. When the chain stays pending,
    the ids of the drawn cards are in [eight_drawn_cards], the seat cannot
    draw a second time (the request is refused and moves nothing), and each
    of the drawn cards is one that [handle_play_card] lets it play, whatever
    its suit and rank. When the chain is dropped, [eight_drawn_cards] is
    emptied and the turn passes to the next seat. *)
Theorem eight_chain_drawn_cards_playable g ws bot_id rid pid room p r' out :
  get_player pid (players room) = Some p ->
  waiting_for_eight room = true ->
  draw_card_room g ws bot_id rid pid room = Accepted r' out ->
  exists drawn,
    get_player pid (players r') = Some (set_hand (hand p ++ drawn) p) /\
    (waiting_for_eight r' = true ->
     eight_draw_used r' = true /\
     current_player_index r' = current_player_index room /\
     (exists s, eight_drawn_cards r' = Some s /\ forall c, c ∈ drawn -> card_id c ∈ s) /\
     (forall g' ws' bot_id',
        ~ accepted (draw_card_room g' ws' bot_id' rid pid r') /\
        room_of (draw_card_room g' ws' bot_id' rid pid r') = r') /\
     forall c g' ws' chosen,
       c ∈ drawn -> accepted (play_card_room g' ws' rid pid (Some (card_id c)) chosen r')) /\
    (waiting_for_eight r' = false ->
     eight_draw_used r' = false /\
     eight_drawn_cards r' = Some ∅ /\
     current_player_index r' =
       (current_player_index room + 1) mod length (players room)).
Proof.
  intros Hp Hw. unfold draw_card_room.
  destruct (player_ids room !! current_player_index room) as [cur|] eqn:Hcur; [|done].
  destruct (str_eq cur pid) eqn:Hme; [|done]. apply str_eq_true in Hme as ->. simpl.
  rewrite Hw. destruct (eight_draw_used room) eqn:Hused; [done|].
  destruct (eight_draw_loop _ _ _ _ _ _) as [[r2 drawn] sh] eqn:Hloop.
  intros [= <- _].
  pose proof (eight_draw_loop_frame _ _ _ _ _ _ _ _ _ Hloop) as Hfr.
  pose proof (frame_length _ _ Hfr) as Hlen.
  destruct Hfr as (_ & Hids & Hi & _ & _ & _ & Hw2 & _ & Hu2 & _).
  pose proof (eight_draw_loop_last _ _ _ _ _ _ _ _ _ Hloop) as Hlast.
  apply eight_draw_loop_hand in Hloop as (new & Hnew & Hh & Hd).
  simpl in Hnew, Hh, Hd, Hids, Hi, Hw2, Hu2, Hlast, Hlen. subst new.
  rewrite Hp in Hh. simpl in Hh.
  set (s := default ∅ (eight_drawn_cards r2) ∪ list_to_set (map card_id drawn)).
  exists drawn.
  assert (forall c, c ∈ drawn -> card_id c ∈ s) as Hs.
  { intros c Hc. subst s. apply elem_of_union. right.
    apply elem_of_list_to_set. apply list_elem_of_fmap. by exists c. }
  assert (eight_draw_finish r2 drawn = set_eight_drawn_cards (Some s) r2 \/
          eight_draw_finish r2 drawn =
            eight_chain_drop (set_eight_drawn_cards (Some s) r2)) as [-> | ->].
  { unfold eight_draw_finish. fold s. destruct (last drawn); [|by right].
    destruct (negb _); [by right|by left]. }
  2:{ split; [done|]. split; [done|]. intros _. unfold eight_chain_drop, player_ids. simpl.
      rewrite length_map, Hlen, Hi. done. }
  remember (set_eight_drawn_cards (Some s) r2) as r' eqn:Hr'.
  assert (player_ids r' !! current_player_index r' = Some pid) as Hcur'.
  { subst r'. change (player_ids r2 !! current_player_index r2 = Some pid).
    by rewrite Hids, Hi. }
  assert (waiting_for_eight r' = true) as Hw3 by (subst r'; simpl; congruence).
  assert (eight_draw_used r' = true) as Hu3 by (subst r'; simpl; congruence).
  assert (get_player pid (players r') = Some (set_hand (hand p ++ drawn) p)) as Hp'
    by (by subst r').
  assert (eight_drawn_cards r' = Some s) as He by (by subst r').
  assert (current_player_index r' = current_player_index room) as Hi' by (by subst r').
  assert (last (discard_pile r') = last (discard_pile room)) as Hlast' by (by subst r').
  clear Hr'.
  split; [done|]. split; [|intros ?; congruence]. intros _.
  split; [done|]. split; [done|]. split; [by exists s|].
  split.
  { intros g' ws' bot_id'. unfold draw_card_room.
    rewrite Hcur', str_eq_refl, Hw3, Hu3. simpl. split; [tauto|done]. }
  intros c g' ws' chosen Hc.
  destruct (find_card_by_id c (hand p ++ drawn)) as (c' & Hfind & Hid).
  { apply elem_of_app. by right. }
  assert (exists top, last (discard_pile r') = Some top) as [top Htop].
  { assert (discard_pile room <> []) as Hne.
    { apply Hd. intros ->. by apply elem_of_nil in Hc. }
    rewrite Hlast'.
    destruct (last (discard_pile room)) eqn:E; [eauto|]. by apply last_None in E. }
  unfold play_card_room. rewrite Hcur', str_eq_refl, Hp'. cbn [negb hand set_hand].
  rewrite Hfind, Htop.
  unfold play_card_check. rewrite Hw3, He.
  rewrite bool_decide_eq_true_2 by (rewrite Hid; by apply Hs).
  rewrite andb_false_r.
  apply play_card_apply_accepted.
  assert (pid ∈ player_ids r') as Hin by (by eapply list_elem_of_lookup_2).
  unfold clear_eight_drawn_cards. simpl. by rewrite He.
Qed.

Lemma eight_chain_drawn_cards_playable_witness :
  exists drawn,
    get_player "a"
      (players (room_of (draw_card_room g0 (Some 1) None "r" "a" room_eight_reached)))
    = Some (set_hand (hand (default (snd (seat "a" [] 0 false))
                                    (get_player "a" (players room_eight_reached)))
                      ++ drawn)
              (default (snd (seat "a" [] 0 false))
                       (get_player "a" (players room_eight_reached)))).
Proof.
  destruct (eight_chain_drawn_cards_playable g0 (Some 1) None "r" "a" room_eight_reached
              (default (snd (seat "a" [] 0 false))
                       (get_player "a" (players room_eight_reached)))
              (room_of (draw_card_room g0 (Some 1) None "r" "a" room_eight_reached))
              (events_of (draw_card_room g0 (Some 1) None "r" "a" room_eight_reached)))
    as (drawn & Hh & _).
  - vm_compute. reflexivity.
  - vm_compute. reflexivity.
  - vm_compute. reflexivity.
  - by exists drawn.
Defined.

(** ** From one round to the next *)

Lemma play_card_room_RoundOver_latch g ws rid pid cid chosen room r1 w :
  play_card_room g ws rid pid cid chosen room = RoundOver r1 w ->
  card_drawn_this_turn r1 = card_drawn_this_turn room.
Proof.
  unfold play_card_room.
  destruct (player_ids room !! current_player_index room) as [cur|]; [|done].
  destruct (negb (str_eq cur pid)); [done|].
  destruct (get_player pid (players room)) as [player|]; [|done].
  destruct (find_card cid (hand player)) as [card|]; [|done].
  destruct (last (discard_pile room)) as [top_card|]; [|done].
  destruct (play_card_check ws card top_card room) as [early|room1] eqn:Hk.
  { intros ->. unfold play_card_check in Hk. destruct (waiting_for_eight room).
    - destruct (_ && _); [|done]. by destruct ws.
    - by destruct (negb _). }
  apply play_card_check_flags in Hk as (_ & _ & Hl1 & _).
  unfold play_card_apply.
  destruct (play_card_draw_effects g card (play_card_move pid card room1))
    as [[[[r4 nx] fid] fc] sh] eqn:E4.
  apply play_card_draw_effects_frame in E4 as (_ & _ & _ & _ & _ & _ & _ & Hl4 & _).
  assert (card_drawn_this_turn (play_card_move pid card room1) = card_drawn_this_turn room1)
    as Hl3 by (unfold play_card_move; by destruct (negb _)).
  destruct (get_player pid (players r4)) as [p4|]; [|done].
  destruct (length (hand p4) =? 0); [intros [= <- _]; congruence|].
  by destruct (play_card_late_effects card chosen nx r4).
Qed.

Lemma game_end_room_NextRound rid w room r2 kicked out :
  game_end_room rid w room = NextRound r2 kicked out ->
  card_drawn_this_turn r2 = card_drawn_this_turn room /\
  deck r2 = [] /\ discard_pile r2 = [] /\ hand_sizes (players r2) = 0 /\
  waiting_for_eight r2 = false /\ chosen_suit r2 = None /\ eight_draw_used r2 = false.
Proof.
  unfold game_end_room, tally.
  match goal with |- context [if ?c then RoomClosed _ _ else _] => destruct c end;
    [done|].
  intros [= <- <- <-]. unfold reset_for_new_game. simpl. repeat split.
  match goal with |- hand_sizes (map _ ?l) = 0 => generalize l end.
  intros l. induction l as [|kp l IH]; simpl; done.
Qed.

Lemma toggle_ready_latch g rid pid room :
  Random_ok g -> length (players room) <= 4 ->
  deck_size room = 36 \/ deck_size room = 52 ->
  card_drawn_this_turn (room_of (toggle_ready g rid pid room)) = card_drawn_this_turn room.
Proof.
  intros Hg Hn Hsz. unfold toggle_ready.
  destruct (get_player pid (players room)); [|done].
  set (room1 := set_players _ room).
  assert (length (players room1) = length (players room)) as Hlen
    by (subst room1; simpl; apply update_player_length).
  destruct ((2 <=? length (players room1)) && (ready_count room1 =? length (players room1)))
    eqn:E.
  - apply andb_true_iff in E as [E _]. apply Nat.leb_le in E.
    destruct (start_game_room_Accepted g rid (set_countdown_active false room1))
      as (r' & out & first & -> & _ & _ & _ & Hl & _); [done| |done|done].
    change (players (set_countdown_active false room1)) with (players room1). lia.
  - clear E. destruct (_ && _); [done|]. by destruct (_ && _).
Qed.

(** X8: the draw latch of a turn outlives the round. It is cleared by a
    play that does not win and by a skipped turn only: when a seat that had
    drawn wins with its next card, neither the round end nor the next deal
    clears [card_drawn_this_turn], so the first seat of the new round is
    refused a voluntary draw and may pass without drawing. *)
Theorem draw_latch_survives_round_end
    g ws rid pid cid chosen room r1 w r2 g' h r3 out3 mover :
  Random_ok g' ->
  length (players room) <= 4 ->
  deck_size room = 36 \/ deck_size room = 52 ->
  card_drawn_this_turn room = true ->
  play_card_room g ws rid pid cid chosen room = RoundOver r1 w ->
  after rid (RoundOver r1 w) = Some r2 ->
  toggle_ready g' rid h r2 = Accepted r3 out3 ->
  player_ids r3 !! current_player_index r3 = Some mover ->
  waiting_for_eight r3 = false ->
  card_drawn_this_turn r3 = true /\
  (forall g'' ws' bot_id', ~ accepted (draw_card_room g'' ws' bot_id' rid mover r3)) /\
  forall ws', accepted (skip_turn_room ws' rid mover r3).
Proof.
  intros Hg Hn Hsz Hl Hplay Hafter Hready Hcur Hw.
  apply play_card_room_RoundOver_latch in Hplay as Hl1.
  pose proof (play_card_room_same_table g ws rid pid cid chosen room) as Hsame.
  rewrite Hplay in Hsame. simpl in Hsame.
  pose proof (same_table_length _ _ Hsame) as Hlen1.
  destruct Hsame as (_ & _ & _ & _ & Hsz1 & _).
  simpl in Hafter.
  destruct (game_end_room rid w r1) as [|r2' kicked out] eqn:Hend; [done|].
  injection Hafter as ->.
  apply game_end_room_next in Hend as Hnext. destruct Hnext as (_ & Hlen2 & Hsz2).
  apply game_end_room_NextRound in Hend as (Hl2 & _).
  pose proof (toggle_ready_latch g' rid h r2 Hg) as Hl3.
  rewrite Hready in Hl3. simpl in Hl3.
  assert (card_drawn_this_turn r3 = true) as Hlatch.
  { rewrite Hl3; [congruence|lia|congruence]. }
  split; [done|]. split.
  - intros g'' ws' bot_id'. unfold draw_card_room.
    rewrite Hcur, str_eq_refl, Hw, Hlatch. simpl. destruct ws'; simpl; tauto.
  - intros ws'. unfold skip_turn_room. rewrite Hcur, str_eq_refl, Hw, Hlatch. done.
Qed.

(** Seat a has drawn and now wins with the Queen of spades. *)
Lemma draw_latch_survives_round_end_witness :
  card_drawn_this_turn
    (room_of
       (toggle_ready g0 "r" "a"
          (default room_winQ
             (after "r" (play_card_room g0 (Some 1) "r" "a" (Some "c6") None
                           (set_card_drawn_this_turn true room_winQ)))))) = true.
Proof.
  pose (o := play_card_room g0 (Some 1) "r" "a" (Some "c6") None
               (set_card_drawn_this_turn true room_winQ)).
  pose (r2 := default room_winQ (after "r" o)).
  destruct (draw_latch_survives_round_end g0 (Some 1) "r" "a" (Some "c6") None
              (set_card_drawn_this_turn true room_winQ) (room_of o) "a" r2
              g0 "a" (room_of (toggle_ready g0 "r" "a" r2))
              (events_of (toggle_ready g0 "r" "a" r2)) "a" g0_ok) as [H _].
  - vm_compute. lia.
  - right. reflexivity.
  - reflexivity.
  - vm_compute. reflexivity.
  - vm_compute. reflexivity.
  - vm_compute. reflexivity.
  - vm_compute. reflexivity.
  - vm_compute. reflexivity.
  - exact H.
Defined.

(** X9: a game against bots starts as soon as its creator is ready: the
    room of [handle_create_bot_game] holds the creator and one to three
    bots that are ready from the start, so the creator's [toggle_ready]
    deals at once, to every seat.  The deck has 52 cards whichever of 36
    and 52 was requested: the handler checks the requested size and then
    builds the room without it. *)
Theorem bot_game_starts_on_ready g rid pid nick bots size r :
  Random_ok g ->
  create_bot_game rid pid nick bots size = Some r ->
  (size = 36 \/ size = 52) /\ 1 <= length bots <= 3 /\
  exists r' out,
    toggle_ready g rid pid r = Accepted r' out /\
    game_started r' = true /\
    length (players r') = 1 + length bots /\
    deck_size r' = 52 /\
    total_cards r' = 52 /\
    forall k p, get_player k (players r') = Some p -> 5 <= length (hand p).
Proof.
  intros Hg. unfold create_bot_game.
  destruct (length bots <? 1) eqn:H1; simpl; [done|].
  destruct (3 <? length bots) eqn:H3; simpl; [done|].
  apply Nat.ltb_ge in H1, H3.
  destruct ((size =? 36) || (size =? 52)) eqn:Hs; simpl; [|done].
  assert (size = 36 \/ size = 52) as Hsz.
  { apply orb_true_iff in Hs as [E|E]; apply Nat.eqb_eq in E; auto. }
  intros [= <-]. split; [done|]. split; [lia|].
  unfold toggle_ready. cbn [players get_player]. rewrite str_eq_refl.
  cbn [update_player]. rewrite str_eq_refl.
  set (room1 := set_players _ _).
  assert (length (players room1) = 1 + length bots) as Hlen.
  { subst room1. simpl. by rewrite length_map. }
  assert (ready_count room1 = length (players room1)) as Hrc.
  { rewrite Hlen. subst room1. unfold ready_count. simpl. f_equal.
    clear. induction bots as [|b bots IH]; simpl; [done|]. by rewrite IH. }
  rewrite Hrc, Nat.eqb_refl, andb_true_r.
  assert ((2 <=? length (players room1)) = true) as -> by (apply Nat.leb_le; lia).
  destruct (start_game_room_Accepted g rid (set_countdown_active false room1))
    as (r' & out & first & E & Hst & _ & Hds & _ & _ & _ & _ & _ & Hl & Hh);
    [done| | |].
  { change (players (set_countdown_active false room1)) with (players room1). lia. }
  { by right. }
  pose proof (start_game_room_inv g rid (set_countdown_active false room1) Hg)
    as (_ & _ & Htot).
  { change (players (set_countdown_active false room1)) with (players room1). lia. }
  { by right. }
  rewrite E in *. simpl in Htot. destruct (Htot Hst) as [Htot' _].
  eexists r', _. split; [done|]. split; [done|].
  split; [by rewrite Hl|]. split; [by rewrite Hds|]. split; [by rewrite Htot', Hds|].
  intros k p Hp. rewrite (Hh k p Hp). destruct (str_eq _ k); lia.
Qed.

Lemma bot_game_starts_on_ready_witness :
  (36 = 36 \/ 36 = 52) /\ 1 <= length [("bot_1", "Кент")] <= 3 /\
  exists r' out,
    toggle_ready g0 "r" "a" (default room_two (create_bot_game "r" "a" "a" [("bot_1", "Кент")] 36))
      = Accepted r' out /\
    game_started r' = true /\
    length (players r') = 1 + length [("bot_1", "Кент")] /\
    deck_size r' = 52 /\
    total_cards r' = 52 /\
    forall k p, get_player k (players r') = Some p -> 5 <= length (hand p).
Proof.
  apply (bot_game_starts_on_ready g0 "r" "a" "a" [("bot_1", "Кент")] 36 _ g0_ok).
  reflexivity.
Defined.

(** ** Scores and the lobby in the rooms the server can reach *)

Lemma queen_bonus_nonpos room : (queen_bonus room <= 0)%Z.
Proof.
  unfold queen_bonus. destruct (last _) as [c|]; [|done].
  destruct (str_eq (rank c) "Q"); [|done]. by destruct (str_eq (suit c) "spades").
Qed.

Lemma scores_of_standings r r' :
  standings r' = standings r -> scores_below_101 r -> scores_below_101 r'.
Proof.
  unfold scores_below_101, standings. intros Hst H.
  assert (forall l, Forall (fun kp : string * Player => (score (snd kp) <= 100)%Z) l <->
                    Forall (fun x : string * (string * bool * Z * bool) =>
                              (snd (fst (snd x)) <= 100)%Z) (map standing l)) as Hiff.
  { intros l. rewrite Forall_map. done. }
  apply Hiff. rewrite Hst. by apply Hiff.
Qed.

Lemma Forall_update_player (P : string * Player -> Prop) pid f ps :
  (forall k p, P (k, p) -> P (k, f p)) ->
  Forall P ps -> Forall P (update_player pid f ps).
Proof.
  intros Hf. induction 1 as [|[k p] ps Hp Hps IH]; simpl; [done|].
  destruct (str_eq k pid); constructor; auto.
Qed.

Lemma Forall_List_filter {A} (P : A -> Prop) f (l : list A) :
  Forall P l -> Forall P (List.filter f l).
Proof.
  rewrite !Forall_forall. intros H x Hx. apply H.
  apply list_elem_of_In in Hx. apply filter_In in Hx as [Hx _]. by apply list_elem_of_In.
Qed.

Lemma Forall_stdpp_filter {A} (P Q : A -> Prop) `{!forall x, Decision (Q x)} (l : list A) :
  Forall P l -> Forall P (filter Q l).
Proof.
  rewrite !Forall_forall. intros HP x Hx. apply HP.
  by apply list_elem_of_filter in Hx as [_ Hx].
Qed.

Lemma game_end_room_scores rid w room r2 kicked out :
  game_end_room rid w room = NextRound r2 kicked out ->
  scores_below_101 r2 /\
  kicked = players_to_kick (players (tally w room).1).
Proof.
  unfold game_end_room.
  destruct (tally w room) as [room1 results] eqn:Ht.
  match goal with |- context [if ?c then RoomClosed _ _ else _] => destruct c end;
    [done|].
  intros [= <- <- <-]. split; [|done].
  unfold scores_below_101, reset_for_new_game. simpl.
  apply Forall_map, Forall_forall. intros kp Hkp. simpl.
  apply del_players_elem in Hkp as [Hkp Hnk].
  apply list_elem_of_In, in_map_iff in Hkp as ([k p] & <- & Hin).
  apply list_elem_of_In in Hin.
  assert (~ (101 < score p)%Z) as Hle.
  { intros Hgt. apply Hnk. apply players_to_kick_elem.
    exists p. split; [|done].
    unfold reset_101. simpl. by destruct (score p =? 101)%Z. }
  unfold reset_101. simpl.
  destruct (score p =? 101)%Z eqn:E; simpl; [lia|].
  apply Z.eqb_neq in E. lia.
Qed.

Lemma after_scores rid o r' :
  scores_below_101 (room_of o) -> after rid o = Some r' -> scores_below_101 r'.
Proof.
  destruct o as [r out|exn r|r w|r out]; simpl; try by intros ? [= <-].
  intros _. destruct (game_end_room rid w r) as [|r1 kicked out] eqn:Hend; [done|].
  intros [= <-]. by apply game_end_room_scores in Hend as [? _].
Qed.

Lemma after_lobby_clean rid o r' :
  game_started (room_of o) = true -> after rid o = Some r' -> lobby_clean r'.
Proof.
  destruct o as [r out|exn r|r w|r out]; simpl;
    try (intros Hst [= <-] Hst'; congruence).
  intros _. destruct (game_end_room rid w r) as [|r1 kicked out] eqn:Hend; [done|].
  intros [= <-] _. unfold game_end_room in Hend.
  destruct (tally w r) as [room1 results].
  revert Hend.
  match goal with |- context [if ?c then RoomClosed _ _ else _] => destruct c end;
    [done|].
  intros [= <- _ _]. unfold reset_for_new_game. simpl. split; [done|]. split; [done|].
  apply Forall_map, Forall_forall. by intros kp _.
Qed.

Lemma start_game_room_not_over g rid room r w :
  start_game_room g rid room <> RoundOver r w.
Proof.
  unfold start_game_room.
  destruct (deal _ _) as [[ps d] ok]. destruct (negb ok); [done|].
  destruct (pop _) as [[first d']|]; [|done].
  destruct (_ =? 0); [done|].
  by destruct (first_card_effects _ _ _) as [[[r5 fid] fc] sh].
Qed.

Lemma toggle_ready_after g rid pid room :
  after rid (toggle_ready g rid pid room) = Some (room_of (toggle_ready g rid pid room)).
Proof.
  unfold toggle_ready. destruct (get_player pid (players room)); [|done].
  match goal with |- context [if ?c then _ else _] => destruct c end.
  - match goal with |- context [start_game_room g rid ?r] =>
      pose proof (start_game_room_not_over g rid r) as Hno;
      destruct (start_game_room g rid r) as [r0 out|exn r0|r0 w|r0 out]
    end; try done. by destruct (Hno r0 w).
  - destruct (_ && _); [done|]. by destruct (_ && _).
Qed.

Lemma countdown_expired_after g rid room :
  after rid (countdown_expired g rid room) = Some (room_of (countdown_expired g rid room)).
Proof.
  unfold countdown_expired. destruct (2 <=? _); [|done].
  match goal with |- context [start_game_room g rid ?r] =>
    pose proof (start_game_room_not_over g rid r) as Hno;
    destruct (start_game_room g rid r) as [r0 out|exn r0|r0 w|r0 out]
  end; try done. by destruct (Hno r0 w).
Qed.

Lemma toggle_ready_lobby g rid pid room :
  Random_ok g -> room_inv room -> scores_below_101 room -> lobby_clean room ->
  scores_below_101 (room_of (toggle_ready g rid pid room)) /\
  lobby_clean (room_of (toggle_ready g rid pid room)).
Proof.
  intros Hg (Hn & Hsz & _) Hs Hc. unfold toggle_ready.
  destruct (get_player pid (players room)); [|done].
  set (room1 := set_players _ room).
  assert (length (players room1) = length (players room)) as Hlen
    by (subst room1; simpl; apply update_player_length).
  assert (scores_below_101 room1) as Hs1.
  { subst room1. unfold scores_below_101. simpl. by apply Forall_update_player. }
  assert (lobby_clean room1) as Hc1.
  { subst room1. intros Hst. destruct (Hc Hst) as (Hd & Hp & Hh). simpl.
    split; [done|]. split; [done|]. by apply Forall_update_player. }
  destruct ((2 <=? length (players room1)) && (ready_count room1 =? length (players room1)))
    eqn:E.
  - apply andb_true_iff in E as [E _]. apply Nat.leb_le in E.
    destruct (start_game_room_Accepted g rid (set_countdown_active false room1))
      as (r' & out & first & -> & Hst & Hstand & _); [done| |done|].
    { change (players (set_countdown_active false room1)) with (players room1). lia. }
    simpl. split.
    + eapply scores_of_standings; [exact Hstand|done].
    + intros Hst'. congruence.
  - clear E. destruct (_ && _); [done|]. by destruct (_ && _).
Qed.

Lemma countdown_expired_lobby g rid room :
  Random_ok g -> room_inv room -> scores_below_101 room -> lobby_clean room ->
  scores_below_101 (room_of (countdown_expired g rid room)) /\
  lobby_clean (room_of (countdown_expired g rid room)).
Proof.
  intros Hg (Hn & Hsz & _) Hs Hc. unfold countdown_expired.
  destruct (2 <=? _) eqn:E; [|done].
  apply Nat.leb_le in E.
  match goal with |- context [start_game_room g rid ?r] => set (room1 := r) end.
  destruct (start_game_room_Accepted g rid room1)
    as (r' & out & first & -> & Hst & Hstand & _); [done| |done|].
  { subst room1. simpl in *. split; [lia|]. etrans; [apply List.filter_length_le|]. done. }
  simpl. split.
  - eapply scores_of_standings; [exact Hstand|].
    subst room1. unfold scores_below_101. simpl. by apply Forall_List_filter.
  - intros Hst'. congruence.
Qed.

Lemma room_step_lobby r r' :
  room_inv r -> scores_below_101 r -> lobby_clean r -> room_step r r' ->
  scores_below_101 r' /\ lobby_clean r'.
Proof.
  intros Hinv Hs Hc Hstep.
  destruct Hstep as [pid nick r' H|g rid pid r' Hg H|g rid r' Hg H|pid size r' H
                     |pid private r' H|pid|g ws rid pid cid chosen r' Hg Hst H
                     |g ws bot_id rid pid r' Hg Hst H|ws rid pid r' Hst H].
  - unfold join_room in H. destruct (game_started r) eqn:Hst; [done|].
    destruct (4 <=? _); [done|]. destruct (existsb _ _); [done|].
    injection H as <-. destruct (Hc Hst) as (Hd & Hp & Hh). split.
    + unfold scores_below_101. simpl. apply Forall_app. split; [done|].
      by repeat constructor.
    + intros _. simpl. split; [done|]. split; [done|].
      apply Forall_app. split; [done|]. by repeat constructor.
  - rewrite toggle_ready_after in H. injection H as <-.
    by apply toggle_ready_lobby.
  - rewrite countdown_expired_after in H. injection H as <-.
    by apply countdown_expired_lobby.
  - unfold change_deck_size in H. destruct (negb _); [done|].
    destruct (game_started r) eqn:Hst; [done|]. destruct (negb _); [done|].
    injection H as <-. split; [done|]. intros _. by apply Hc.
  - unfold toggle_private in H. destruct (negb _); [done|].
    destruct (_ || _); [done|]. injection H as <-. split; [done|]. intros Hst. by apply Hc.
  - unfold disconnect. destruct (game_started r) eqn:Hst; simpl; [done|].
    destruct (existsb _ _); [done|]. destruct (Hc Hst) as (Hd & Hp & Hh). split.
    + unfold scores_below_101, del_player. simpl. by apply Forall_stdpp_filter.
    + intros _. simpl. split; [done|]. split; [done|]. by apply Forall_stdpp_filter.
  - pose proof (play_card_room_same_table g ws rid pid cid chosen r)
      as (Hstand & _ & _ & Hgs & _).
    split; [eapply after_scores; [|exact H]; by eapply scores_of_standings|].
    eapply after_lobby_clean; [|exact H]. congruence.
  - pose proof (draw_card_room_same_table g ws bot_id rid pid r)
      as (Hstand & _ & _ & Hgs & _).
    split; [eapply after_scores; [|exact H]; by eapply scores_of_standings|].
    eapply after_lobby_clean; [|exact H]. congruence.
  - pose proof (skip_turn_room_same_table ws rid pid r) as (Hstand & _ & _ & Hgs & _).
    split; [eapply after_scores; [|exact H]; by eapply scores_of_standings|].
    eapply after_lobby_clean; [|exact H]. congruence.
Qed.

Lemma reachable_lobby r : reachable r -> scores_below_101 r /\ lobby_clean r.
Proof.
  induction 1 as [rid pid nick private|rid pid nick bots size r H|r r' Hr IH Hstep].
  - split; [by repeat constructor|]. intros _. simpl. by repeat constructor.
  - unfold create_bot_game in H. destruct (_ || _); [done|]. destruct (negb _); [done|].
    injection H as <-. split.
    + unfold scores_below_101. simpl. constructor; [done|].
      apply Forall_map, Forall_forall. by intros b _.
    + intros _. simpl. split; [done|]. split; [done|]. constructor; [done|].
      apply Forall_map, Forall_forall. by intros b _.
  - destruct IH as [Hs Hc]. eapply room_step_lobby; [by apply reachable_inv|done..].
Qed.

(** X10: in every room the server can reach no seat has a score above
    100 (a seat that reaches exactly 101 is put back to 0 and a seat above
    101 leaves at that round end), and between two rounds the room holds no
    card at all: the draw pile, the discard pile and every hand are empty.
    Hence the seat that wins a round is never among the seats removed at
    its end. *)
Theorem reachable_scores_and_lobby r :
  reachable r ->
  (forall pid p, (pid, p) ∈ players r -> (score p <= 100)%Z) /\
  (game_started r = false -> total_cards r = 0) /\
  forall g ws rid pid cid chosen r1 w r2 kicked out,
    play_card_room g ws rid pid cid chosen r = RoundOver r1 w ->
    game_end_room rid w r1 = NextRound r2 kicked out ->
    w = pid /\ (w ∉ kicked) /\ w ∈ player_ids r2.
Proof.
  intros Hr. destruct (reachable_lobby r Hr) as [Hs Hc]. split; [|split].
  - intros pid p Hin. unfold scores_below_101 in Hs. rewrite Forall_forall in Hs.
    by apply (Hs (pid, p)).
  - intros Hst. destruct (Hc Hst) as (Hd & Hp & Hh).
    unfold total_cards. rewrite Hd, Hp. simpl.
    induction Hh as [|kp l Hkp _ IH]; simpl; [done|]. by rewrite Hkp, IH.
  - intros g ws rid pid cid chosen r1 w r2 kicked out Hplay Hend.
    pose proof (play_card_room_same_table g ws rid pid cid chosen r) as (Hstand & _).
    rewrite Hplay in Hstand. simpl in Hstand.
    assert (scores_below_101 r1) as Hs1 by (by eapply scores_of_standings).
    assert (w = pid /\ pid ∈ player_ids r1) as [-> Hin].
    { assert (player_ids r1 = player_ids r) as ->.
      { unfold player_ids. unfold standings in Hstand.
        apply (f_equal (map fst)) in Hstand. by rewrite !map_map in Hstand. }
      revert Hplay. unfold play_card_room.
      destruct (player_ids r !! current_player_index r) as [cur|] eqn:Hcur; [|done].
      destruct (str_eq cur pid) eqn:Hme; [|done]. apply str_eq_true in Hme as ->.
      apply list_elem_of_lookup_2 in Hcur. simpl.
      destruct (get_player pid (players r)) as [player|]; [|done].
      destruct (find_card cid (hand player)) as [card|]; [|done].
      destruct (last (discard_pile r)) as [top_card|]; [|done].
      destruct (play_card_check ws card top_card r) as [early|room1] eqn:Hk.
      { intros ->. unfold play_card_check in Hk. destruct (waiting_for_eight r).
        - destruct (_ && _); [|done]. by destruct ws.
        - by destruct (negb _). }
      unfold play_card_apply.
      destruct (play_card_draw_effects g card _) as [[[[r4 nx] fid] fc] sh].
      destruct (get_player pid (players r4)) as [p4|]; [|done].
      destruct (length (hand p4) =? 0); [by intros [= _ <-]|].
      by destruct (play_card_late_effects card chosen nx r4). }
    split; [done|].
    assert (pid ∉ players_to_kick (players (tally pid r1).1)) as Hnk.
    { intros ([k p'] & Hk & [Hin' Hgt%Z.ltb_lt]%filter_In)%list_elem_of_In%in_map_iff.
      simpl in Hk. subst k. apply list_elem_of_In in Hin'.
      apply list_elem_of_lookup_1 in Hin' as [i Hi].
      unfold tally in Hi. simpl in Hi. rewrite !list_lookup_fmap in Hi.
      destruct (players r1 !! i) as [[k p]|] eqn:Hp; [|done]. simpl in Hi.
      unfold tally_player in Hi.
      assert ((k, p) ∈ players r1) as Hkp by (by eapply list_elem_of_lookup_2).
      unfold scores_below_101 in Hs1. rewrite Forall_forall in Hs1.
      specialize (Hs1 _ Hkp). simpl in Hs1.
      pose proof (queen_bonus_nonpos r1) as Hq.
      destruct (str_eq k pid) eqn:E; simpl in Hi; injection Hi as -> <-.
      - simpl in Hgt. lia.
      - by rewrite str_eq_refl in E. }
    apply game_end_room_scores in Hend as Hk. destruct Hk as [_ ->].
    split; [done|].
    unfold game_end_room in Hend. destruct (tally pid r1) as [room1 results] eqn:Ht.
    revert Hend.
    match goal with |- context [if ?c then RoomClosed _ _ else _] => destruct c end;
      [done|].
    intros Hend.
    apply (f_equal (fun x => match x with NextRound r _ _ => Some r | _ => None end))
      in Hend.
    injection Hend as <-. rewrite reset_for_new_game_ids. unfold player_ids. simpl.
    simpl in Hnk.
    apply get_player_is_Some in Hin as [p Hp]. apply get_player_elem in Hp.
    assert ((pid, p) ∈ players r1) as Hp' by done.
    assert (exists q, (pid, q) ∈ players room1) as [q Hq].
    { unfold tally in Ht. injection Ht as <- _. simpl.
      apply list_elem_of_In in Hp'.
      exists (snd (fst (tally_player pid (queen_bonus r1) (pid, p)))).
      apply list_elem_of_In. rewrite map_map. apply in_map_iff. exists (pid, p).
      split; [|done]. unfold tally_player. by destruct (negb _). }
    apply (reset_101_elem _ _ _) in Hq.
    apply list_elem_of_In, in_map_iff.
    eexists (pid, _). split; [done|]. apply list_elem_of_In.
    apply del_players_elem. split; [exact Hq|done].
Qed.

Lemma reachable_scores_and_lobby_witness : total_cards room_two = 0.
Proof.
  destruct (reachable_scores_and_lobby room_two) as (_ & H & _).
  - eapply reach_step.
    + apply (reach_create_room "r" "a" "a" false).
    + apply (step_join _ "b" "b"). reflexivity.
  - apply H. reflexivity.
Defined.

(** ** The deck *)

Lemma map_face_imap (f : nat -> string) (l : list (string * string)) :
  map face (imap (fun n sr => mkCard (fst sr) (snd sr) (f n)) l) = l /\
  map card_id (imap (fun n sr => mkCard (fst sr) (snd sr) (f n)) l) = map f (seq 0 (length l)).
Proof.
  revert f. induction l as [|[s r] l IH]; intros f; simpl; [done|].
  destruct (IH (f ∘ S)) as [IH1 IH2]. split.
  - f_equal. exact IH1.
  - f_equal. etrans; [exact IH2|]. by rewrite <- seq_shift, map_map.
Qed.

(** X11: [create_deck] makes every combination of a suit and a rank
    exactly once, with the ranks 6 to A when the size is 36 and 2 to A for
    any other size, so 36 or 52 cards, the n-th card made carrying the n-th
    fresh id. *)
Theorem create_deck_faces g size :
  Random_ok g ->
  let rks := if size =? 36 then ranks36 else ranks52 in
  NoDup (map face (create_deck g size)) /\
  (forall s r, (s, r) ∈ map face (create_deck g size) <-> s ∈ suits /\ r ∈ rks) /\
  length (create_deck g size) = 4 * length rks /\
  map card_id (create_deck g size) ≡ₚ map (uuid4 g) (seq 0 (4 * length rks)).
Proof.
  intros Hg rks. unfold create_deck. fold rks.
  set (faces := flat_map (fun s => map (fun r => (s, r)) rks) suits).
  destruct (map_face_imap (uuid4 g) faces) as [Hf Hi].
  pose proof (shuffle_perm g Hg
                (imap (fun n sr => mkCard (fst sr) (snd sr) (uuid4 g n)) faces)) as Hperm.
  assert (length faces = 4 * length rks) as Hlen.
  { subst faces rks. by destruct (size =? 36). }
  split; [|split; [|split]].
  - rewrite Hperm, Hf. subst faces rks.
    destruct (size =? 36); apply (bool_decide_unpack _); vm_compute; exact I.
  - intros s r. rewrite Hperm, Hf. subst faces.
    rewrite list_elem_of_In, in_flat_map. split.
    + intros (s' & Hs & Hr). apply in_map_iff in Hr as (r' & [= -> ->] & Hr).
      split; by apply list_elem_of_In.
    + intros [Hs Hr]. exists s. split; [by apply list_elem_of_In|].
      apply in_map_iff. exists r. split; [done|by apply list_elem_of_In].
  - rewrite Hperm, length_imap. exact Hlen.
  - rewrite Hperm, Hi, Hlen. done.
Qed.

Lemma create_deck_faces_witness :
  length (create_deck g0 36) = 4 * length ranks36.
Proof.
  destruct (create_deck_faces g0 36 g0_ok) as (_ & _ & H & _). exact H.
Defined.

(** ** The public list of rooms *)

(** X12: [broadcast_rooms] removes exactly the rooms that have seats and
    no human among them, touches neither the connections nor the seat
    index, and lists exactly the rooms left that are not started, not
    private, with every score at 0 and a human seat: a private room, a room
    in play and a room with a score are never listed. *)
Theorem rooms_list_is_public s :
  clients (broadcast_rooms s).1 = clients s /\
  player_rooms (broadcast_rooms s).1 = player_rooms s /\
  (forall rid,
     rooms (broadcast_rooms s).1 !! rid =
     match rooms s !! rid with
     | Some room => if bot_only room then None else Some room
     | None => None
     end) /\
  exists l,
    (broadcast_rooms s).2 = [BroadcastRooms (ev_rooms_list l)] /\
    forall d,
      d ∈ l <->
      exists rid room,
        rooms (broadcast_rooms s).1 !! rid = Some room /\ d = Room_to_dict room /\
        game_started room = false /\ is_private room = false /\
        Forall (fun kp : string * Player => score (snd kp) = 0%Z) (players room) /\
        Exists (fun kp : string * Player => is_bot (snd kp) = false) (players room).
Proof.
  unfold broadcast_rooms. simpl. split; [done|]. split; [done|]. split.
  - intros rid. unfold cleanup_bot_only_rooms. simpl.
    rewrite map_lookup_filter. destruct (rooms s !! rid) as [room|]; [|done].
    simpl. unfold bot_only. simpl.
    destruct ((length (human_players room) =? 0) && (0 <? length (players room)));
      [by rewrite option_guard_False|by rewrite option_guard_True].
  - eexists. split; [done|]. intros d.
    rewrite list_elem_of_In, in_map_iff. split.
    + intros (room & <- & [Hin Hav]%filter_In).
      apply in_map_iff in Hin as ([rid room'] & Heq & Hin). simpl in Heq. subst room'.
      apply list_elem_of_In, elem_of_map_to_list in Hin.
      exists rid, room. split; [done|]. split; [done|].
      unfold available_room in Hav.
      apply andb_true_iff in Hav as [Hav Hpriv].
      apply andb_true_iff in Hav as [Hav Hhum].
      apply andb_true_iff in Hav as [Hst Hsc].
      split; [by destruct (game_started room)|].
      split; [by destruct (is_private room)|]. split.
      * apply Forall_forall. intros kp Hkp. rewrite forallb_forall in Hsc.
        apply list_elem_of_In in Hkp. by apply Hsc, Z.eqb_eq in Hkp.
      * apply Exists_exists. apply existsb_exists in Hhum as (kp & Hkp & Hb).
        exists kp. split; [by apply list_elem_of_In|]. by destruct (is_bot (snd kp)).
    + intros (rid & room & Hroom & -> & Hst & Hpriv & Hsc & Hhum).
      exists room. split; [done|]. apply filter_In. split.
      * apply in_map_iff. exists (rid, room). split; [done|].
        by apply list_elem_of_In, elem_of_map_to_list.
      * unfold available_room. rewrite Hst, Hpriv. simpl.
        apply andb_true_iff. split; [|done]. apply andb_true_iff. split.
        -- apply forallb_forall. intros kp Hkp. rewrite Forall_forall in Hsc.
           apply Z.eqb_eq, Hsc. by apply list_elem_of_In.
        -- apply existsb_exists. apply Exists_exists in Hhum as (kp & Hkp & Hb).
           exists kp. split; [by apply list_elem_of_In|]. by rewrite Hb.
Qed.

(** ** The bot *)

Lemma cc0_ok : CardChoice_ok cc0.
Proof. intros [|c l] Hl; [done|]. apply elem_of_cons. by left. Qed.

Lemma g0_choice_ok : Choice_ok g0.
Proof. intros [|c l] Hl; [done|]. apply elem_of_cons. by left. Qed.

Lemma nonempty_true {A} (l : list A) : nonempty l = true <-> l <> [].
Proof. by destruct l. Qed.

Lemma nonempty_false {A} (l : list A) : nonempty l = false <-> l = [].
Proof. by destruct l. Qed.

Lemma insert_by_points_perm c l : insert_by_points c l ≡ₚ c :: l.
Proof.
  induction l as [|d l IH]; simpl; [done|].
  destruct (_ <? _)%Z; [|done]. rewrite IH. apply Permutation_swap.
Qed.

Lemma sort_by_points_perm l : sort_by_points l ≡ₚ l.
Proof.
  induction l as [|c l IH]; simpl; [done|].
  rewrite insert_by_points_perm. by rewrite IH.
Qed.

(** The first card of the sorted list has the highest value. *)
Lemma insert_by_points_head c s :
  (forall h, head s = Some h ->
             Forall (fun d => (calculate_card_points d <= calculate_card_points h)%Z) s) ->
  exists h, head (insert_by_points c s) = Some h /\
            Forall (fun d => (calculate_card_points d <= calculate_card_points h)%Z)
                   (insert_by_points c s).
Proof.
  destruct s as [|d s]; simpl.
  - intros _. exists c. split; [done|]. by repeat constructor.
  - intros H. specialize (H d eq_refl).
    destruct (calculate_card_points c <? calculate_card_points d)%Z eqn:E.
    + apply Z.ltb_lt in E. exists d. split; [done|].
      apply Forall_cons in H as [Hd Hs]. constructor; [done|].
      rewrite insert_by_points_perm. constructor; [lia|done].
    + apply Z.ltb_ge in E. exists c. split; [done|].
      constructor; [lia|]. eapply Forall_impl; [exact H|]. simpl. intros x Hx. lia.
Qed.

Lemma sort_by_points_head l h :
  head (sort_by_points l) = Some h ->
  Forall (fun d => (calculate_card_points d <= calculate_card_points h)%Z) (sort_by_points l).
Proof.
  revert h. induction l as [|c l IH]; intros h; simpl; [done|].
  destruct (insert_by_points_head c (sort_by_points l) IH) as (h' & Hh & Hall).
  rewrite Hh. by intros [= <-].
Qed.

Lemma sort_by_points_max l h :
  head (sort_by_points l) = Some h ->
  h ∈ l /\ forall c, c ∈ l -> (calculate_card_points c <= calculate_card_points h)%Z.
Proof.
  intros Hh. split.
  - rewrite <- (sort_by_points_perm l). destruct (sort_by_points l); [done|].
    injection Hh as ->. apply elem_of_cons. by left.
  - intros c Hc. apply sort_by_points_head in Hh. rewrite Forall_forall in Hh.
    apply Hh. by rewrite sort_by_points_perm.
Qed.

Lemma List_filter_elem {A} (f : A -> bool) l x : x ∈ List.filter f l <-> x ∈ l /\ f x = true.
Proof. by rewrite !list_elem_of_In, filter_In. Qed.

Lemma List_filter_nil {A} (f : A -> bool) l :
  List.filter f l = [] <-> forall x, x ∈ l -> f x = false.
Proof.
  split.
  - intros H x Hx. destruct (f x) eqn:E; [|done].
    assert (x ∈ List.filter f l) as Hin by (by apply List_filter_elem).
    rewrite H in Hin. by apply elem_of_nil in Hin.
  - intros H. destruct (List.filter f l) as [|x l'] eqn:E; [done|].
    assert (x ∈ List.filter f l) as Hin by (rewrite E; apply elem_of_cons; by left).
    apply List_filter_elem in Hin as [Hin Hf]. rewrite (H x Hin) in Hf. done.
Qed.

(** The card the bot picks among its playable cards. *)
Lemma bot_choose_card_spec cc room playable :
  CardChoice_ok cc -> playable <> [] ->
  exists card,
    bot_choose_card cc room playable = Some card /\
    card ∈ playable /\
    (forall c, c ∈ playable -> str_in (rank c) (priority_ranks room) = true ->
               str_in (rank card) (priority_ranks room) = true) /\
    (waiting_for_eight room = false ->
     (forall c, c ∈ playable -> str_in (rank c) (priority_ranks room) = false) ->
     forall c, c ∈ playable ->
               (calculate_card_points c <= calculate_card_points card)%Z).
Proof.
  intros Hcc Hne. unfold bot_choose_card.
  set (special := List.filter _ playable).
  destruct (nonempty special) eqn:Hsp.
  - apply nonempty_true in Hsp. pose proof (Hcc _ Hsp) as Hin.
    apply List_filter_elem in Hin as [Hin Hpr].
    exists (cc special). split; [done|]. split; [done|]. split; [done|].
    intros _ Hnone. specialize (Hnone _ Hin). congruence.
  - apply nonempty_false in Hsp.
    assert (forall c, c ∈ playable -> str_in (rank c) (priority_ranks room) = false) as Hno.
    { intros c Hc. exact (proj1 (List_filter_nil _ _) Hsp c Hc). }
    destruct (waiting_for_eight room); cbn [negb].
    + exists (cc playable). split; [done|]. split; [by apply Hcc|].
      split; [|done]. intros c Hc Hpr. rewrite (Hno c Hc) in Hpr. done.
    + destruct (head (sort_by_points playable)) as [first|] eqn:Hh.
      2:{ apply head_None in Hh. exfalso. apply Hne.
          apply Permutation_nil. by rewrite <- (sort_by_points_perm playable), Hh. }
      apply sort_by_points_max in Hh as [Hfirst Hmax].
      set (best := List.filter _ (sort_by_points playable)).
      assert (best <> []) as Hbest.
      { intros E. assert (first ∈ best) as Hin; [|rewrite E in Hin; by apply elem_of_nil in Hin].
        apply List_filter_elem. split; [by rewrite sort_by_points_perm|]. by apply Z.eqb_eq. }
      pose proof (Hcc _ Hbest) as Hin. apply List_filter_elem in Hin as [Hin Heq].
      rewrite sort_by_points_perm in Hin. apply Z.eqb_eq in Heq.
      exists (cc best). split; [done|]. split; [done|]. split.
      * intros c Hc Hpr. rewrite (Hno c Hc) in Hpr. done.
      * intros _ _ c Hc. rewrite Heq. by apply Hmax.
Qed.

(** The bot's decision, unfolded. *)
Lemma bot_decide_turn g cc bot_id room :
  bot_decide g cc bot_id room <> BotIdle ->
  exists bot top_card,
    game_started room = true /\
    get_player bot_id (players room) = Some bot /\ is_bot bot = true /\
    player_ids room !! current_player_index room = Some bot_id /\
    last (discard_pile room) = Some top_card /\
    bot_decide g cc bot_id room =
      let playable_cards := List.filter (bot_playable room top_card) (hand bot) in
      if nonempty playable_cards then
        match bot_choose_card cc room playable_cards with
        | None => BotRaise "IndexError"
        | Some card_to_play =>
            BotPlay card_to_play (bot_choose_suit g room bot card_to_play)
        end
      else if card_drawn_this_turn room then BotSkip
      else BotDraw.
Proof.
  unfold bot_decide. destruct (game_started room); simpl; [|done].
  destruct (get_player bot_id (players room)) as [bot|]; [|done].
  destruct (is_bot bot) eqn:Hbot; simpl; [|done].
  destruct (length (player_ids room) <=? current_player_index room) eqn:Hlen; [done|].
  apply Nat.leb_gt in Hlen.
  destruct (lookup_lt_is_Some_2 _ _ Hlen) as [cur Hcur].
  unfold id_at. rewrite Hcur. simpl.
  destruct (str_eq cur bot_id) eqn:Hme; simpl; [|done]. apply str_eq_true in Hme as ->.
  destruct (last (discard_pile room)) as [top|]; [|done].
  intros _. by exists bot, top.
Qed.

Lemma bot_decide_on_turn g cc bot_id room bot top_card :
  game_started room = true ->
  get_player bot_id (players room) = Some bot -> is_bot bot = true ->
  player_ids room !! current_player_index room = Some bot_id ->
  last (discard_pile room) = Some top_card ->
  bot_decide g cc bot_id room =
    let playable_cards := List.filter (bot_playable room top_card) (hand bot) in
    if nonempty playable_cards then
      match bot_choose_card cc room playable_cards with
      | None => BotRaise "IndexError"
      | Some card_to_play =>
          BotPlay card_to_play (bot_choose_suit g room bot card_to_play)
      end
    else if card_drawn_this_turn room then BotSkip
    else BotDraw.
Proof.
  intros Hst Hp Hb Hcur Htop. unfold bot_decide. rewrite Hst, Hp, Hb. simpl.
  assert ((length (player_ids room) <=? current_player_index room) = false) as ->.
  { apply Nat.leb_gt. by eapply lookup_lt_Some. }
  unfold id_at. rewrite Hcur. simpl. by rewrite str_eq_refl, Htop.
Qed.

Lemma find_card_unique card h :
  NoDup (map card_id h) -> card ∈ h -> find_card (Some (card_id card)) h = Some card.
Proof.
  unfold find_card. induction h as [|c h IH]; simpl.
  - intros _ H. by apply elem_of_nil in H.
  - intros [Hnin Hnd]%NoDup_cons [->|Hin]%elem_of_cons.
    + by rewrite str_eq_refl.
    + destruct (str_eq (card_id c) (card_id card)) eqn:E; [|by apply IH].
      apply str_eq_true in E. exfalso. apply Hnin. rewrite E.
      apply list_elem_of_fmap. by exists card.
Qed.

(** X13: the bot never asks for a play [handle_play_card] would refuse.
    On its turn the card it names is in its hand and passes the legality
    gate (in an 8-chain: a 2 or a card drawn in the chain), so the play is
    carried out; the choice itself never raises. Card ids are unique in a
    hand. *)
Theorem bot_play_is_accepted g cc rid bot_id room bot card chosen :
  CardChoice_ok cc ->
  get_player bot_id (players room) = Some bot ->
  NoDup (map card_id (hand bot)) ->
  bot_decide g cc bot_id room = BotPlay card chosen ->
  card ∈ hand bot /\
  (forall exn, bot_decide g cc bot_id room <> BotRaise exn) /\
  forall g', accepted (play_card_room g' None rid bot_id (Some (card_id card)) chosen room).
Proof.
  intros Hcc Hp Hnd Hdec.
  destruct (bot_decide_turn g cc bot_id room) as (bot' & top & Hst & Hp' & Hb & Hcur & Htop & E).
  { by rewrite Hdec. }
  rewrite Hp in Hp'. injection Hp' as <-.
  rewrite E in Hdec. simpl in Hdec.
  destruct (nonempty (List.filter (bot_playable room top) (hand bot))) eqn:Hne.
  2:{ by destruct (card_drawn_this_turn room). }
  apply nonempty_true in Hne.
  destruct (bot_choose_card_spec cc room _ Hcc Hne) as (c & Hc & Hin & _).
  rewrite Hc in Hdec. injection Hdec as -> <-.
  apply List_filter_elem in Hin as [Hin Hplay].
  split; [done|]. split.
  { intros exn. rewrite E. simpl.
    destruct (nonempty _); [by rewrite Hc|by destruct (card_drawn_this_turn room)]. }
  intros g'. unfold play_card_room.
  rewrite Hcur, str_eq_refl, Hp. cbn [negb].
  rewrite (find_card_unique _ _ Hnd Hin), Htop.
  assert (bot_id ∈ player_ids room) as Hmem by (by eapply list_elem_of_lookup_2).
  unfold play_card_check. unfold bot_playable in Hplay.
  destruct (waiting_for_eight room) eqn:Hw.
  - assert (negb (str_eq (rank card) "2") &&
            negb match eight_drawn_cards room with
                 | Some s => bool_decide (card_id card ∈ s)
                 | None => false
                 end = false) as ->.
    { destruct (str_eq (rank card) "2"); [done|]. simpl. by rewrite Hplay. }
    apply play_card_apply_accepted.
    unfold clear_eight_drawn_cards. simpl. by destruct (eight_drawn_cards room).
  - rewrite Hplay. simpl. by apply play_card_apply_accepted.
Qed.

Lemma choice_remove_dups g l :
  Choice_ok g -> l <> [] -> choice g (remove_dups l) ∈ l.
Proof.
  intros Hg Hne. rewrite <- elem_of_remove_dups. apply Hg.
  intros E. apply Hne. destruct l as [|x l]; [done|].
  assert (x ∈ remove_dups (x :: l)) as Hin by (apply elem_of_remove_dups, elem_of_cons; by left).
  rewrite E in Hin. by apply elem_of_nil in Hin.
Qed.

Lemma bot_choose_suit_spec g room bot card :
  Choice_ok g ->
  let others :=
    List.filter (fun c => negb (str_eq (card_id c) (card_id card))) (hand bot) in
  if str_eq (rank card) "Q" then
    exists s,
      bot_choose_suit g room bot card = Some s /\
      ((exists c, c ∈ others /\ special room c = true) ->
       exists c, c ∈ others /\ special room c = true /\ suit c = s) /\
      (others <> [] -> exists c, c ∈ others /\ suit c = s) /\
      (others = [] -> s ∈ suits)
  else bot_choose_suit g room bot card = None.
Proof.
  intros Hg others. unfold bot_choose_suit. fold others.
  destruct (str_eq (rank card) "Q"); [|done].
  set (sp := List.filter _ others).
  assert (forall c, c ∈ sp <-> c ∈ others /\ special room c = true) as Hsp.
  { intros c. apply List_filter_elem. }
  destruct (nonempty sp) eqn:Hne.
  - apply nonempty_true in Hne.
    assert (map suit sp <> []) as Hne' by (by destruct sp).
    pose proof (choice_remove_dups g _ Hg Hne') as Hin.
    apply list_elem_of_fmap in Hin as (c & Hs & Hc).
    apply Hsp in Hc as [Hc Hspc].
    eexists. split; [done|]. split; [|split].
    + intros _. by exists c.
    + intros _. by exists c.
    + intros E. rewrite E in Hc. by apply elem_of_nil in Hc.
  - apply nonempty_false in Hne.
    destruct (nonempty (remove_dups (map suit others))) eqn:Hne2.
    + assert (others <> []) as Ho.
      { intros E. rewrite E in Hne2. done. }
      assert (map suit others <> []) as Hne' by (by destruct others).
      pose proof (choice_remove_dups g _ Hg Hne') as Hin.
      apply list_elem_of_fmap in Hin as (c & Hs & Hc).
      eexists. split; [done|]. split; [|split].
      * intros (c' & Hc' & Hs'). assert (c' ∈ sp) as Hin' by (by apply Hsp).
        rewrite Hne in Hin'. by apply elem_of_nil in Hin'.
      * intros _. by exists c.
      * done.
    + apply nonempty_false in Hne2.
      assert (others = []) as Ho.
      { destruct others as [|c o]; [done|]. exfalso.
        assert (suit c ∈ remove_dups (map suit (c :: o))) as Hin
          by (apply elem_of_remove_dups; simpl; apply elem_of_cons; by left).
        rewrite Hne2 in Hin. by apply elem_of_nil in Hin. }
      eexists. split; [done|]. split; [|split].
      * intros (c' & Hc' & _). rewrite Ho in Hc'. by apply elem_of_nil in Hc'.
      * done.
      * intros _. by apply Hg.
Qed.

(** X14: how the bot picks. Among the cards it may play it takes a
    special card (7, 6, A, and 8 with the deck of 52) whenever there is one;
    with none, outside an 8-chain, a card of the highest value; with a Queen
    it always names a suit: the suit of another special card of its hand if
    it has one, else of another card of its hand, else, the Queen being its
    last card, one of the four suits; with any other card it names none. *)
Theorem bot_prefers_special_then_costly g cc bot_id room card chosen :
  CardChoice_ok cc -> Choice_ok g ->
  bot_decide g cc bot_id room = BotPlay card chosen ->
  exists bot top_card,
    get_player bot_id (players room) = Some bot /\
    last (discard_pile room) = Some top_card /\
    card ∈ hand bot /\ bot_playable room top_card card = true /\
    (forall c, c ∈ hand bot -> bot_playable room top_card c = true ->
               special room c = true -> special room card = true) /\
    (waiting_for_eight room = false -> special room card = false ->
     forall c, c ∈ hand bot -> bot_playable room top_card c = true ->
               (calculate_card_points c <= calculate_card_points card)%Z) /\
    let others :=
      List.filter (fun c => negb (str_eq (card_id c) (card_id card))) (hand bot) in
    if str_eq (rank card) "Q" then
      exists s,
        chosen = Some s /\
        ((exists c, c ∈ others /\ special room c = true) ->
         exists c, c ∈ others /\ special room c = true /\ suit c = s) /\
        (others <> [] -> exists c, c ∈ others /\ suit c = s) /\
        (others = [] -> s ∈ suits)
    else chosen = None.
Proof.
  intros Hcc Hg Hdec.
  destruct (bot_decide_turn g cc bot_id room) as (bot & top & Hst & Hp & Hb & Hcur & Htop & E).
  { by rewrite Hdec. }
  rewrite E in Hdec. simpl in Hdec.
  destruct (nonempty (List.filter (bot_playable room top) (hand bot))) eqn:Hne.
  2:{ by destruct (card_drawn_this_turn room). }
  apply nonempty_true in Hne.
  destruct (bot_choose_card_spec cc room _ Hcc Hne) as (c & Hc & Hin & Hspec & Hmax).
  rewrite Hc in Hdec. injection Hdec as -> <-.
  apply List_filter_elem in Hin as [Hin Hplay].
  exists bot, top. split; [done|]. split; [done|]. split; [done|]. split; [done|].
  split; [|split].
  - intros c Hc' Hpl Hs. apply (Hspec c); [by apply List_filter_elem|done].
  - intros Hw Hns c Hc' Hpl. apply Hmax; [done| |by apply List_filter_elem].
    intros c' [Hc'' Hpl']%List_filter_elem.
    destruct (str_in (rank c') (priority_ranks room)) eqn:Es; [|done].
    assert (special room card = true) as Hyes; [|congruence].
    apply (Hspec c'); [by apply List_filter_elem|done].
  - apply (bot_choose_suit_spec g room bot card Hg).
Qed.

(** X15: on its turn the bot always acts: it plays when it holds a card it
    may play; with none it takes a card if it has not drawn in this turn,
    and passes if it has, which [handle_skip_turn] carries out when no
    8-chain is pending. *)
Theorem bot_draws_or_passes g cc bot_id room bot top_card :
  CardChoice_ok cc ->
  game_started room = true ->
  get_player bot_id (players room) = Some bot -> is_bot bot = true ->
  player_ids room !! current_player_index room = Some bot_id ->
  last (discard_pile room) = Some top_card ->
  match bot_decide g cc bot_id room with
  | BotPlay card _ => card ∈ hand bot /\ bot_playable room top_card card = true
  | BotDraw =>
      (forall c, c ∈ hand bot -> bot_playable room top_card c = false) /\
      card_drawn_this_turn room = false
  | BotSkip =>
      (forall c, c ∈ hand bot -> bot_playable room top_card c = false) /\
      card_drawn_this_turn room = true /\
      (waiting_for_eight room = false ->
       forall rid, accepted (skip_turn_room None rid bot_id room))
  | BotIdle | BotRaise _ => False
  end.
Proof.
  intros Hcc Hst Hp Hb Hcur Htop.
  rewrite (bot_decide_on_turn g cc bot_id room bot top_card Hst Hp Hb Hcur Htop). simpl.
  destruct (nonempty (List.filter (bot_playable room top_card) (hand bot))) eqn:Hne.
  - apply nonempty_true in Hne.
    destruct (bot_choose_card_spec cc room _ Hcc Hne) as (c & -> & Hin & _).
    by apply List_filter_elem in Hin.
  - apply nonempty_false in Hne.
    assert (forall c, c ∈ hand bot -> bot_playable room top_card c = false) as Hno.
    { intros c Hc. exact (proj1 (List_filter_nil _ _) Hne c Hc). }
    destruct (card_drawn_this_turn room) eqn:Hl; [|done].
    split; [done|]. split; [done|]. intros Hw rid.
    unfold skip_turn_room. by rewrite Hcur, str_eq_refl, Hw, Hl.
Qed.

Lemma bot_draws_or_passes_witness :
  (forall c, c ∈ [c9d] -> bot_playable room_exhausted c3c c = false) /\
  card_drawn_this_turn room_exhausted = false.
Proof.
  exact (bot_draws_or_passes g0 cc0 "b" room_exhausted (snd (seat "b" [c9d] 0 true)) c3c
           cc0_ok eq_refl eq_refl eq_refl eq_refl eq_refl).
Defined.

Lemma bot_play_is_accepted_witness :
  accepted (play_card_room g0 None "r" "b" (Some (card_id cQs)) (Some "diamonds") room_bot).
Proof.
  destruct (bot_play_is_accepted g0 cc0 "r" "b" room_bot (snd (seat "b" [c9d; cQs; c3c] 0 true))
              cQs (Some "diamonds") cc0_ok) as (_ & _ & H).
  - reflexivity.
  - apply (bool_decide_unpack _). vm_compute. exact I.
  - vm_compute. reflexivity.
  - exact (H g0).
Defined.

Lemma bot_prefers_special_then_costly_witness :
  exists bot top_card,
    get_player "b" (players room_bot) = Some bot /\
    last (discard_pile room_bot) = Some top_card /\
    cQs ∈ hand bot.
Proof.
  destruct (bot_prefers_special_then_costly g0 cc0 "b" room_bot cQs (Some "diamonds")
              cc0_ok g0_choice_ok) as (bot & top & Hp & Ht & Hin & _).
  - vm_compute. reflexivity.
  - by exists bot, top.
Defined.

(** *** The bot's nested calls *)

Lemma resolve_bot s bot_id room_id :
  bot_id <> "" -> room_id <> "" ->
  resolve s None (Some bot_id) (Some room_id) = Some (bot_id, room_id).
Proof.
  intros Hb Hr. unfold resolve. simpl.
  by rewrite (proj2 (str_eq_false _ _) Hb), (proj2 (str_eq_false _ _) Hr).
Qed.

Lemma rooms_put_room rid room s : rooms (put_room rid room s) !! rid = Some room.
Proof. unfold put_room. simpl. apply lookup_insert_eq. Qed.

Lemma make_bot_move_S fuel gs cc s room_id bot_id :
  make_bot_move (S fuel) gs cc s room_id bot_id =
  match rooms s !! room_id with
  | None => Some (Return s [])
  | Some room =>
      match bot_decide (gs 0) cc bot_id room with
      | BotIdle => Some (Return s [])
      | BotRaise exn => Some (Except exn s [])
      | BotPlay card chosen =>
          Some (handle_play_card (gs 0) s None (Some (card_id card)) chosen
                  (Some bot_id) (Some room_id))
      | BotSkip => Some (handle_skip_turn s None (Some bot_id) (Some room_id))
      | BotDraw =>
          match handle_draw_card (gs 0) s None (Some bot_id) (Some room_id) with
          | Except exn s' out => Some (Except exn s' out)
          | Return s' out =>
              match rooms s' !! room_id with
              | None => Some (Return s' out)
              | Some room' =>
                  if negb (waiting_for_eight room') then
                    match make_bot_move fuel (fun n => gs (S n)) cc s' room_id bot_id with
                    | Some (Return s'' out') => Some (Return s'' (out ++ out'))
                    | Some (Except exn s'' out') => Some (Except exn s'' (out ++ out'))
                    | None => None
                    end
                  else Some (Return s' out)
              end
          end
      end
  end.
Proof. reflexivity. Qed.

Arguments make_bot_move : simpl never.

(** A bot that has drawn in this turn does not call itself again. *)
Lemma make_bot_move_latched fuel gs cc s room_id bot_id room :
  rooms s !! room_id = Some room ->
  card_drawn_this_turn room = true ->
  exists r, make_bot_move (S fuel) gs cc s room_id bot_id = Some r /\
            make_bot_move 1 gs cc s room_id bot_id = Some r.
Proof.
  intros Hroom Hl. rewrite (make_bot_move_S fuel), (make_bot_move_S 0), Hroom.
  destruct (bot_decide (gs 0) cc bot_id room) as [|exn|card chosen| |] eqn:Hdec; eauto.
  exfalso. destruct (bot_decide_turn (gs 0) cc bot_id room)
    as (bot & top & _ & _ & _ & _ & _ & E); [by rewrite Hdec|].
  rewrite E in Hdec. simpl in Hdec. rewrite Hl in Hdec.
  destruct (nonempty _); [|done]. by destruct (bot_choose_card _ _ _).
Qed.

(** What a draw the bot has decided leaves behind. *)
Lemma bot_draw_outcome g cc g' rid bot_id room :
  bot_decide g cc bot_id room = BotDraw ->
  match draw_card_room g' None (Some bot_id) rid bot_id room with
  | Raised _ _ => True
  | RoundOver _ _ => False
  | Rejected r' _ | Accepted r' _ =>
      waiting_for_eight r' = true \/ card_drawn_this_turn r' = true \/
      (waiting_for_eight room = true /\ waiting_for_eight r' = false /\
       card_drawn_this_turn r' = false)
  end.
Proof.
  intros Hdec.
  destruct (bot_decide_turn g cc bot_id room)
    as (bot & top & _ & _ & _ & Hcur & _ & E); [by rewrite Hdec|].
  rewrite E in Hdec. simpl in Hdec.
  assert (card_drawn_this_turn room = false) as Hl.
  { destruct (nonempty _); [by destruct (bot_choose_card _ _ _)|].
    by destruct (card_drawn_this_turn room). }
  unfold draw_card_room. rewrite Hcur, str_eq_refl. simpl.
  destruct (waiting_for_eight room) eqn:Hw.
  - destruct (eight_draw_used room); [by left|].
    destruct (eight_draw_loop _ _ _ _ _ _) as [[r2 drawn] sh] eqn:Hloop.
    apply eight_draw_loop_frame in Hloop as (_ & _ & _ & _ & _ & _ & Hw2 & Hl2 & _).
    simpl in Hw2, Hl2.
    destruct (waiting_for_eight (eight_draw_finish r2 drawn)) eqn:Hw3; [by left|].
    right. right. split; [done|]. split; [done|].
    unfold eight_draw_finish, eight_chain_drop. destruct (last drawn); simpl; [|congruence].
    destruct (negb _); simpl; congruence.
  - rewrite Hl. destruct (replenish_deck g' room) as [r1 sh].
    destruct (pop (deck r1)) as [[c d]|]; simpl; [|done]. right. by left.
Qed.

Lemma handle_draw_card_bot g s rid bot_id room :
  bot_id <> "" -> rid <> "" ->
  rooms s !! rid = Some room -> game_started room = true ->
  handle_draw_card g s None (Some bot_id) (Some rid) =
  match draw_card_room g None (Some bot_id) rid bot_id room with
  | Rejected room' out => Return (put_room rid room' s) out
  | Raised exn room' => Except exn (put_room rid room' s) []
  | RoundOver room' _ => Return (put_room rid room' s) []
  | Accepted room' out => Return (put_room rid room' s) out
  end.
Proof.
  intros Hb Hr Hroom Hst. unfold handle_draw_card, resolve_room.
  by rewrite (resolve_bot s bot_id rid Hb Hr), Hroom, Hst.
Qed.

Lemma make_bot_move_calm fuel gs cc s room_id bot_id room :
  bot_id <> "" -> room_id <> "" ->
  rooms s !! room_id = Some room ->
  waiting_for_eight room = false ->
  exists r, make_bot_move (S (S fuel)) gs cc s room_id bot_id = Some r /\
            make_bot_move 2 gs cc s room_id bot_id = Some r.
Proof.
  intros Hb Hr Hroom Hw.
  rewrite (make_bot_move_S (S fuel)), (make_bot_move_S 1), Hroom.
  destruct (bot_decide (gs 0) cc bot_id room) as [|exn|card chosen| |] eqn:Hdec; eauto.
  destruct (bot_decide_turn (gs 0) cc bot_id room)
    as (bot & top & Hst & _); [by rewrite Hdec|].
  rewrite (handle_draw_card_bot (gs 0) s room_id bot_id room Hb Hr Hroom Hst).
  pose proof (bot_draw_outcome (gs 0) cc (gs 0) room_id bot_id room Hdec) as Hout.
  destruct (draw_card_room (gs 0) None (Some bot_id) room_id bot_id room)
    as [r' out|exn r'|r' w|r' out]; [| eauto | done |].
  - rewrite rooms_put_room.
    destruct (waiting_for_eight r') eqn:Hw'; cbn [negb]; [eauto|].
    destruct Hout as [?|[Hl|(? & _)]]; [done| |congruence].
    destruct (make_bot_move_latched fuel (fun n => gs (S n)) cc (put_room room_id r' s)
                room_id bot_id r' (rooms_put_room _ _ _) Hl) as (r & -> & ->).
    destruct r; eauto.
  - rewrite rooms_put_room.
    destruct (waiting_for_eight r') eqn:Hw'; cbn [negb]; [eauto|].
    destruct Hout as [?|[Hl|(? & _)]]; [done| |congruence].
    destruct (make_bot_move_latched fuel (fun n => gs (S n)) cc (put_room room_id r' s)
                room_id bot_id r' (rooms_put_room _ _ _) Hl) as (r & -> & ->).
    destruct r; eauto.
Qed.

(** X16: [make_bot_move] always returns, and calls itself at most twice:
    after a voluntary draw the bot plays or passes, and after a draw on an
    8 it stops or makes one voluntary draw. Three nested calls are enough
    whatever the server holds; the result does not depend on the bound. *)
Theorem make_bot_move_returns gs cc s room_id bot_id :
  bot_id <> "" -> room_id <> "" ->
  exists r, forall fuel, 3 <= fuel -> make_bot_move fuel gs cc s room_id bot_id = Some r.
Proof.
  intros Hb Hr.
  assert (forall f, exists r,
            make_bot_move (S (S (S f))) gs cc s room_id bot_id = Some r /\
            make_bot_move 3 gs cc s room_id bot_id = Some r) as Hstep.
  { intros f. rewrite (make_bot_move_S (S (S f))), (make_bot_move_S 2).
    destruct (rooms s !! room_id) as [room|] eqn:Hroom; [|eauto].
    destruct (bot_decide (gs 0) cc bot_id room) as [|exn|card chosen| |] eqn:Hdec; eauto.
    destruct (bot_decide_turn (gs 0) cc bot_id room)
      as (bot & top & Hst & _); [by rewrite Hdec|].
    rewrite (handle_draw_card_bot (gs 0) s room_id bot_id room Hb Hr Hroom Hst).
    pose proof (bot_draw_outcome (gs 0) cc (gs 0) room_id bot_id room Hdec) as Hout.
    destruct (draw_card_room (gs 0) None (Some bot_id) room_id bot_id room)
      as [r' out|exn r'|r' w|r' out]; [| eauto | done |].
    - rewrite rooms_put_room.
      destruct (waiting_for_eight r') eqn:Hw'; cbn [negb]; [eauto|].
      destruct (make_bot_move_calm f (fun n => gs (S n)) cc (put_room room_id r' s)
                  room_id bot_id r' Hb Hr (rooms_put_room _ _ _) Hw') as (r & -> & ->).
      destruct r; eauto.
    - rewrite rooms_put_room.
      destruct (waiting_for_eight r') eqn:Hw'; cbn [negb]; [eauto|].
      destruct (make_bot_move_calm f (fun n => gs (S n)) cc (put_room room_id r' s)
                  room_id bot_id r' Hb Hr (rooms_put_room _ _ _) Hw') as (r & -> & ->).
      destruct r; eauto. }
  destruct (Hstep 0) as (r & _ & H3). exists r. intros fuel Hfuel.
  destruct fuel as [|[|[|f]]]; [lia..|].
  destruct (Hstep f) as (r' & Hf & H3'). congruence.
Qed.

Lemma make_bot_move_returns_witness :
  exists r, forall fuel, 3 <= fuel ->
    make_bot_move fuel (fun _ => g0) cc0 (server_of room_exhausted) "r" "b" = Some r.
Proof.
  apply (make_bot_move_returns (fun _ => g0) cc0 (server_of room_exhausted) "r" "b"); done.
Defined.

(** ** An error reply means that nothing happened *)

Lemma quiet_map {A} (f : A -> Effect) l :
  (forall x, match f x with WsSend _ _ => False | _ => True end) -> quiet (map f l).
Proof. intros H. apply Forall_map, Forall_forall. intros x _. apply H. Qed.

Lemma quiet_app out1 out2 : quiet out1 -> quiet out2 -> quiet (out1 ++ out2).
Proof. intros H1 H2. apply Forall_app. by split. Qed.

Lemma quiet_not_error out : quiet out -> ~ error_replied out.
Proof.
  intros Hq (w & m & Hin). unfold quiet in Hq. rewrite Forall_forall in Hq.
  exact (Hq _ Hin).
Qed.

Lemma deck_shuffled_messages_quiet room b : quiet (deck_shuffled_messages room b).
Proof. unfold deck_shuffled_messages. destruct b; [by apply quiet_map|constructor]. Qed.

Lemma bot_turn_quiet rid room : quiet (bot_turn rid room).
Proof.
  unfold bot_turn. destruct (get_player _ _) as [p|]; [|constructor].
  destruct (is_bot p); by repeat constructor.
Qed.

Lemma draw_card_tail_quiet bot_id rid pid n room : quiet (draw_card_tail bot_id rid pid n room).
Proof.
  unfold draw_card_tail. constructor; [done|]. apply quiet_app.
  - apply quiet_map. by intros [k p].
  - destruct (_ && _); by repeat constructor.
Qed.

Lemma play_card_room_replies g ws rid pid cid chosen room :
  match play_card_room g ws rid pid cid chosen room with
  | Rejected r' _ => r' = room
  | Accepted _ out => quiet out
  | _ => True
  end.
Proof.
  unfold play_card_room.
  destruct (player_ids room !! current_player_index room) as [cur|]; [|done].
  destruct (negb (str_eq cur pid)); [done|].
  destruct (get_player pid (players room)) as [player|]; [|done].
  destruct (find_card cid (hand player)) as [card|]; [|done].
  destruct (last (discard_pile room)) as [top_card|]; [|done].
  assert (match play_card_apply g rid pid card chosen
            (clear_eight_drawn_cards
               (set_eight_draw_used false (set_waiting_for_eight false room))) with
          | Rejected _ _ => False | Accepted _ out => quiet out | _ => True end /\
          match play_card_apply g rid pid card chosen room with
          | Rejected _ _ => False | Accepted _ out => quiet out | _ => True end) as [H1 H2].
  { split; unfold play_card_apply.
    all: destruct (play_card_draw_effects _ _ _) as [[[[r4 nx] fid] fc] sh].
    all: destruct (get_player pid (players r4)) as [p4|]; [|done].
    all: destruct (length (hand p4) =? 0); [done|].
    all: destruct (play_card_late_effects _ _ _ _) as [r5 nx'].
    all: constructor; [done|]; apply quiet_app; [apply quiet_map; by intros [k p]|].
    all: apply quiet_app; [apply deck_shuffled_messages_quiet|apply bot_turn_quiet]. }
  unfold play_card_check. destruct (waiting_for_eight room).
  - destruct (_ && _); [by destruct ws|].
    clear H2. revert H1. destruct (play_card_apply _ _ _ _ _ _); done.
  - destruct (negb _); [done|].
    clear H1. revert H2. destruct (play_card_apply _ _ _ _ _ _); done.
Qed.

Lemma draw_card_room_replies g ws bot_id rid pid room :
  Random_ok g ->
  match draw_card_room g ws bot_id rid pid room with
  | Rejected r' _ => r' = room
  | Accepted _ out => quiet out
  | _ => True
  end.
Proof.
  intros Hg. unfold draw_card_room.
  destruct (player_ids room !! current_player_index room) as [cur|]; [|done].
  destruct (negb (str_eq cur pid)); [done|].
  destruct (waiting_for_eight room).
  - destruct (eight_draw_used room); [done|].
    destruct (eight_draw_loop _ _ _ _ _ _) as [[r2 drawn] sh].
    apply quiet_app; [apply deck_shuffled_messages_quiet|apply draw_card_tail_quiet].
  - destruct (card_drawn_this_turn room); [by destruct ws|].
    destruct (replenish_deck g room) as [r1 sh] eqn:Hrep.
    destruct (pop (deck r1)) as [[c d]|] eqn:Hpop.
    + apply quiet_app; [apply deck_shuffled_messages_quiet|apply draw_card_tail_quiet].
    + apply pop_None in Hpop.
      destruct (replenish_deck_cases g room r1 sh Hg Hrep) as (_ & _ & _ & _ & Hex).
      destruct (Hex Hpop) as (_ & _ & ->). by destruct ws.
Qed.

Lemma game_end_room_quiet rid w room : quiet (game_end_out (game_end_room rid w room)).
Proof.
  unfold game_end_room. destruct (tally w room) as [room1 results].
  match goal with |- context [if ?c then RoomClosed _ _ else _] => destruct c end; simpl.
  - apply quiet_app; [by apply quiet_map|]. apply quiet_app; [by apply quiet_map|].
    by repeat constructor.
  - apply quiet_app; [by apply quiet_map|]. apply quiet_app; [by apply quiet_map|].
    constructor; [done|]. by apply quiet_map.
Qed.

Lemma handle_game_end_quiet s rid w : quiet (handle_game_end s rid w).2.
Proof.
  unfold handle_game_end. destruct (rooms s !! rid) as [room|]; [|constructor].
  pose proof (game_end_room_quiet rid w room) as Hq.
  destruct (game_end_room rid w room) as [r' out|r' kicked out]; simpl in Hq.
  - match goal with |- context [broadcast_rooms ?x] =>
      destruct (broadcast_rooms_out x) as [m Hm]; destruct (broadcast_rooms x) as [s2 out2]
    end. simpl in *. subst out2. apply quiet_app; [done|by repeat constructor].
  - match goal with |- context [broadcast_rooms ?x] =>
      destruct (broadcast_rooms_out x) as [m Hm]; destruct (broadcast_rooms x) as [s2 out2]
    end. simpl in *. subst out2. apply quiet_app; [done|by repeat constructor].
Qed.

(** X17: validation comes before any change. Whenever [handle_play_card]
    or [handle_draw_card] answers the request with an [error] event, the
    server is exactly as it was: no card has moved, no flag has changed and
    the turn is where it was. *)
Theorem error_reply_means_no_change g s ws cid chosen bot_id room_id s' out :
  Random_ok g ->
  error_replied out ->
  (handle_play_card g s ws cid chosen bot_id room_id = Return s' out -> s' = s) /\
  (handle_draw_card g s ws bot_id room_id = Return s' out -> s' = s).
Proof.
  intros Hg Herr. split.
  - unfold handle_play_card.
    destruct (resolve_room s ws bot_id room_id) as [[[pid rid] room]|] eqn:Hres.
    2:{ intros [= <- <-]. destruct Herr as (w & m & H). by apply elem_of_nil in H. }
    apply resolve_room_Some in Hres as [Hroom _].
    pose proof (play_card_room_replies g ws rid pid cid chosen room) as Hrep.
    destruct (play_card_room g ws rid pid cid chosen room) as [r' o|exn r'|r' w|r' o].
    + intros [= <- <-]. subst r'. by apply put_room_id.
    + done.
    + pose proof (handle_game_end_quiet (put_room rid r' s) rid w) as Hq.
      destruct (handle_game_end (put_room rid r' s) rid w) as [s2 o2]. simpl in Hq.
      intros [= <- <-]. by apply quiet_not_error in Hq.
    + intros [= <- <-]. by apply quiet_not_error in Hrep.
  - unfold handle_draw_card.
    destruct (resolve_room s ws bot_id room_id) as [[[pid rid] room]|] eqn:Hres.
    2:{ intros [= <- <-]. destruct Herr as (w & m & H). by apply elem_of_nil in H. }
    apply resolve_room_Some in Hres as [Hroom _].
    pose proof (draw_card_room_replies g ws bot_id rid pid room Hg) as Hrep.
    destruct (draw_card_room g ws bot_id rid pid room) as [r' o|exn r'|r' w|r' o].
    + intros [= <- <-]. subst r'. by apply put_room_id.
    + done.
    + intros [= <- <-]. destruct Herr as (w' & m & H). by apply elem_of_nil in H.
    + intros [= <- <-]. by apply quiet_not_error in Hrep.
Qed.

Lemma error_reply_means_no_change_witness :
  server_after (handle_play_card g0 (server_of room_play) (Some 1) (Some "c2") None None None)
  = server_of room_play.
Proof.
  destruct (error_reply_means_no_change g0 (server_of room_play) (Some 1) (Some "c2") None
              None None
              (server_after (handle_play_card g0 (server_of room_play) (Some 1) (Some "c2")
                               None None None))
              [WsSend 1 (ev_error "Cannot play this card")] g0_ok) as [H _].
  - exists 1, "Cannot play this card". apply list_elem_of_singleton. reflexivity.
  - apply H. vm_compute. reflexivity.
Defined.

(** ** Who deals next *)

Lemma round_loser_spec w results :
  match round_loser w results with
  | Some l =>
      exists e, e ∈ results /\ re_player_id e = l /\ l <> w /\
                forall e', e' ∈ results -> re_player_id e' <> w ->
                           (re_points e' <= re_points e)%Z
  | None =>
      forall e', e' ∈ results -> re_player_id e' <> w -> (re_points e' <= -1)%Z
  end.
Proof.
  unfold round_loser.
  set (step := fun (acc : option string * Z) result => _).
  assert (forall rs done_ acc,
            (match fst acc with
             | Some l =>
                 exists e, e ∈ done_ /\ re_player_id e = l /\ l <> w /\
                           re_points e = snd acc
             | None => snd acc = (-1)%Z
             end /\
             forall e', e' ∈ done_ -> re_player_id e' <> w -> (re_points e' <= snd acc)%Z) ->
            match fst (fold_left step rs acc) with
            | Some l =>
                exists e, e ∈ done_ ++ rs /\ re_player_id e = l /\ l <> w /\
                          forall e', e' ∈ done_ ++ rs -> re_player_id e' <> w ->
                                     (re_points e' <= re_points e)%Z
            | None =>
                forall e', e' ∈ done_ ++ rs -> re_player_id e' <> w ->
                           (re_points e' <= -1)%Z
            end) as Hfold.
  { induction rs as [|r rs IH]; intros done_ acc [Hacc Hmax].
    - simpl. rewrite app_nil_r. destruct (fst acc) as [l|].
      + destruct Hacc as (e & He & Hid & Hne & Hp). exists e.
        repeat split; try done. intros e' He' Hw. rewrite Hp. by apply Hmax.
      + intros e' He' Hw. rewrite <- Hacc. by apply Hmax.
    - simpl. replace (done_ ++ r :: rs) with ((done_ ++ [r]) ++ rs)
        by (by rewrite <- app_assoc).
      apply IH. subst step. simpl.
      destruct (str_eq (re_player_id r) w) eqn:Ew; simpl.
      + split.
        * destruct (fst acc) as [l|]; [|done].
          destruct Hacc as (e & He & Hrest). exists e. split; [|done].
          apply elem_of_app. by left.
        * intros e' [He'|He']%elem_of_app Hw; [by apply Hmax|].
          apply list_elem_of_singleton in He' as ->. apply str_eq_true in Ew. done.
      + apply str_eq_false in Ew.
        destruct (snd acc <? re_points r)%Z eqn:Elt; simpl.
        * apply Z.ltb_lt in Elt. split.
          -- exists r. split; [apply elem_of_app; right; by apply list_elem_of_singleton|done].
          -- intros e' [He'|He']%elem_of_app Hw.
             ++ specialize (Hmax e' He' Hw). lia.
             ++ apply list_elem_of_singleton in He' as ->. lia.
        * apply Z.ltb_ge in Elt. split.
          -- destruct (fst acc) as [l|]; [|done].
             destruct Hacc as (e & He & Hrest). exists e. split; [|done].
             apply elem_of_app. by left.
          -- intros e' [He'|He']%elem_of_app Hw; [by apply Hmax|].
             apply list_elem_of_singleton in He' as ->. done. }
  specialize (Hfold results [] (None, (-1)%Z)). simpl in Hfold. apply Hfold.
  split; [done|]. intros e' He'. by apply elem_of_nil in He'.
Qed.

Lemma tally_result_elem w room e :
  e ∈ (tally w room).2 ->
  exists p, (re_player_id e, p) ∈ players room /\
            (re_player_id e <> w -> re_points e = calculate_hand_points (hand p)).
Proof.
  unfold tally. simpl. rewrite list_elem_of_In, map_map, in_map_iff.
  intros ([k p] & <- & Hin). apply list_elem_of_In in Hin.
  unfold tally_player. destruct (str_eq k w) eqn:E; simpl.
  - exists p. split; [done|]. apply str_eq_true in E. done.
  - exists p. by split.
Qed.

Lemma tally_result_of w room k p :
  (k, p) ∈ players room -> k <> w ->
  exists e, e ∈ (tally w room).2 /\ re_player_id e = k /\
            re_points e = calculate_hand_points (hand p).
Proof.
  intros Hin Hne. unfold tally. simpl.
  exists (snd (tally_player w (queen_bonus room) (k, p))). split.
  - apply list_elem_of_In. rewrite map_map. apply in_map_iff.
    exists (k, p). split; [done|by apply list_elem_of_In].
  - unfold tally_player. apply str_eq_false in Hne. by rewrite Hne.
Qed.

(** X18: the seat that [handle_game_end] records as the loser of the
    round is a seat other than the winner whose remaining hand is worth at
    least as much as that of every other losing seat, and it is recorded
    only if it stays in the room: it is still seated when the next round is
    dealt, where [start_game] makes it the dealer. *)
Theorem round_loser_is_recorded rid w room r2 kicked out l :
  game_end_room rid w room = NextRound r2 kicked out ->
  last_loser_id r2 = Some l ->
  l <> w /\ l <> "" /\ (l ∉ kicked) /\ l ∈ player_ids r2 /\
  exists p,
    (l, p) ∈ players room /\
    forall k q, (k, q) ∈ players room -> k <> w ->
                (calculate_hand_points (hand q) <= calculate_hand_points (hand p))%Z.
Proof.
  unfold game_end_room.
  pose proof (round_loser_spec w (tally w room).2) as Hspec.
  pose proof (tally_result_elem w room) as Helem.
  pose proof (tally_result_of w room) as Hof.
  assert (map fst (players (tally w room).1) = map fst (players room)) as Hids.
  { unfold tally. simpl. rewrite !map_map. apply map_ext. intros [k p].
    unfold tally_player. by destruct (negb _). }
  destruct (tally w room) as [room1 results]. simpl in *.
  match goal with |- context [if ?c then RoomClosed _ _ else _] => destruct c end;
    [done|].
  intros Hend.
  assert (kicked = players_to_kick (players room1)) as ->.
  { by injection Hend as _ <- _. }
  apply (f_equal (fun x => match x with NextRound r _ _ => Some r | _ => None end)) in Hend.
  injection Hend as <-. unfold reset_for_new_game. simpl.
  destruct (round_loser w results) as [l'|]; simpl; [|done].
  destruct (str_eq l' "") eqn:Ee; simpl; [done|]. apply str_eq_false in Ee.
  destruct (str_in l' (players_to_kick (players room1))) eqn:Ek; simpl; [done|].
  apply str_in_not_elem in Ek. intros [= <-].
  destruct Hspec as (e & He & Hid & Hne & Hmax).
  split; [done|]. split; [done|]. split; [done|].
  destruct (Helem e He) as (p & Hp & Hpts). rewrite Hid in Hp. split.
  - unfold player_ids. simpl. rewrite map_map. simpl.
    assert (l' ∈ map fst (players room1)) as Hin1.
    { rewrite Hids. apply list_elem_of_fmap. by exists (l', p). }
    apply list_elem_of_fmap in Hin1 as ([k q] & Hk & Hq). simpl in Hk. subst k.
    apply (reset_101_elem _ _ _) in Hq.
    apply list_elem_of_fmap. eexists (l', _). split; [done|].
    apply del_players_elem. split; [exact Hq|done].
  - exists p. split; [done|]. intros k q Hq Hk.
    destruct (Hof k q Hq Hk) as (e' & He' & Hid' & Hpts').
    rewrite <- Hpts', <- Hpts by (by rewrite Hid). apply Hmax; [done|by rewrite Hid'].
Qed.

Lemma round_loser_is_recorded_witness :
  "b" <> "a" /\ "b" <> "" /\ ("b" ∉ []) /\
  "b" ∈ player_ids (default room_endQ (after "r" (RoundOver room_endQ "a"))) /\
  exists p,
    ("b", p) ∈ players room_endQ /\
    forall k q, (k, q) ∈ players room_endQ -> k <> "a" ->
                (calculate_hand_points (hand q) <= calculate_hand_points (hand p))%Z.
Proof.
  apply (round_loser_is_recorded "r" "a" room_endQ
           (default room_endQ (after "r" (RoundOver room_endQ "a"))) []
           (game_end_out (game_end_room "r" "a" room_endQ)) "b").
  - vm_compute. reflexivity.
  - vm_compute. reflexivity.
Defined.

(** ** A room rebuilt from the database *)

Lemma Forall_dict_set (P : string * Player -> Prop) k v ps :
  (forall k', P (k', v)) -> Forall P ps -> Forall P (dict_set k v ps).
Proof.
  intros Hv. induction 1 as [|[k' p] ps Hp Hps IH]; simpl.
  - by repeat constructor.
  - destruct (str_eq k' k); constructor; auto.
Qed.

Lemma foldl_insert_lookup (m : gmap string string) rid pids pid :
  pid ∈ pids -> foldl (fun m pid => <[pid := rid]> m) m pids !! pid = Some rid.
Proof.
  revert m. induction pids as [|k pids IH]; intros m; simpl.
  - by intros ?%elem_of_nil.
  - intros [->|Hin]%elem_of_cons; [|by apply IH].
    destruct (decide (k ∈ pids)) as [Hk|Hk]; [by apply IH|].
    clear IH. revert m. induction pids as [|k' pids IH]; intros m; simpl.
    + apply lookup_insert_eq.
    + apply not_elem_of_cons in Hk as [Hne Hk].
      rewrite insert_insert_ne by done. by apply IH.
Qed.

(** X19: what a reload forgets. Whatever the database holds, the room
    [load_room] rebuilds has the deck size 52, no creator, is public, has
    no pending countdown, no last loser and an unused 8-draw, and every
    seat of it is a human seat keyed by its id: the table [rooms] has no
    column for [deck_size], [creator_id], [is_private] or
    [eight_draw_used], and [players] none for [is_bot]. So in a reloaded
    room the bot never moves for any seat, and nobody can change the deck
    size or the privacy. The room is registered under the requested id and
    every seat of it is indexed to that id; the connections are
    untouched. *)
Theorem load_room_forgets s rid q s' room :
  load_room s rid q = (s', Some room) ->
  deck_size room = 52 /\ creator_id room = None /\ is_private room = false /\
  eight_draw_used room = false /\ last_loser_id room = None /\
  countdown_active room = false /\ eight_drawn_cards room = Some ∅ /\
  (forall pid p, (pid, p) ∈ players room -> is_bot p = false) /\
  (forall g cc bot_id, bot_decide g cc bot_id room = BotIdle) /\
  (forall pid size, change_deck_size pid size room = None) /\
  (forall pid private, toggle_private pid private room = None) /\
  rooms s' !! rid = Some room /\ clients s' = clients s /\
  forall pid, pid ∈ player_ids room -> player_rooms s' !! pid = Some rid.
Proof.
  unfold load_room. destruct (ans_room q) as [rd|]; [|done].
  intros [= <- <-]. simpl.
  set (ps := foldl _ [] (ans_players q)).
  assert (Forall (fun kp : string * Player => is_bot (snd kp) = false) ps) as Hbots.
  { subst ps. generalize (@nil (string * Player)) (Forall_nil_2
      (fun kp : string * Player => is_bot (snd kp) = false)).
    induction (ans_players q) as [|pd l IH]; intros acc Hacc; simpl; [done|].
    apply IH. by apply Forall_dict_set. }
  rewrite Forall_forall in Hbots.
  repeat split; try done.
  - intros pid p Hin. exact (Hbots _ Hin).
  - intros g cc bot_id. unfold bot_decide. simpl.
    destruct (row_game_started rd); simpl; [|done].
    destruct (get_player bot_id ps) as [bot|] eqn:Hp; [|done].
    apply get_player_elem in Hp. apply Hbots in Hp. simpl in Hp. by rewrite Hp.
  - apply lookup_insert_eq.
  - intros pid Hin. by apply foldl_insert_lookup.
Qed.

Lemma load_room_forgets_witness :
  deck_size (default room_play (load_room (server_of room_play) "r" answers0).2) = 52.
Proof.
  destruct (load_room_forgets (server_of room_play) "r" answers0
              (load_room (server_of room_play) "r" answers0).1
              (default room_play (load_room (server_of room_play) "r" answers0).2))
    as (H & _).
  - reflexivity.
  - exact H.
Defined.

(** ** Who receives which hand *)

Lemma deliver_own s conns room e w m c :
  conns_of s conns -> own_hand room e ->
  (w, m) ∈ deliver s conns e -> c ∈ cards_shown m ->
  exists pid p, clients s !! w = Some pid /\ (pid, p) ∈ players room /\ c ∈ hand p.
Proof.
  intros Hconns Hown Hin Hc. destruct e as [ws m'|pid m'|rid m'|m'| | | | |]; simpl in *.
  - apply list_elem_of_singleton in Hin as [= -> ->]. rewrite Hown in Hc.
    by apply elem_of_nil in Hc.
  - unfold send_to_player in Hin.
    destruct (List.find _ conns) as [[w' pid']|] eqn:Hfind;
      [|by apply elem_of_nil in Hin].
    apply list_elem_of_singleton in Hin as [= -> ->].
    apply find_some in Hfind as [Hmem Hpid]. simpl in Hpid.
    apply str_eq_true in Hpid as ->. apply list_elem_of_In in Hmem.
    destruct Hown as (Hrev & _ & Hhand).
    unfold cards_shown in Hc. rewrite Hrev, app_nil_r in Hc.
    destruct (shown_hand m') as [h|]; [|by apply elem_of_nil in Hc].
    destruct (Hhand h eq_refl) as (p & Hp & ->).
    exists pid, p. split; [by apply Hconns|done].
  - unfold broadcast_to_room in Hin. destruct (rooms s !! rid); [|by apply elem_of_nil in Hin].
    apply list_elem_of_fmap in Hin as (c' & [= -> ->] & _). rewrite Hown in Hc.
    by apply elem_of_nil in Hc.
  - apply list_elem_of_fmap in Hin as (c' & [= -> ->] & _). rewrite Hown in Hc.
    by apply elem_of_nil in Hc.
  - by apply elem_of_nil in Hin.
  - by apply elem_of_nil in Hin.
  - by apply elem_of_nil in Hin.
  - by apply elem_of_nil in Hin.
  - by apply elem_of_nil in Hin.
Qed.

Lemma delivered_own s conns room out w m c :
  conns_of s conns -> Forall (own_hand room) out ->
  (w, m) ∈ flat_map (deliver s conns) out -> c ∈ cards_shown m ->
  exists pid p, clients s !! w = Some pid /\ (pid, p) ∈ players room /\ c ∈ hand p.
Proof.
  intros Hconns Hown Hin Hc.
  apply list_elem_of_In, in_flat_map in Hin as (e & He & Hin).
  apply list_elem_of_In in He, Hin. rewrite Forall_forall in Hown.
  exact (deliver_own s conns room e w m c Hconns (Hown e He) Hin Hc).
Qed.

Lemma round_end_delivered s conns winner_id room out w m c :
  Forall (round_end_event winner_id room) out ->
  (w, m) ∈ flat_map (deliver s conns) out -> c ∈ cards_shown m ->
  (exists wid wc results, m = ev_game_ended wid wc results) /\
  exists seat p, (seat, p) ∈ players room /\ seat <> winner_id /\ c ∈ hand p.
Proof.
  intros Hev Hin Hc.
  apply list_elem_of_In, in_flat_map in Hin as (e & He & Hin).
  apply list_elem_of_In in He, Hin. rewrite Forall_forall in Hev.
  specialize (Hev e He).
  destruct e as [ws m'|pid m'|rid m'|m'| | | | |]; simpl in Hin, Hev;
    try (by apply elem_of_nil in Hin).
  - apply list_elem_of_singleton in Hin as [= -> ->]. rewrite Hev in Hc.
    by apply elem_of_nil in Hc.
  - unfold send_to_player in Hin.
    destruct (List.find _ conns) as [[w' pid']|]; [|by apply elem_of_nil in Hin].
    apply list_elem_of_singleton in Hin as [= -> ->].
    destruct m'; try (rewrite Hev in Hc; by apply elem_of_nil in Hc).
    split; [eauto|].
    unfold cards_shown in Hc. simpl in Hc. rewrite Hev in Hc.
    apply list_elem_of_In, in_concat in Hc as (h & Hh & Hc).
    apply in_map_iff in Hh as ([k h'] & <- & Hh).
    apply in_map_iff in Hh as ([seat p] & [= <- <-] & Hp). simpl in Hc.
    exists seat, p. split; [by apply list_elem_of_In|].
    destruct (str_eq seat winner_id) eqn:E; [done|].
    split; [by apply str_eq_false|by apply list_elem_of_In].
  - unfold broadcast_to_room in Hin. destruct (rooms s !! rid); [|by apply elem_of_nil in Hin].
    apply list_elem_of_fmap in Hin as (c' & [= -> ->] & _). rewrite Hev in Hc.
    by apply elem_of_nil in Hc.
  - apply list_elem_of_fmap in Hin as (c' & [= -> ->] & _). rewrite Hev in Hc.
    by apply elem_of_nil in Hc.
Qed.

(** X20: hands on the wire. Of all that [handle_play_card],
    [handle_draw_card], [handle_skip_turn] and [start_game] send through
    [send_to_player] and [broadcast_to_room] while the round goes on, a card
    of a hand reaches only a connection registered for the seat that holds
    it: [send_to_player] writes to one connection of the addressee and to no
    other, and nothing that is broadcast or replied carries a hand.  When a
    play empties the hand, [handle_play_card] sends what [handle_game_end]
    sends: there the one event that carries cards is [game_ended], and the
    cards it brings to a connection, of whichever seat, are cards left in
    the hand of a seat that has not won. *)
Theorem hands_reach_their_seat_only g ws bot_id rid pid cid chosen room s conns w m c :
  conns_of s conns ->
  c ∈ cards_shown m ->
  let reaches o :=
    (w, m) ∈ flat_map (deliver s conns) (events_of o) ->
    exists seat p, clients s !! w = Some seat /\ (seat, p) ∈ players (room_of o) /\
                   c ∈ hand p in
  reaches (play_card_room g ws rid pid cid chosen room) /\
  reaches (draw_card_room g ws bot_id rid pid room) /\
  reaches (skip_turn_room ws rid pid room) /\
  reaches (start_game_room g rid room) /\
  forall room' winner_id,
    play_card_room g ws rid pid cid chosen room = RoundOver room' winner_id ->
    (w, m) ∈ flat_map (deliver s conns)
               (handle_game_end (put_room rid room' s) rid winner_id).2 ->
    (exists wid wc results, m = ev_game_ended wid wc results) /\
    exists seat p, (seat, p) ∈ players room' /\ seat <> winner_id /\ c ∈ hand p.
Proof.
  intros Hconns Hc reaches. subst reaches. simpl.
  split; [|split; [|split; [|split]]].
  - intros Hin. eapply delivered_own; [done|apply play_card_room_own|done..].
  - intros Hin. eapply delivered_own; [done|apply draw_card_room_own|done..].
  - intros Hin. eapply delivered_own; [done|apply skip_turn_room_own|done..].
  - intros Hin. eapply delivered_own; [done|apply start_game_room_own|done..].
  - intros room' winner_id _ Hin.
    destruct (handle_game_end_out (put_room rid room' s) rid winner_id room') as [m' Hout].
    { simpl. apply lookup_insert_eq. }
    rewrite Hout in Hin.
    apply (round_end_delivered s conns winner_id room' _ w m c) in Hin; [done| |done].
    apply Forall_app. split; [apply game_end_room_events|].
    constructor; [|constructor]. done.
Qed.

(** Seat a wins with the Queen of spades: its connection is sent, in
    [game_ended], the 9 of diamonds that seat b still holds. *)
Lemma hands_reach_their_seat_only_witness :
  exists k p,
    (k, p) ∈ players (table [seat "a" [] 0 false; seat "b" [c9d; cKs] 0 true]
                        [c3c] [c7h; cQs] 0 52) /\
    k <> "a" /\ c9d ∈ hand p.
Proof.
  destruct (hands_reach_their_seat_only g0 (Some 1) None "r" "a" (Some "c6") None room_winQ
              (server_of room_winQ) [(1, "a")] 1
              (ev_game_ended "a" (Some cQs)
                 [mkResultEntry "a" "a" (-40) (-40) [] (Some (-40)%Z);
                  mkResultEntry "b" "b" 13 13 [c9d; cKs] None])
              c9d) as (_ & _ & _ & _ & H).
  - intros w pid Hin. apply list_elem_of_singleton in Hin. injection Hin as -> ->.
    reflexivity.
  - apply list_elem_of_In. vm_compute. left. reflexivity.
  - apply (H (table [seat "a" [] 0 false; seat "b" [c9d; cKs] 0 true] [c3c] [c7h; cQs] 0 52)
             "a"); [reflexivity|].
    apply list_elem_of_In. vm_compute. left. reflexivity.
Defined.
